(** * Camera subsystem: ArcBallCamera, FirstPersonCamera and Navigator

    A shallow embedding of [src/ArcBallCamera.js], [src/FirstPersonCamera.js]
    and [src/navigate/Navigator.js] of the Web WorldWind custom build.

    Numbers.  A JavaScript Number that is finite is a rational, so camera
    fields are modelled in [Q] with exact arithmetic; [NaN] and the two
    infinities are outside the model.  [Number.MAX_VALUE] and [Math.PI] are
    the exact rationals that the corresponding doubles denote.

    Objects.  Cameras, matrices and the Positions that the application
    hands to a navigator live in a store indexed by locations, so that "the
    matrix that was passed in", "the active camera of the navigator" and
    "the position that was assigned" are identities of objects and not
    copies of values.  Methods are computations in a state-and-exception
    monad over that store. *)

From Stdlib Require Import QArith Qround Lqa ZArith Lia String.
From stdpp Require Import base option gmap.

Local Open Scope Q_scope.

(** ** Numbers *)

Module Number.

(** The JavaScript relational operators on finite numbers. *)
Definition lt (x y : Q) : bool :=
  match x ?= y with Lt => true | _ => false end.

Definition gt (x y : Q) : bool := lt y x.

Definition le (x y : Q) : bool :=
  match x ?= y with Gt => false | _ => true end.

(** [Number.MAX_VALUE], the largest finite double: (2^53 - 1) * 2^971. *)
Definition MAX_VALUE : Q := inject_Z ((2 ^ 53 - 1) * 2 ^ 971).

(** [x % 360]: the remainder of the truncated division, which has the sign
    of the dividend.  On [n/d] it is [(n rem 360 d) / d]. *)
Definition rem360 (x : Q) : Q :=
  Z.rem (Qnum x) (360 * Zpos (Qden x)) # Qden x.

End Number.

Module Math.

(** [Math.PI], the double nearest to pi: 884279719003555 / 2^48. *)
Definition PI : Q := 884279719003555 # (2 ^ 48).

End Math.

(** ** Helpers of the geometry library used by the cameras *)

Module WWMath.

(** Modelled from the spec: [WWMath.clamp] ([src/util/WWMath.js]) is not
    among the sources.  The spec says "clamp to [lo, hi]": a value below
    the minimum becomes the minimum, a value above the maximum becomes the
    maximum, any other value is returned as it is. *)
Definition clamp (value minimum maximum : Q) : Q :=
  if Number.lt value minimum then minimum
  else if Number.gt value maximum then maximum
  else value.

End WWMath.

Module Angle.

(** Modelled from the spec: [Angle.normalizedDegrees] ([src/geom/Angle.js])
    is not among the sources.  The spec says "normalize into (-180,180]
    (wrap-around)": the angle is reduced modulo 360 and a remainder outside
    the half-open interval is moved into it by one full turn. *)
Definition normalizedDegrees (degrees : Q) : Q :=
  let angle := Number.rem360 degrees in
  if Number.gt angle 180 then angle - 360
  else if Number.le angle (-180) then 360 + angle
  else angle.

(** Modelled from the spec: [Angle.normalizedDegreesLongitude] is not among
    the sources.  The spec says "normalize target longitude into (-180,180]
    (wrap-around, not clamp)". *)
Definition normalizedDegreesLongitude (degrees : Q) : Q :=
  let lon := Number.rem360 degrees in
  if Number.gt lon 180 then lon - 360
  else if Number.le lon (-180) then 360 + lon
  else lon.

End Angle.

(** ** Data model *)

(** [Position]: a geographic position, latitude and longitude in degrees and
    altitude in meters. *)
Record Position : Type := mkPosition {
  latitude : Q;
  longitude : Q;
  altitude : Q
}.

(** The part of [Globe] that the cameras read: the projection mode, which
    [is2D()] returns, and the equatorial radius.  A camera reads its globe
    through [this.wwd.globe] and never writes it, so the WorldWindow is kept
    in the camera by value. *)
Record Globe : Type := mkGlobe {
  is2D : bool;
  equatorialRadius : Q
}.

Record WorldWindow : Type := mkWorldWindow {
  globe : Globe
}.

(** 3-vectors and 4x4 matrices hold numbers. *)
Record Vec3 : Type := mkVec3 { vx : Q; vy : Q; vz : Q }.

Record Matrix : Type := mkMatrix {
  m11 : Q; m12 : Q; m13 : Q; m14 : Q;
  m21 : Q; m22 : Q; m23 : Q; m24 : Q;
  m31 : Q; m32 : Q; m33 : Q; m34 : Q;
  m41 : Q; m42 : Q; m43 : Q; m44 : Q
}.

Record Line : Type := mkLine { origin : Vec3; direction : Vec3 }.

(** [ArcBallCamera]: the fields set by the constructor.  The scratch matrix
    is an object of its own (it is handed to [createViewMatrix]), so the
    camera holds its location; the scratch vector is only ever used by the
    camera itself and is kept by value. *)
Record ArcBallCamera : Type := mkArcBallCamera {
  ab_position : Position;
  ab_heading : Q;
  ab_tilt : Q;
  ab_range : Q;
  ab_roll : Q;
  ab_wwd : WorldWindow;
  ab_scratchMatrix : positive;
  ab_scratchVector : Vec3
}.

(** [FirstPersonCamera]: the fields set by the constructor.  [range] is an
    accessor property on [position.altitude], not a field. *)
Record FirstPersonCamera : Type := mkFirstPersonCamera {
  fp_position : Position;
  fp_heading : Q;
  fp_tilt : Q;
  fp_roll : Q;
  fp_wwd : WorldWindow;
  fp_scratchMatrix : positive;
  fp_scratchVector : Vec3;
  fp_ray : Line
}.

(** ** applyLimits *)

(** [ArcBallCamera.prototype.applyLimits], one assignment after the other. *)
Definition ArcBallCamera_applyLimits (this : ArcBallCamera) : ArcBallCamera :=
  let latitude1 := WWMath.clamp (latitude (ab_position this)) (-90) 90 in
  let longitude1 := Angle.normalizedDegreesLongitude (longitude (ab_position this)) in
  let altitude1 := WWMath.clamp (altitude (ab_position this)) 0 Number.MAX_VALUE in
  let range1 := WWMath.clamp (ab_range this) 1 Number.MAX_VALUE in
  let heading1 := Angle.normalizedDegrees (ab_heading this) in
  let tilt1 := WWMath.clamp (ab_tilt this) 0 90 in
  let roll1 := Angle.normalizedDegrees (ab_roll this) in
  if is2D (globe (ab_wwd this)) then
    let maxRange := 2 * Math.PI * equatorialRadius (globe (ab_wwd this)) in
    let range2 := WWMath.clamp range1 1 maxRange in
    let tilt2 := 0 in
    {| ab_position := mkPosition latitude1 longitude1 altitude1;
       ab_heading := heading1; ab_tilt := tilt2; ab_range := range2;
       ab_roll := roll1; ab_wwd := ab_wwd this;
       ab_scratchMatrix := ab_scratchMatrix this;
       ab_scratchVector := ab_scratchVector this |}
  else
    {| ab_position := mkPosition latitude1 longitude1 altitude1;
       ab_heading := heading1; ab_tilt := tilt1; ab_range := range1;
       ab_roll := roll1; ab_wwd := ab_wwd this;
       ab_scratchMatrix := ab_scratchMatrix this;
       ab_scratchVector := ab_scratchVector this |}.

(** [FirstPersonCamera.prototype.applyLimits]. *)
Definition FirstPersonCamera_applyLimits (this : FirstPersonCamera) : FirstPersonCamera :=
  let latitude1 := WWMath.clamp (latitude (fp_position this)) (-90) 90 in
  let longitude1 := Angle.normalizedDegreesLongitude (longitude (fp_position this)) in
  let altitude1 := WWMath.clamp (altitude (fp_position this)) 0 Number.MAX_VALUE in
  let tilt1 := WWMath.clamp (fp_tilt this) (-90) 90 in
  let heading1 := Angle.normalizedDegrees (fp_heading this) in
  let roll1 := Angle.normalizedDegrees (fp_roll this) in
  {| fp_position := mkPosition latitude1 longitude1 altitude1;
     fp_heading := heading1; fp_tilt := tilt1; fp_roll := roll1;
     fp_wwd := fp_wwd this;
     fp_scratchMatrix := fp_scratchMatrix this;
     fp_scratchVector := fp_scratchVector this;
     fp_ray := fp_ray this |}.

(** ** Writing one field *)

Definition ab_set_position (p : Position) (c : ArcBallCamera) : ArcBallCamera :=
  {| ab_position := p; ab_heading := ab_heading c; ab_tilt := ab_tilt c;
     ab_range := ab_range c; ab_roll := ab_roll c; ab_wwd := ab_wwd c;
     ab_scratchMatrix := ab_scratchMatrix c;
     ab_scratchVector := ab_scratchVector c |}.

Definition ab_set_heading (v : Q) (c : ArcBallCamera) : ArcBallCamera :=
  {| ab_position := ab_position c; ab_heading := v; ab_tilt := ab_tilt c;
     ab_range := ab_range c; ab_roll := ab_roll c; ab_wwd := ab_wwd c;
     ab_scratchMatrix := ab_scratchMatrix c;
     ab_scratchVector := ab_scratchVector c |}.

Definition ab_set_tilt (v : Q) (c : ArcBallCamera) : ArcBallCamera :=
  {| ab_position := ab_position c; ab_heading := ab_heading c; ab_tilt := v;
     ab_range := ab_range c; ab_roll := ab_roll c; ab_wwd := ab_wwd c;
     ab_scratchMatrix := ab_scratchMatrix c;
     ab_scratchVector := ab_scratchVector c |}.

Definition ab_set_range (v : Q) (c : ArcBallCamera) : ArcBallCamera :=
  {| ab_position := ab_position c; ab_heading := ab_heading c;
     ab_tilt := ab_tilt c; ab_range := v; ab_roll := ab_roll c;
     ab_wwd := ab_wwd c; ab_scratchMatrix := ab_scratchMatrix c;
     ab_scratchVector := ab_scratchVector c |}.

Definition ab_set_roll (v : Q) (c : ArcBallCamera) : ArcBallCamera :=
  {| ab_position := ab_position c; ab_heading := ab_heading c;
     ab_tilt := ab_tilt c; ab_range := ab_range c; ab_roll := v;
     ab_wwd := ab_wwd c; ab_scratchMatrix := ab_scratchMatrix c;
     ab_scratchVector := ab_scratchVector c |}.

Definition ab_set_scratchVector (v : Vec3) (c : ArcBallCamera) : ArcBallCamera :=
  {| ab_position := ab_position c; ab_heading := ab_heading c;
     ab_tilt := ab_tilt c; ab_range := ab_range c; ab_roll := ab_roll c;
     ab_wwd := ab_wwd c; ab_scratchMatrix := ab_scratchMatrix c;
     ab_scratchVector := v |}.

Definition fp_set_position (p : Position) (c : FirstPersonCamera) : FirstPersonCamera :=
  {| fp_position := p; fp_heading := fp_heading c; fp_tilt := fp_tilt c;
     fp_roll := fp_roll c; fp_wwd := fp_wwd c;
     fp_scratchMatrix := fp_scratchMatrix c;
     fp_scratchVector := fp_scratchVector c; fp_ray := fp_ray c |}.

Definition fp_set_heading (v : Q) (c : FirstPersonCamera) : FirstPersonCamera :=
  {| fp_position := fp_position c; fp_heading := v; fp_tilt := fp_tilt c;
     fp_roll := fp_roll c; fp_wwd := fp_wwd c;
     fp_scratchMatrix := fp_scratchMatrix c;
     fp_scratchVector := fp_scratchVector c; fp_ray := fp_ray c |}.

Definition fp_set_tilt (v : Q) (c : FirstPersonCamera) : FirstPersonCamera :=
  {| fp_position := fp_position c; fp_heading := fp_heading c; fp_tilt := v;
     fp_roll := fp_roll c; fp_wwd := fp_wwd c;
     fp_scratchMatrix := fp_scratchMatrix c;
     fp_scratchVector := fp_scratchVector c; fp_ray := fp_ray c |}.

Definition fp_set_roll (v : Q) (c : FirstPersonCamera) : FirstPersonCamera :=
  {| fp_position := fp_position c; fp_heading := fp_heading c;
     fp_tilt := fp_tilt c; fp_roll := v; fp_wwd := fp_wwd c;
     fp_scratchMatrix := fp_scratchMatrix c;
     fp_scratchVector := fp_scratchVector c; fp_ray := fp_ray c |}.

(** The setter of the [range] property: [this.position.altitude = value]. *)
Definition fp_set_range (v : Q) (c : FirstPersonCamera) : FirstPersonCamera :=
  fp_set_position
    (mkPosition (latitude (fp_position c)) (longitude (fp_position c)) v) c.

Definition fp_set_scratchVector (v : Vec3) (c : FirstPersonCamera) : FirstPersonCamera :=
  {| fp_position := fp_position c; fp_heading := fp_heading c;
     fp_tilt := fp_tilt c; fp_roll := fp_roll c; fp_wwd := fp_wwd c;
     fp_scratchMatrix := fp_scratchMatrix c;
     fp_scratchVector := v; fp_ray := fp_ray c |}.

Definition fp_set_ray (r : Line) (c : FirstPersonCamera) : FirstPersonCamera :=
  {| fp_position := fp_position c; fp_heading := fp_heading c;
     fp_tilt := fp_tilt c; fp_roll := fp_roll c; fp_wwd := fp_wwd c;
     fp_scratchMatrix := fp_scratchMatrix c;
     fp_scratchVector := fp_scratchVector c; fp_ray := r |}.

(** ** The object store *)

(** A camera made by its constructor holds a Position of its own:
    [ArcBallObj c] and [FirstPersonObj c] keep it inside the record.  A
    Position that the application makes is an object of the store,
    [PositionObj p].  Once such an object has been assigned to the
    [position] property of a camera, the camera holds that very object:
    [ArcBallShared c position] and [FirstPersonShared c position] are
    cameras whose coordinates are read and written at the location
    [position]; the coordinates inside [c] are not looked at. *)
Inductive object : Type :=
| ArcBallObj (c : ArcBallCamera)
| FirstPersonObj (c : FirstPersonCamera)
| MatrixObj (m : Matrix)
| PositionObj (p : Position)
| ArcBallShared (c : ArcBallCamera) (position : positive)
| FirstPersonShared (c : FirstPersonCamera) (position : positive).

(** [ArgumentError] carries the class name, the function name and the
    message that the source hands to [Logger.logMessage].  [TypeError] is
    what a call on an object of the wrong kind ends in. *)
Inductive error : Type :=
| ArgumentError (className functionName message : string)
| TypeError.

Inductive outcome (A : Type) : Type :=
| Return (a : A)
| Throw (e : error).
Arguments Return {A} a.
Arguments Throw {A} e.

(** A method is a store transformer that returns a value or throws; the
    store at the point of the throw is kept, as in JavaScript. *)
Definition M (A : Type) : Type :=
  gmap positive object -> outcome A * gmap positive object.

#[global] Instance M_ret : MRet M := fun A a h => (Return a, h).

#[global] Instance M_bind : MBind M := fun A B f m h =>
  match m h with
  | (Return a, h') => f a h'
  | (Throw e, h') => (Throw e, h')
  end.

Definition throw {A : Type} (e : error) : M A := fun h => (Throw e, h).

Definition load (l : positive) : M object := fun h =>
  match h !! l with
  | Some o => (Return o, h)
  | None => (Throw TypeError, h)
  end.

Definition store (l : positive) (o : object) : M unit := fun h =>
  (Return tt, <[l := o]> h).

(** [new]: the object is put at a location that is not in use. *)
Definition alloc (o : object) : M positive := fun h =>
  let l := fresh (dom h) in (Return l, <[l := o]> h).

Definition load_Position (l : positive) : M Position :=
  o ← load l;
  match o with PositionObj p => mret p | _ => throw TypeError end.

(** The fields of a camera, its coordinates read from the Position object
    that it holds. *)
Definition load_ArcBall (l : positive) : M ArcBallCamera :=
  o ← load l;
  match o with
  | ArcBallObj c => mret c
  | ArcBallShared c position =>
      p ← load_Position position; mret (ab_set_position p c)
  | _ => throw TypeError
  end.

Definition load_FirstPerson (l : positive) : M FirstPersonCamera :=
  o ← load l;
  match o with
  | FirstPersonObj c => mret c
  | FirstPersonShared c position =>
      p ← load_Position position; mret (fp_set_position p c)
  | _ => throw TypeError
  end.

Definition load_Matrix (l : positive) : M Matrix :=
  o ← load l;
  match o with MatrixObj m => mret m | _ => throw TypeError end.

(** A method that only reads and writes the fields of [this] and the
    coordinates of its Position; the coordinates are written into the
    Position object that the camera holds. *)
Definition update_ArcBall (this : positive)
    (f : ArcBallCamera -> ArcBallCamera) : M unit :=
  o ← load this;
  match o with
  | ArcBallObj c => store this (ArcBallObj (f c))
  | ArcBallShared c position =>
      p ← load_Position position;
      let c' := f (ab_set_position p c) in
      store position (PositionObj (ab_position c'));;
      store this (ArcBallShared (ab_set_position (ab_position c) c') position)
  | _ => throw TypeError
  end.

Definition update_FirstPerson (this : positive)
    (f : FirstPersonCamera -> FirstPersonCamera) : M unit :=
  o ← load this;
  match o with
  | FirstPersonObj c => store this (FirstPersonObj (f c))
  | FirstPersonShared c position =>
      p ← load_Position position;
      let c' := f (fp_set_position p c) in
      store position (PositionObj (fp_position c'));;
      store this
        (FirstPersonShared (fp_set_position (fp_position c) c') position)
  | _ => throw TypeError
  end.

(** ** Field access on either camera, as property lookup does it *)

(** The camera as it reads, with the coordinates of the Position object
    that it holds. *)
Definition resolve (o : object) : M object :=
  match o with
  | ArcBallShared c position =>
      p ← load_Position position; mret (ArcBallObj (ab_set_position p c))
  | FirstPersonShared c position =>
      p ← load_Position position; mret (FirstPersonObj (fp_set_position p c))
  | _ => mret o
  end.

(** [o.p], for a property [p] that cameras have.  The getters below are
    applied to the camera as it reads. *)
Definition get_property {A : Type} (get : object -> option A)
    (l : positive) : M A :=
  o ← load l;
  o ← resolve o;
  match get o with Some v => mret v | None => throw TypeError end.

Definition camera_position (o : object) : option Position :=
  match o with
  | ArcBallObj c => Some (ab_position c)
  | FirstPersonObj c => Some (fp_position c)
  | _ => None
  end.

Definition camera_heading (o : object) : option Q :=
  match o with
  | ArcBallObj c => Some (ab_heading c)
  | FirstPersonObj c => Some (fp_heading c)
  | _ => None
  end.

Definition camera_tilt (o : object) : option Q :=
  match o with
  | ArcBallObj c => Some (ab_tilt c)
  | FirstPersonObj c => Some (fp_tilt c)
  | _ => None
  end.

Definition camera_roll (o : object) : option Q :=
  match o with
  | ArcBallObj c => Some (ab_roll c)
  | FirstPersonObj c => Some (fp_roll c)
  | _ => None
  end.

(** [range] is a field of the arc ball camera and, on the first person
    camera, the getter that returns [this.position.altitude]. *)
Definition camera_range (o : object) : option Q :=
  match o with
  | ArcBallObj c => Some (ab_range c)
  | FirstPersonObj c => Some (altitude (fp_position c))
  | _ => None
  end.

Definition camera_wwd (o : object) : option WorldWindow :=
  match o with
  | ArcBallObj c => Some (ab_wwd c)
  | FirstPersonObj c => Some (fp_wwd c)
  | _ => None
  end.

Definition Matrix_identity : Matrix :=
  mkMatrix 1 0 0 0  0 1 0 0  0 0 1 0  0 0 0 1.

(** Modelled from the spec: [Position.prototype.copy] ([src/geom/Position.js])
    is not among the sources.  The spec says positions are "copied by value
    on assignment between cameras (no shared mutable aliasing across
    cameras)": the three coordinates of the argument are written into the
    receiver. *)
Definition Position_copy (this position : Position) : Position :=
  {| latitude := latitude position; longitude := longitude position;
     altitude := altitude position |}.

(** Modelled from the spec: [Line.prototype.pointAt] ([src/geom/Line.js]) is
    not among the sources.  The spec says the target point is computed "by
    advancing along the forward ray by [range] units": origin plus distance
    times direction. *)
Definition Line_pointAt (this : Line) (distance : Q) : Vec3 :=
  {| vx := vx (origin this) + vx (direction this) * distance;
     vy := vy (origin this) + vy (direction this) * distance;
     vz := vz (origin this) + vz (direction this) * distance |}.

(** The object that [Matrix.prototype.extractViewingParameters] returns. *)
Record ViewingParameters : Type := mkViewingParameters {
  vp_origin : Position;
  vp_range : Q;
  vp_heading : Q;
  vp_tilt : Q;
  vp_roll : Q
}.

(** ** Methods of the cameras and of the navigator *)

Section Cameras.

Local Open Scope string_scope.

(** The matrix primitives of [src/geom/Matrix.js], which the cameras
    consume: they are parameters of the development.  Each takes the
    receiving matrix first; the two that write into a result vector return
    the new value of that vector. *)
Variable multiplyByLookAtModelview :
  Matrix -> Position -> Q -> Q -> Q -> Q -> Globe -> Matrix.
Variable extractEyePoint : Matrix -> Vec3.
Variable extractForwardVector : Matrix -> Vec3.
Variable extractViewingParameters :
  Matrix -> Vec3 -> Q -> Globe -> ViewingParameters.

(** *** ArcBallCamera *)

(** [new ArcBallCamera(wwd)]. *)
Definition ArcBallCamera_new (wwd : option WorldWindow) : M positive :=
  match wwd with
  | None =>
      throw (ArgumentError "ArcBallCamera" "constructor"
               "missing WorldWindow instance.")
  | Some w =>
      scratch ← alloc (MatrixObj Matrix_identity);
      alloc (ArcBallObj
               {| ab_position := mkPosition 30 (-110) 0;
                  ab_heading := 0; ab_tilt := 0; ab_range := 10000000;
                  ab_roll := 0; ab_wwd := w;
                  ab_scratchMatrix := scratch;
                  ab_scratchVector := mkVec3 0 0 0 |})
  end.

(** [ArcBallCamera.prototype.createViewMatrix]. *)
Definition ArcBallCamera_createViewMatrix
    (this : positive) (matrix : option positive) : M positive :=
  match matrix with
  | None =>
      throw (ArgumentError "ArcBallCamera" "createViewMatrix"
               "missing matrix")
  | Some matrix =>
      update_ArcBall this ArcBallCamera_applyLimits;;
      _ ← load_Matrix matrix;
      store matrix (MatrixObj Matrix_identity);;
      m ← load_Matrix matrix;
      c ← load_ArcBall this;
      store matrix
        (MatrixObj
           (multiplyByLookAtModelview m (ab_position c) (ab_range c)
              (ab_heading c) (ab_tilt c) (ab_roll c) (globe (ab_wwd c))));;
      mret matrix
  end.

(** [ArcBallCamera.prototype.copy]: the fields of the argument are read as
    properties, one before each assignment, so the argument may be a camera
    of either kind. *)
Definition ArcBallCamera_copy
    (this : positive) (camera : option positive) : M positive :=
  match camera with
  | None => throw (ArgumentError "ArcBallCamera" "copy" "missing camera")
  | Some camera =>
      p ← get_property camera_position camera;
      update_ArcBall this
        (fun c => ab_set_position (Position_copy (ab_position c) p) c);;
      t ← get_property camera_tilt camera;
      update_ArcBall this (ab_set_tilt t);;
      hd ← get_property camera_heading camera;
      update_ArcBall this (ab_set_heading hd);;
      rg ← get_property camera_range camera;
      update_ArcBall this (ab_set_range rg);;
      rl ← get_property camera_roll camera;
      update_ArcBall this (ab_set_roll rl);;
      mret this
  end.

(** *** FirstPersonCamera *)

(** [new FirstPersonCamera(wwd)]. *)
Definition FirstPersonCamera_new (wwd : option WorldWindow) : M positive :=
  match wwd with
  | None =>
      throw (ArgumentError "FirstPersonCamera" "constructor"
               "missing WorldWindow instance.")
  | Some w =>
      scratch ← alloc (MatrixObj Matrix_identity);
      alloc (FirstPersonObj
               {| fp_position := mkPosition 30 (-110) 1000;
                  fp_heading := 0; fp_tilt := 0; fp_roll := 0; fp_wwd := w;
                  fp_scratchMatrix := scratch;
                  fp_scratchVector := mkVec3 0 0 0;
                  fp_ray := mkLine (mkVec3 0 0 0) (mkVec3 0 0 0) |})
  end.

(** [FirstPersonCamera.prototype.createViewMatrix]. *)
Definition FirstPersonCamera_createViewMatrix
    (this : positive) (matrix : option positive) : M positive :=
  match matrix with
  | None =>
      throw (ArgumentError "FirstPersonCamera" "createViewMatrix"
               "missing matrix")
  | Some matrix =>
      update_FirstPerson this FirstPersonCamera_applyLimits;;
      _ ← load_Matrix matrix;
      store matrix (MatrixObj Matrix_identity);;
      m ← load_Matrix matrix;
      c ← load_FirstPerson this;
      store matrix
        (MatrixObj
           (multiplyByLookAtModelview m (fp_position c) 0
              (fp_heading c) (fp_tilt c + 90) (fp_roll c)
              (globe (fp_wwd c))));;
      mret matrix
  end.

(** [FirstPersonCamera.prototype.copy]. *)
Definition FirstPersonCamera_copy
    (this : positive) (camera : option positive) : M positive :=
  match camera with
  | None => throw (ArgumentError "FirstPersonCamera" "copy" "missing camera")
  | Some camera =>
      p ← get_property camera_position camera;
      update_FirstPerson this
        (fun c => fp_set_position (Position_copy (fp_position c) p) c);;
      hd ← get_property camera_heading camera;
      update_FirstPerson this (fp_set_heading hd);;
      t ← get_property camera_tilt camera;
      update_FirstPerson this (fp_set_tilt t);;
      rl ← get_property camera_roll camera;
      update_FirstPerson this (fp_set_roll rl);;
      mret this
  end.

(** [FirstPersonCamera.prototype.toArcBall]. *)
Definition FirstPersonCamera_toArcBall
    (this : positive) (arcBallCamera : option positive) : M positive :=
  match arcBallCamera with
  | None =>
      throw (ArgumentError "FirstPersonCamera" "toArcBall"
               "missing arcBallCamera")
  | Some arcBallCamera =>
      c ← load_FirstPerson this;
      viewMatrix ← FirstPersonCamera_createViewMatrix this
                     (Some (fp_scratchMatrix c));
      vm ← load_Matrix viewMatrix;
      update_FirstPerson this
        (fun c => fp_set_ray (mkLine (extractEyePoint vm)
                                (direction (fp_ray c))) c);;
      update_FirstPerson this
        (fun c => fp_set_ray (mkLine (origin (fp_ray c))
                                (extractForwardVector vm)) c);;
      out ← load_ArcBall arcBallCamera;
      c ← load_FirstPerson this;
      let lookAtPoint := Line_pointAt (fp_ray c) (ab_range out) in
      update_FirstPerson this (fp_set_scratchVector lookAtPoint);;
      c ← load_FirstPerson this;
      let params :=
        extractViewingParameters vm lookAtPoint (fp_roll c)
          (globe (fp_wwd c)) in
      update_ArcBall arcBallCamera
        (fun o => ab_set_position
                    (Position_copy (ab_position o) (vp_origin params)) o);;
      update_ArcBall arcBallCamera (ab_set_heading (vp_heading params));;
      update_ArcBall arcBallCamera (ab_set_tilt (vp_tilt params));;
      update_ArcBall arcBallCamera (ab_set_roll (vp_roll params));;
      update_ArcBall arcBallCamera ArcBallCamera_applyLimits;;
      mret arcBallCamera
  end.

(** [ArcBallCamera.prototype.toFirstPerson]. *)
Definition ArcBallCamera_toFirstPerson
    (this : positive) (camera : option positive) : M positive :=
  match camera with
  | None =>
      throw (ArgumentError "ArcBallCamera" "toFirstPerson" "missing camera")
  | Some camera =>
      c ← load_ArcBall this;
      viewMatrix ← ArcBallCamera_createViewMatrix this
                     (Some (ab_scratchMatrix c));
      vm ← load_Matrix viewMatrix;
      let eyePoint := extractEyePoint vm in
      update_ArcBall this (ab_set_scratchVector eyePoint);;
      c ← load_ArcBall this;
      let params :=
        extractViewingParameters vm eyePoint (ab_roll c)
          (globe (ab_wwd c)) in
      update_FirstPerson camera
        (fun o => fp_set_position
                    (Position_copy (fp_position o) (vp_origin params)) o);;
      update_FirstPerson camera (fp_set_heading (vp_heading params));;
      update_FirstPerson camera (fp_set_tilt (vp_tilt params - 90));;
      update_FirstPerson camera (fp_set_roll (vp_roll params));;
      update_FirstPerson camera FirstPersonCamera_applyLimits;;
      mret camera
  end.

(** [ArcBallCamera.prototype.clone] and [FirstPersonCamera.prototype.clone]. *)
Definition ArcBallCamera_clone
    (this : positive) (camera : option positive) : M positive :=
  camera ← match camera with
           | Some camera => mret camera
           | None => c ← load_ArcBall this; ArcBallCamera_new (Some (ab_wwd c))
           end;
  ArcBallCamera_copy camera (Some this);;
  mret camera.

Definition FirstPersonCamera_clone
    (this : positive) (camera : option positive) : M positive :=
  camera ← match camera with
           | Some camera => mret camera
           | None =>
               c ← load_FirstPerson this;
               FirstPersonCamera_new (Some (fp_wwd c))
           end;
  FirstPersonCamera_copy camera (Some this);;
  mret camera.

(** *** Navigator *)

(** A navigator has one field, [_camera], the location of its camera. *)
Record Navigator : Type := mkNavigator { _camera : positive }.

(** [new Navigator(camera)]. *)
Definition Navigator_new (camera : option positive) : M Navigator :=
  match camera with
  | None => throw (ArgumentError "Navigator" "constructor" "Missing camera.")
  | Some camera => mret (mkNavigator camera)
  end.

(** The [camera] property. *)
Definition Navigator_camera (this : Navigator) : positive := _camera this.

Definition Navigator_set_camera (this : Navigator) (camera : positive) : Navigator :=
  mkNavigator camera.

(** A property read on the camera: [this.camera.p]. *)
Definition read_camera {A : Type} (get : object -> option A)
    (this : Navigator) : M A :=
  get_property get (Navigator_camera this).

(** A property write on the camera: [this.camera.p = v], for a property
    [p] that holds a number. *)
Definition write_camera
    (ab : ArcBallCamera -> ArcBallCamera)
    (fp : FirstPersonCamera -> FirstPersonCamera)
    (this : Navigator) : M unit :=
  o ← load (Navigator_camera this);
  match o with
  | ArcBallObj _ | ArcBallShared _ _ =>
      update_ArcBall (Navigator_camera this) ab
  | FirstPersonObj _ | FirstPersonShared _ _ =>
      update_FirstPerson (Navigator_camera this) fp
  | _ => throw TypeError
  end.

(** The getters.  [lookAtLocation] reads the Position that the camera
    holds: the result is its coordinates at the time of the call. *)
Definition Navigator_lookAtLocation := read_camera camera_position.
Definition Navigator_range := read_camera camera_range.
Definition Navigator_heading := read_camera camera_heading.
Definition Navigator_tilt := read_camera camera_tilt.
Definition Navigator_roll := read_camera camera_roll.

(** The setters.  [this.camera.position = position] makes the camera hold
    the object [position] itself: the caller keeps it, and so does every
    other camera that has been given it. *)
Definition Navigator_set_lookAtLocation (this : Navigator)
    (position : positive) : M unit :=
  o ← load (Navigator_camera this);
  match o with
  | ArcBallObj c | ArcBallShared c _ =>
      store (Navigator_camera this) (ArcBallShared c position)
  | FirstPersonObj c | FirstPersonShared c _ =>
      store (Navigator_camera this) (FirstPersonShared c position)
  | _ => throw TypeError
  end.
Definition Navigator_set_range (this : Navigator) (range : Q) :=
  write_camera (ab_set_range range) (fp_set_range range) this.
Definition Navigator_set_heading (this : Navigator) (heading : Q) :=
  write_camera (ab_set_heading heading) (fp_set_heading heading) this.
Definition Navigator_set_tilt (this : Navigator) (tilt : Q) :=
  write_camera (ab_set_tilt tilt) (fp_set_tilt tilt) this.
Definition Navigator_set_roll (this : Navigator) (roll : Q) :=
  write_camera (ab_set_roll roll) (fp_set_roll roll) this.

(** [this.camera instanceof FirstPersonCamera]. *)
Definition instanceof_FirstPersonCamera (o : object) : bool :=
  match o with
  | FirstPersonObj _ | FirstPersonShared _ _ => true
  | _ => false
  end.

(** [Navigator.prototype.getAsFirstPersonCamera]. *)
Definition Navigator_getAsFirstPersonCamera
    (this : Navigator) (camera : option positive) : M positive :=
  camera ← match camera with
           | Some camera => mret camera
           | None =>
               w ← read_camera camera_wwd this;
               FirstPersonCamera_new (Some w)
           end;
  active ← load (Navigator_camera this);
  (if instanceof_FirstPersonCamera active
   then FirstPersonCamera_copy camera (Some (Navigator_camera this))
   else ArcBallCamera_toFirstPerson (Navigator_camera this) (Some camera));;
  mret camera.

(** [Navigator.prototype.getAsArcBallCamera]. *)
Definition Navigator_getAsArcBallCamera
    (this : Navigator) (camera : option positive) : M positive :=
  camera ← match camera with
           | Some camera => mret camera
           | None =>
               w ← read_camera camera_wwd this;
               ArcBallCamera_new (Some w)
           end;
  active ← load (Navigator_camera this);
  (if instanceof_FirstPersonCamera active
   then FirstPersonCamera_toArcBall (Navigator_camera this) (Some camera)
   else ArcBallCamera_copy camera (Some (Navigator_camera this)));;
  mret camera.

(** *** What the conversions compute and assign *)

(** The view matrix of a camera whose limits have been applied. *)
Definition ArcBallCamera_viewMatrix (c : ArcBallCamera) : Matrix :=
  multiplyByLookAtModelview Matrix_identity (ab_position c) (ab_range c)
    (ab_heading c) (ab_tilt c) (ab_roll c) (globe (ab_wwd c)).

Definition FirstPersonCamera_viewMatrix (c : FirstPersonCamera) : Matrix :=
  multiplyByLookAtModelview Matrix_identity (fp_position c) 0
    (fp_heading c) (fp_tilt c + 90) (fp_roll c) (globe (fp_wwd c)).

(** What [toFirstPerson] extracts from the view matrix of [c], a camera
    whose limits have been applied. *)
Definition ArcBallCamera_eyeParameters (c : ArcBallCamera) : ViewingParameters :=
  extractViewingParameters (ArcBallCamera_viewMatrix c)
    (extractEyePoint (ArcBallCamera_viewMatrix c))
    (ab_roll c) (globe (ab_wwd c)).

(** The four assignments of [toFirstPerson] to the output camera. *)
Definition toFirstPerson_assign (p : ViewingParameters)
    (camera : FirstPersonCamera) : FirstPersonCamera :=
  fp_set_roll (vp_roll p)
    (fp_set_tilt (vp_tilt p - 90)
       (fp_set_heading (vp_heading p)
          (fp_set_position
             (Position_copy (fp_position camera) (vp_origin p)) camera))).

(** The state of [this] when [toArcBall] returns: the ray holds the eye
    point and the forward vector, the scratch vector the look-at point. *)
Definition toArcBall_ray (c : FirstPersonCamera) : Line :=
  mkLine (extractEyePoint (FirstPersonCamera_viewMatrix c))
    (extractForwardVector (FirstPersonCamera_viewMatrix c)).

Definition toArcBall_lookAtPoint (c : FirstPersonCamera) (range : Q) : Vec3 :=
  Line_pointAt (toArcBall_ray c) range.

Definition toArcBall_this (c : FirstPersonCamera) (range : Q) : FirstPersonCamera :=
  fp_set_scratchVector (toArcBall_lookAtPoint c range)
    (fp_set_ray (toArcBall_ray c) c).

(** What [toArcBall] extracts from the view matrix of [c], a camera whose
    limits have been applied, for the look-at point at distance [range]. *)
Definition FirstPersonCamera_lookAtParameters (c : FirstPersonCamera)
    (range : Q) : ViewingParameters :=
  extractViewingParameters (FirstPersonCamera_viewMatrix c)
    (toArcBall_lookAtPoint c range) (fp_roll c) (globe (fp_wwd c)).

(** The four assignments of [toArcBall] to the output camera. *)
Definition toArcBall_assign (p : ViewingParameters)
    (arcBallCamera : ArcBallCamera) : ArcBallCamera :=
  ab_set_roll (vp_roll p)
    (ab_set_tilt (vp_tilt p)
       (ab_set_heading (vp_heading p)
          (ab_set_position
             (Position_copy (ab_position arcBallCamera) (vp_origin p))
             arcBallCamera))).

Definition ArcBallCamera_copy_fields (p : Position) (t hd rg rl : Q)
    (this : ArcBallCamera) : ArcBallCamera :=
  ab_set_roll rl
    (ab_set_range rg
       (ab_set_heading hd
          (ab_set_tilt t
             (ab_set_position (Position_copy (ab_position this) p) this)))).

Definition FirstPersonCamera_copy_fields (p : Position) (hd t rl : Q)
    (this : FirstPersonCamera) : FirstPersonCamera :=
  fp_set_roll rl
    (fp_set_tilt t
       (fp_set_heading hd
          (fp_set_position (Position_copy (fp_position this) p) this))).

Definition normalized (a : Q) : Prop := -180 < a /\ a <= 180.

(** The 2D cap on the range, [2 * Math.PI * equatorialRadius]. *)
Definition maxRange2D (g : Globe) : Q := 2 * Math.PI * equatorialRadius g.

(** The globe of the test suite (WGS84, round), the same globe in 2D
    mode, and a flat globe of circumference below one meter. *)
Definition round_globe : Globe := mkGlobe false 6378137.
Definition flat_globe : Globe := mkGlobe true 6378137.
Definition small_flat_globe : Globe := mkGlobe true (1 # 10).

(** The camera of the test "Applies limits" in [ArcBallCamera.test.js],
    over a given globe. *)
Definition out_of_range_ArcBallCamera (g : Globe) : ArcBallCamera :=
  {| ab_position := mkPosition 100 185 (-1000);
     ab_heading := 370; ab_tilt := 100; ab_range := -6000; ab_roll := -270;
     ab_wwd := mkWorldWindow g;
     ab_scratchMatrix := 1%positive;
     ab_scratchVector := mkVec3 0 0 0 |}.

Definition fp_set_wwd (w : WorldWindow) (c : FirstPersonCamera) : FirstPersonCamera :=
  {| fp_position := fp_position c; fp_heading := fp_heading c;
     fp_tilt := fp_tilt c; fp_roll := fp_roll c; fp_wwd := w;
     fp_scratchMatrix := fp_scratchMatrix c;
     fp_scratchVector := fp_scratchVector c; fp_ray := fp_ray c |}.

(** *** Sample primitives, cameras and store *)

(** Sample matrix primitives, to run the methods on a concrete store. *)
Definition sample_multiplyByLookAtModelview (m : Matrix) (p : Position)
    (range heading tilt roll : Q) (g : Globe) : Matrix :=
  mkMatrix (m11 m) 0 0 (longitude p)  0 (m22 m) 0 (latitude p)
           0 0 (m33 m) (- (equatorialRadius g + altitude p + range))
           heading tilt roll 1.

Definition sample_extractEyePoint (m : Matrix) : Vec3 :=
  mkVec3 (m14 m) (m24 m) (- m34 m).

Definition sample_extractForwardVector (m : Matrix) : Vec3 :=
  mkVec3 0 0 (- m33 m).

Definition sample_extractViewingParameters (m : Matrix) (point : Vec3)
    (roll : Q) (g : Globe) : ViewingParameters :=
  mkViewingParameters
    (mkPosition (vy point) (vx point) (vz point - equatorialRadius g))
    0 (m41 m) (m42 m) roll.

Definition sample_ArcBallCamera : ArcBallCamera :=
  {| ab_position := mkPosition 45 (-100) 1000000;
     ab_heading := 50; ab_tilt := 70; ab_range := 6000000; ab_roll := 45;
     ab_wwd := mkWorldWindow round_globe;
     ab_scratchMatrix := 1%positive;
     ab_scratchVector := mkVec3 0 0 0 |}.

Definition sample_FirstPersonCamera : FirstPersonCamera :=
  {| fp_position := mkPosition 30 (-110) 75000;
     fp_heading := 60; fp_tilt := -25; fp_roll := 45;
     fp_wwd := mkWorldWindow round_globe;
     fp_scratchMatrix := 3%positive;
     fp_scratchVector := mkVec3 0 0 0;
     fp_ray := mkLine (mkVec3 0 0 0) (mkVec3 0 0 0) |}.

(** A store with an ArcBallCamera at 2, a FirstPersonCamera at 4, their
    scratch matrices at 1 and 3, and a matrix of the application at 5. *)
Definition sample_store : gmap positive object :=
  <[5%positive := MatrixObj Matrix_identity]>
    (<[4%positive := FirstPersonObj sample_FirstPersonCamera]>
       (<[3%positive := MatrixObj Matrix_identity]>
          (<[2%positive := ArcBallObj sample_ArcBallCamera]>
             (<[1%positive := MatrixObj Matrix_identity]> ∅)))).

(** *** Cameras among the objects *)

(** The cameras that hold a Position of their own. *)
Definition is_camera (o : object) : bool :=
  match o with
  | ArcBallObj _ | FirstPersonObj _ => true
  | _ => false
  end.

(** *** Reading a navigator *)

(** The five properties of a navigator, read one after the other. *)
Definition Navigator_readAll (this : Navigator)
    : M (Position * Q * Q * Q * Q) :=
  p ← Navigator_lookAtLocation this;
  rg ← Navigator_range this;
  hd ← Navigator_heading this;
  t ← Navigator_tilt this;
  rl ← Navigator_roll this;
  mret (p, rg, hd, t, rl).

(** *** A second sample store *)

(** A second ArcBallCamera, on the WorldWindow of the sample one. *)
Definition second_ArcBallCamera : ArcBallCamera :=
  {| ab_position := mkPosition 0 0 0;
     ab_heading := 370; ab_tilt := 100; ab_range := 10000000; ab_roll := 0;
     ab_wwd := mkWorldWindow round_globe;
     ab_scratchMatrix := 7%positive;
     ab_scratchVector := mkVec3 0 0 0 |}.

(** The sample store with the second ArcBallCamera at 6 and its scratch
    matrix at 7. *)
Definition sample_store_two : gmap positive object :=
  <[7%positive := MatrixObj Matrix_identity]>
    (<[6%positive := ArcBallObj second_ArcBallCamera]> sample_store).

(** The sample store with the range of the ArcBallCamera at 2 set to 1/2,
    below the least range that the limits allow. *)
Definition sample_store_near : gmap positive object :=
  <[2%positive := ArcBallObj (ab_set_range (1 # 2) sample_ArcBallCamera)]>
    sample_store.

(** *** A sample store with a Position of the application *)

Definition sample_Position : Position := mkPosition 10 20 30.

(** A second FirstPersonCamera, on the WorldWindow of the sample one. *)
Definition second_FirstPersonCamera : FirstPersonCamera :=
  {| fp_position := mkPosition 0 0 1000;
     fp_heading := 0; fp_tilt := 0; fp_roll := 0;
     fp_wwd := mkWorldWindow round_globe;
     fp_scratchMatrix := 8%positive;
     fp_scratchVector := mkVec3 0 0 0;
     fp_ray := mkLine (mkVec3 0 0 0) (mkVec3 0 0 0) |}.

(** The sample store with the second FirstPersonCamera at 9, its scratch
    matrix at 8, and a Position at 10. *)
Definition sample_store_position : gmap positive object :=
  <[10%positive := PositionObj sample_Position]>
    (<[9%positive := FirstPersonObj second_FirstPersonCamera]>
       (<[8%positive := MatrixObj Matrix_identity]> sample_store)).

(** ** Properties *)

Local Open Scope Q_scope.

(** *** Comparisons, clamping and normalization *)

Lemma Number_lt_true (x y : Q) : Number.lt x y = true <-> x < y.
Proof.
  unfold Number.lt. rewrite Qlt_alt.
  destruct (x ?= y); split; intros H; congruence.
Qed.

Lemma Number_lt_false (x y : Q) : Number.lt x y = false <-> y <= x.
Proof.
  split; intros H.
  - apply Qnot_lt_le. intros Hlt. apply Number_lt_true in Hlt. congruence.
  - destruct (Number.lt x y) eqn:E; [|reflexivity].
    apply Number_lt_true in E. exfalso. exact (Qle_not_lt _ _ H E).
Qed.

Lemma Number_le_true (x y : Q) : Number.le x y = true <-> x <= y.
Proof.
  unfold Number.le. rewrite Qle_alt.
  destruct (x ?= y); split; intros H; congruence.
Qed.

Lemma Number_le_false (x y : Q) : Number.le x y = false <-> y < x.
Proof.
  split; intros H.
  - apply Qnot_le_lt. intros Hle. apply Number_le_true in Hle. congruence.
  - destruct (Number.le x y) eqn:E; [|reflexivity].
    apply Number_le_true in E. exfalso. exact (Qle_not_lt _ _ E H).
Qed.

(** Case analysis on the three outcomes of [WWMath.clamp]. *)
Lemma clamp_cases (v lo hi : Q) :
  (v < lo /\ WWMath.clamp v lo hi = lo) \/
  (lo <= v /\ hi < v /\ WWMath.clamp v lo hi = hi) \/
  (lo <= v /\ v <= hi /\ WWMath.clamp v lo hi = v).
Proof.
  unfold WWMath.clamp, Number.gt.
  destruct (Number.lt v lo) eqn:E1.
  - left. apply Number_lt_true in E1. auto.
  - apply Number_lt_false in E1. right.
    destruct (Number.lt hi v) eqn:E2.
    + apply Number_lt_true in E2. left. auto.
    + apply Number_lt_false in E2. right. auto.
Qed.

Lemma clamp_bounds (v lo hi : Q) :
  lo <= hi -> lo <= WWMath.clamp v lo hi /\ WWMath.clamp v lo hi <= hi.
Proof.
  intros Hle.
  destruct (clamp_cases v lo hi) as [[H ->]|[(H1 & H2 & ->)|(H1 & H2 & ->)]];
    split; lra.
Qed.

Lemma clamp_upper (v lo hi : Q) :
  lo <= v -> WWMath.clamp v lo hi <= hi.
Proof.
  intros Hv.
  destruct (clamp_cases v lo hi) as [[H ->]|[(H1 & H2 & ->)|(H1 & H2 & ->)]];
    lra.
Qed.

Lemma clamp_lower (v lo hi : Q) :
  lo <= hi -> lo <= WWMath.clamp v lo hi.
Proof. intros H. apply (clamp_bounds v lo hi H). Qed.

(** A value inside the interval is returned as it is. *)
Lemma clamp_id (v lo hi : Q) :
  lo <= v -> v <= hi -> WWMath.clamp v lo hi = v.
Proof.
  intros H1 H2. unfold WWMath.clamp, Number.gt.
  apply Number_lt_false in H1. apply Number_lt_false in H2.
  rewrite H1, H2. reflexivity.
Qed.

Lemma clamp_idempotent (v lo hi : Q) :
  lo <= hi ->
  WWMath.clamp (WWMath.clamp v lo hi) lo hi = WWMath.clamp v lo hi.
Proof.
  intros H. destruct (clamp_bounds v lo hi H). apply clamp_id; assumption.
Qed.

Lemma MAX_VALUE_large : 90 <= Number.MAX_VALUE.
Proof. unfold Number.MAX_VALUE, Qle. simpl Qnum. simpl Qden. lia. Qed.

(** The remainder lies strictly within one turn. *)
Lemma rem360_bounds (x : Q) :
  -360 < Number.rem360 x /\ Number.rem360 x < 360.
Proof.
  unfold Number.rem360, Qlt. cbn [Qnum Qden].
  pose proof (Z.rem_bound_abs (Qnum x) (360 * Z.pos (Qden x))) as H.
  assert (Hne : (360 * Z.pos (Qden x) <> 0)%Z) by lia.
  specialize (H Hne). lia.
Qed.

(** A number within one turn is its own remainder. *)
Lemma rem360_small (x : Q) :
  -360 < x -> x < 360 -> Number.rem360 x = x.
Proof.
  destruct x as [n d]. unfold Number.rem360, Qlt. cbn [Qnum Qden].
  intros H1 H2. f_equal. apply Z.rem_small_iff; lia.
Qed.

(** The remainder differs from the number by whole turns. *)
Lemma rem360_congruent (x : Q) :
  exists k : Z, x == Number.rem360 x + 360 * inject_Z k.
Proof.
  destruct x as [n d]. exists (Z.quot n (360 * Z.pos d)).
  unfold Number.rem360, Qeq, Qplus, Qmult, inject_Z. cbn [Qnum Qden].
  pose proof (Z.quot_rem' n (360 * Z.pos d)) as H.
  rewrite Pos2Z.inj_mul. nia.
Qed.

Lemma normalizedDegrees_cases (x : Q) :
  (180 < Number.rem360 x /\
   Angle.normalizedDegrees x = Number.rem360 x - 360) \/
  (Number.rem360 x <= -180 /\
   Angle.normalizedDegrees x = 360 + Number.rem360 x) \/
  (-180 < Number.rem360 x /\ Number.rem360 x <= 180 /\
   Angle.normalizedDegrees x = Number.rem360 x).
Proof.
  unfold Angle.normalizedDegrees, Number.gt.
  destruct (Number.lt 180 (Number.rem360 x)) eqn:E1.
  - apply Number_lt_true in E1. left. auto.
  - apply Number_lt_false in E1. right.
    destruct (Number.le (Number.rem360 x) (-180)) eqn:E2.
    + apply Number_le_true in E2. left. auto.
    + apply Number_le_false in E2. right. auto.
Qed.

(** The result of normalization is in the half-open interval. *)
Lemma normalizedDegrees_range (x : Q) :
  -180 < Angle.normalizedDegrees x /\ Angle.normalizedDegrees x <= 180.
Proof.
  destruct (rem360_bounds x) as [Hlo Hhi].
  destruct (normalizedDegrees_cases x)
    as [[H ->]|[[H ->]|(H1 & H2 & ->)]]; split; lra.
Qed.

(** An angle in the interval is returned as it is. *)
Lemma normalizedDegrees_id (x : Q) :
  -180 < x -> x <= 180 -> Angle.normalizedDegrees x = x.
Proof.
  intros H1 H2. unfold Angle.normalizedDegrees, Number.gt.
  rewrite (rem360_small x) by lra.
  apply Number_lt_false in H2. apply Number_le_false in H1.
  rewrite H2, H1. reflexivity.
Qed.

Lemma normalizedDegrees_idempotent (x : Q) :
  Angle.normalizedDegrees (Angle.normalizedDegrees x) =
  Angle.normalizedDegrees x.
Proof.
  destruct (normalizedDegrees_range x). apply normalizedDegrees_id; assumption.
Qed.

Lemma normalizedDegreesLongitude_eq (x : Q) :
  Angle.normalizedDegreesLongitude x = Angle.normalizedDegrees x.
Proof. reflexivity. Qed.

Lemma normalizedDegreesLongitude_idempotent (x : Q) :
  Angle.normalizedDegreesLongitude (Angle.normalizedDegreesLongitude x) =
  Angle.normalizedDegreesLongitude x.
Proof. exact (normalizedDegrees_idempotent x). Qed.

(** Normalization is a wrap-around: it moves the angle by whole turns. *)
Lemma normalizedDegrees_congruent (x : Q) :
  exists k : Z, x == Angle.normalizedDegrees x + 360 * inject_Z k.
Proof.
  destruct (rem360_congruent x) as [k Hk].
  destruct (normalizedDegrees_cases x)
    as [[H ->]|[[H ->]|(H1 & H2 & ->)]].
  - exists (k + 1)%Z. rewrite inject_Z_plus. rewrite Hk at 1.
    change (inject_Z 1) with 1.
    generalize (Number.rem360 x) (inject_Z k). intros r z. ring.
  - exists (k - 1)%Z. unfold Z.sub. rewrite inject_Z_plus, inject_Z_opp. rewrite Hk at 1.
    change (inject_Z 1) with 1.
    generalize (Number.rem360 x) (inject_Z k). intros r z. ring.
  - exists k. exact Hk.
Qed.

(** *** The store monad *)

Lemma bind_Return {A B : Type} (m : M A) (k : A -> M B) h a h' :
  m h = (Return a, h') -> (m ≫= k) h = k a h'.
Proof. intros E. unfold mbind, M_bind. rewrite E. reflexivity. Qed.

Lemma bind_Throw {A B : Type} (m : M A) (k : A -> M B) h e h' :
  m h = (Throw e, h') -> (m ≫= k) h = (Throw e, h').
Proof. intros E. unfold mbind, M_bind. rewrite E. reflexivity. Qed.

Lemma load_ArcBall_run (h : gmap positive object) l c :
  h !! l = Some (ArcBallObj c) -> load_ArcBall l h = (Return c, h).
Proof.
  intros E. unfold load_ArcBall, load, mbind, M_bind. rewrite E. reflexivity.
Qed.

Lemma load_FirstPerson_run (h : gmap positive object) l c :
  h !! l = Some (FirstPersonObj c) -> load_FirstPerson l h = (Return c, h).
Proof.
  intros E. unfold load_FirstPerson, load, mbind, M_bind. rewrite E.
  reflexivity.
Qed.

Lemma load_Matrix_run (h : gmap positive object) l m :
  h !! l = Some (MatrixObj m) -> load_Matrix l h = (Return m, h).
Proof.
  intros E. unfold load_Matrix, load, mbind, M_bind. rewrite E. reflexivity.
Qed.

Lemma update_ArcBall_run (h : gmap positive object) l c f :
  h !! l = Some (ArcBallObj c) ->
  update_ArcBall l f h = (Return tt, <[l := ArcBallObj (f c)]> h).
Proof.
  intros E. unfold update_ArcBall, load, mbind, M_bind. rewrite E.
  reflexivity.
Qed.

Lemma update_FirstPerson_run (h : gmap positive object) l c f :
  h !! l = Some (FirstPersonObj c) ->
  update_FirstPerson l f h = (Return tt, <[l := FirstPersonObj (f c)]> h).
Proof.
  intros E. unfold update_FirstPerson, load, mbind, M_bind. rewrite E.
  reflexivity.
Qed.

(** Cameras that hold a Position object of the store. *)
Lemma load_Position_run (h : gmap positive object) l p :
  h !! l = Some (PositionObj p) -> load_Position l h = (Return p, h).
Proof.
  intros E. unfold load_Position, load, mbind, M_bind. rewrite E.
  reflexivity.
Qed.

Lemma load_ArcBall_shared_run (h : gmap positive object) l c q p :
  h !! l = Some (ArcBallShared c q) -> h !! q = Some (PositionObj p) ->
  load_ArcBall l h = (Return (ab_set_position p c), h).
Proof.
  intros E Eq. unfold load_ArcBall, load_Position, load, mbind, M_bind.
  rewrite E, Eq. reflexivity.
Qed.

Lemma load_FirstPerson_shared_run (h : gmap positive object) l c q p :
  h !! l = Some (FirstPersonShared c q) -> h !! q = Some (PositionObj p) ->
  load_FirstPerson l h = (Return (fp_set_position p c), h).
Proof.
  intros E Eq. unfold load_FirstPerson, load_Position, load, mbind, M_bind.
  rewrite E, Eq. reflexivity.
Qed.

Lemma update_ArcBall_shared_run (h : gmap positive object) l c q p f :
  h !! l = Some (ArcBallShared c q) -> h !! q = Some (PositionObj p) ->
  update_ArcBall l f h =
  (Return tt,
   <[l := ArcBallShared
            (ab_set_position (ab_position c) (f (ab_set_position p c))) q]>
     (<[q := PositionObj (ab_position (f (ab_set_position p c)))]> h)).
Proof.
  intros E Eq. unfold update_ArcBall, load_Position, load, mbind, M_bind.
  rewrite E, Eq. reflexivity.
Qed.

Lemma update_FirstPerson_shared_run (h : gmap positive object) l c q p f :
  h !! l = Some (FirstPersonShared c q) -> h !! q = Some (PositionObj p) ->
  update_FirstPerson l f h =
  (Return tt,
   <[l := FirstPersonShared
            (fp_set_position (fp_position c) (f (fp_set_position p c))) q]>
     (<[q := PositionObj (fp_position (f (fp_set_position p c)))]> h)).
Proof.
  intros E Eq. unfold update_FirstPerson, load_Position, load, mbind, M_bind.
  rewrite E, Eq. reflexivity.
Qed.

Lemma ab_set_position_same (c : ArcBallCamera) :
  ab_set_position (ab_position c) c = c.
Proof. destruct c. reflexivity. Qed.

Lemma fp_set_position_same (c : FirstPersonCamera) :
  fp_set_position (fp_position c) c = c.
Proof. destruct c. reflexivity. Qed.

Lemma ab_set_position_twice (p q : Position) (c : ArcBallCamera) :
  ab_set_position p (ab_set_position q c) = ab_set_position p c.
Proof. reflexivity. Qed.

Lemma fp_set_position_twice (p q : Position) (c : FirstPersonCamera) :
  fp_set_position p (fp_set_position q c) = fp_set_position p c.
Proof. reflexivity. Qed.

(** Writing two objects again, with what they hold. *)
Lemma insert_pair_again (h : gmap positive object) l q a b :
  <[l := a]> (<[q := b]> (<[l := a]> (<[q := b]> h))) =
  <[l := a]> (<[q := b]> h).
Proof.
  apply map_eq. intros i.
  destruct (decide (i = l)) as [->|Hl].
  - rewrite !lookup_insert_eq. reflexivity.
  - rewrite (lookup_insert_ne _ l i) by congruence.
    destruct (decide (i = q)) as [->|Hq].
    + rewrite lookup_insert_eq.
      rewrite (lookup_insert_ne _ l q) by congruence.
      rewrite lookup_insert_eq. reflexivity.
    + rewrite (lookup_insert_ne _ q i) by congruence.
      rewrite (lookup_insert_ne _ l i) by congruence. reflexivity.
Qed.

(** A method that writes what it would write again may be called twice. *)
Lemma update_ArcBall_twice (f : ArcBallCamera -> ArcBallCamera)
    (h : gmap positive object) (this : positive) :
  (forall c, f (f c) = f c) ->
  (update_ArcBall this f;; update_ArcBall this f) h = update_ArcBall this f h.
Proof.
  intros Hf. destruct (h !! this) as [o|] eqn:E.
  2: { unfold update_ArcBall, load, mbind, M_bind. rewrite E. reflexivity. }
  destruct o as [c|c|m|p|c q|c q];
    try (unfold update_ArcBall, load, mbind, M_bind; rewrite E; reflexivity).
  - erewrite bind_Return by (apply update_ArcBall_run; exact E).
    erewrite !update_ArcBall_run by first [exact E | apply lookup_insert_eq].
    rewrite Hf, insert_insert_eq. reflexivity.
  - destruct (h !! q) as [oq|] eqn:Eq.
    2: { unfold update_ArcBall, load_Position, load, mbind, M_bind.
         rewrite E. cbn. rewrite Eq. reflexivity. }
    destruct oq as [c1|c1|m|p|c1 q1|c1 q1];
      try (unfold update_ArcBall, load_Position, load, mbind, M_bind;
           rewrite E; cbn; rewrite Eq; reflexivity).
    assert (Hne : this <> q) by congruence.
    erewrite bind_Return by (eapply update_ArcBall_shared_run; eassumption).
    erewrite (update_ArcBall_shared_run (<[this := _]> _))
      by first
           [ apply lookup_insert_eq
           | rewrite lookup_insert_ne by congruence; apply lookup_insert_eq ].
    rewrite ab_set_position_twice, ab_set_position_same, Hf.
    erewrite update_ArcBall_shared_run by eassumption.
    rewrite insert_pair_again. reflexivity.
Qed.

Lemma update_FirstPerson_twice (f : FirstPersonCamera -> FirstPersonCamera)
    (h : gmap positive object) (this : positive) :
  (forall c, f (f c) = f c) ->
  (update_FirstPerson this f;; update_FirstPerson this f) h =
  update_FirstPerson this f h.
Proof.
  intros Hf. destruct (h !! this) as [o|] eqn:E.
  2: { unfold update_FirstPerson, load, mbind, M_bind. rewrite E.
       reflexivity. }
  destruct o as [c|c|m|p|c q|c q];
    try (unfold update_FirstPerson, load, mbind, M_bind; rewrite E;
         reflexivity).
  - erewrite bind_Return by (apply update_FirstPerson_run; exact E).
    erewrite !update_FirstPerson_run
      by first [exact E | apply lookup_insert_eq].
    rewrite Hf, insert_insert_eq. reflexivity.
  - destruct (h !! q) as [oq|] eqn:Eq.
    2: { unfold update_FirstPerson, load_Position, load, mbind, M_bind.
         rewrite E. cbn. rewrite Eq. reflexivity. }
    destruct oq as [c1|c1|m|p|c1 q1|c1 q1];
      try (unfold update_FirstPerson, load_Position, load, mbind, M_bind;
           rewrite E; cbn; rewrite Eq; reflexivity).
    assert (Hne : this <> q) by congruence.
    erewrite bind_Return
      by (eapply update_FirstPerson_shared_run; eassumption).
    erewrite (update_FirstPerson_shared_run (<[this := _]> _))
      by first
           [ apply lookup_insert_eq
           | rewrite lookup_insert_ne by congruence; apply lookup_insert_eq ].
    rewrite fp_set_position_twice, fp_set_position_same, Hf.
    erewrite update_FirstPerson_shared_run by eassumption.
    rewrite insert_pair_again. reflexivity.
Qed.

(** Objects of different kinds are at different locations. *)
Lemma ArcBall_Matrix_distinct (h : gmap positive object) l1 l2 c m :
  h !! l1 = Some (ArcBallObj c) -> h !! l2 = Some (MatrixObj m) -> l1 <> l2.
Proof. intros H1 H2 ->. congruence. Qed.

Lemma FirstPerson_Matrix_distinct (h : gmap positive object) l1 l2 c m :
  h !! l1 = Some (FirstPersonObj c) -> h !! l2 = Some (MatrixObj m) ->
  l1 <> l2.
Proof. intros H1 H2 ->. congruence. Qed.

Lemma ArcBall_FirstPerson_distinct (h : gmap positive object) l1 l2 c1 c2 :
  h !! l1 = Some (ArcBallObj c1) -> h !! l2 = Some (FirstPersonObj c2) ->
  l1 <> l2.
Proof. intros H1 H2 ->. congruence. Qed.

Lemma ArcBallCamera_createViewMatrix_run (h : gmap positive object)
    this matrix c m0 :
  h !! this = Some (ArcBallObj c) ->
  h !! matrix = Some (MatrixObj m0) ->
  ArcBallCamera_createViewMatrix this (Some matrix) h =
    (Return matrix,
     <[matrix := MatrixObj
                   (ArcBallCamera_viewMatrix (ArcBallCamera_applyLimits c))]>
       (<[this := ArcBallObj (ArcBallCamera_applyLimits c)]> h)).
Proof.
  intros Hc Hm.
  pose proof (ArcBall_Matrix_distinct h this matrix c m0 Hc Hm) as Hne.
  unfold ArcBallCamera_createViewMatrix.
  erewrite bind_Return by (apply update_ArcBall_run; eassumption).
  erewrite bind_Return
    by (apply load_Matrix_run; rewrite lookup_insert_ne by done; eassumption).
  erewrite bind_Return by reflexivity.
  erewrite bind_Return by (apply load_Matrix_run; apply lookup_insert_eq).
  erewrite bind_Return
    by (apply load_ArcBall_run; rewrite lookup_insert_ne by done;
        apply lookup_insert_eq).
  erewrite bind_Return by reflexivity.
  unfold mret, M_ret. rewrite insert_insert_eq. reflexivity.
Qed.

Ltac lookup :=
  repeat first
    [ rewrite lookup_insert_eq
    | rewrite lookup_insert_ne by congruence ];
  first [ eassumption | reflexivity ].

Ltac step :=
  first
    [ erewrite bind_Return by (apply update_ArcBall_run; lookup)
    | erewrite bind_Return by (apply update_FirstPerson_run; lookup)
    | erewrite bind_Return by (apply load_ArcBall_run; lookup)
    | erewrite bind_Return by (apply load_FirstPerson_run; lookup)
    | erewrite bind_Return by (apply load_Matrix_run; lookup)
    | erewrite bind_Return by reflexivity ].

Lemma FirstPersonCamera_createViewMatrix_run (h : gmap positive object)
    this matrix c m0 :
  h !! this = Some (FirstPersonObj c) ->
  h !! matrix = Some (MatrixObj m0) ->
  FirstPersonCamera_createViewMatrix this (Some matrix) h =
    (Return matrix,
     <[matrix := MatrixObj
                   (FirstPersonCamera_viewMatrix
                      (FirstPersonCamera_applyLimits c))]>
       (<[this := FirstPersonObj (FirstPersonCamera_applyLimits c)]> h)).
Proof.
  intros Hc Hm.
  pose proof (FirstPerson_Matrix_distinct h this matrix c m0 Hc Hm) as Hne.
  unfold FirstPersonCamera_createViewMatrix.
  do 6 step.
  unfold mret, M_ret. rewrite insert_insert_eq. reflexivity.
Qed.

Lemma ArcBallCamera_toFirstPerson_run (h : gmap positive object)
    this camera c m0 o :
  h !! this = Some (ArcBallObj c) ->
  h !! ab_scratchMatrix c = Some (MatrixObj m0) ->
  h !! camera = Some (FirstPersonObj o) ->
  let c' := ArcBallCamera_applyLimits c in
  let vm := ArcBallCamera_viewMatrix c' in
  ArcBallCamera_toFirstPerson this (Some camera) h =
    (Return camera,
     <[camera := FirstPersonObj
                   (FirstPersonCamera_applyLimits
                      (toFirstPerson_assign
                         (ArcBallCamera_eyeParameters c') o))]>
       (<[this := ArcBallObj
                    (ab_set_scratchVector (extractEyePoint vm) c')]>
          (<[ab_scratchMatrix c := MatrixObj vm]>
             (<[this := ArcBallObj c']> h)))).
Proof.
  intros Hc Hm Ho c' vm.
  pose proof (ArcBall_Matrix_distinct h _ _ _ _ Hc Hm) as Hne1.
  pose proof (ArcBall_FirstPerson_distinct h _ _ _ _ Hc Ho) as Hne2.
  assert (Hne3 : camera <> ab_scratchMatrix c)
    by (eapply FirstPerson_Matrix_distinct; eassumption).
  unfold ArcBallCamera_toFirstPerson.
  step.
  erewrite bind_Return
    by (eapply ArcBallCamera_createViewMatrix_run; eassumption).
  repeat step.
  unfold mret, M_ret.
  rewrite !insert_insert_eq. reflexivity.
Qed.

Lemma FirstPersonCamera_toArcBall_run (h : gmap positive object)
    this arcBallCamera c m0 o :
  h !! this = Some (FirstPersonObj c) ->
  h !! fp_scratchMatrix c = Some (MatrixObj m0) ->
  h !! arcBallCamera = Some (ArcBallObj o) ->
  let c' := FirstPersonCamera_applyLimits c in
  FirstPersonCamera_toArcBall this (Some arcBallCamera) h =
    (Return arcBallCamera,
     <[arcBallCamera :=
         ArcBallObj
           (ArcBallCamera_applyLimits
              (toArcBall_assign
                 (FirstPersonCamera_lookAtParameters c' (ab_range o)) o))]>
       (<[this := FirstPersonObj (toArcBall_this c' (ab_range o))]>
          (<[fp_scratchMatrix c :=
               MatrixObj (FirstPersonCamera_viewMatrix c')]>
             (<[this := FirstPersonObj c']> h)))).
Proof.
  intros Hc Hm Ho c'.
  pose proof (FirstPerson_Matrix_distinct h _ _ _ _ Hc Hm) as Hne1.
  pose proof (ArcBall_FirstPerson_distinct h _ _ _ _ Ho Hc) as Hne2.
  pose proof (ArcBall_Matrix_distinct h _ _ _ _ Ho Hm) as Hne3.
  unfold FirstPersonCamera_toArcBall.
  step.
  erewrite bind_Return
    by (eapply FirstPersonCamera_createViewMatrix_run; eassumption).
  repeat step.
  unfold mret, M_ret.
  rewrite !insert_insert_eq. reflexivity.
Qed.

(** *** copy *)

Lemma Position_copy_eq (p q : Position) : Position_copy p q = q.
Proof. destruct q. reflexivity. Qed.

Lemma get_property_run {A : Type} (get : object -> option A)
    (h : gmap positive object) l o v :
  h !! l = Some o -> get o = Some v -> is_camera o = true ->
  get_property get l h = (Return v, h).
Proof.
  intros Ho Hv Hcam. unfold get_property, load, mbind, M_bind. rewrite Ho.
  destruct o; try discriminate Hcam; cbn; rewrite Hv; reflexivity.
Qed.

(** An object with a camera property is a camera. *)
Ltac is_a_camera :=
  first
    [ reflexivity
    | match goal with
      | H : _ ?o = Some _ |- is_camera ?o = true =>
          destruct o; first [reflexivity | discriminate H]
      end ].

Lemma ArcBallCamera_copy_run (h : gmap positive object)
    this camera c src p t hd rg rl :
  h !! this = Some (ArcBallObj c) ->
  h !! camera = Some src ->
  camera_position src = Some p -> camera_tilt src = Some t ->
  camera_heading src = Some hd -> camera_range src = Some rg ->
  camera_roll src = Some rl ->
  ArcBallCamera_copy this (Some camera) h =
    (Return this,
     <[this := ArcBallObj (ArcBallCamera_copy_fields p t hd rg rl c)]> h).
Proof.
  intros Hc Hs Hp Ht Hhd Hrg Hrl. unfold ArcBallCamera_copy.
  destruct (decide (camera = this)) as [->|Hne].
  - assert (src = ArcBallObj c) as -> by congruence.
    cbn in Hp, Ht, Hhd, Hrg, Hrl.
    repeat first
      [ erewrite bind_Return
          by (eapply get_property_run;
              [lookup | cbn; eassumption | reflexivity])
      | step ].
    unfold mret, M_ret. rewrite !insert_insert_eq. reflexivity.
  - repeat first
      [ erewrite bind_Return
          by (eapply get_property_run;
              [lookup | eassumption | is_a_camera])
      | step ].
    unfold mret, M_ret. rewrite !insert_insert_eq. reflexivity.
Qed.

Lemma FirstPersonCamera_copy_run (h : gmap positive object)
    this camera c src p hd t rl :
  h !! this = Some (FirstPersonObj c) ->
  h !! camera = Some src ->
  camera_position src = Some p -> camera_heading src = Some hd ->
  camera_tilt src = Some t -> camera_roll src = Some rl ->
  FirstPersonCamera_copy this (Some camera) h =
    (Return this,
     <[this := FirstPersonObj (FirstPersonCamera_copy_fields p hd t rl c)]> h).
Proof.
  intros Hc Hs Hp Hhd Ht Hrl. unfold FirstPersonCamera_copy.
  destruct (decide (camera = this)) as [->|Hne].
  - assert (src = FirstPersonObj c) as -> by congruence.
    cbn in Hp, Hhd, Ht, Hrl.
    repeat first
      [ erewrite bind_Return
          by (eapply get_property_run;
              [lookup | cbn; eassumption | reflexivity])
      | step ].
    unfold mret, M_ret. rewrite !insert_insert_eq. reflexivity.
  - repeat first
      [ erewrite bind_Return
          by (eapply get_property_run;
              [lookup | eassumption | is_a_camera])
      | step ].
    unfold mret, M_ret. rewrite !insert_insert_eq. reflexivity.
Qed.

Lemma get_property_ArcBallShared_run {A : Type} (get : object -> option A)
    (h : gmap positive object) l c q p v :
  h !! l = Some (ArcBallShared c q) -> h !! q = Some (PositionObj p) ->
  get (ArcBallObj (ab_set_position p c)) = Some v ->
  get_property get l h = (Return v, h).
Proof.
  intros Ho Hq Hv.
  unfold get_property, resolve, load_Position, load, mbind, M_bind.
  rewrite Ho. cbn. rewrite Hq. cbn. rewrite Hv. reflexivity.
Qed.

Lemma get_property_FirstPersonShared_run {A : Type}
    (get : object -> option A) (h : gmap positive object) l c q p v :
  h !! l = Some (FirstPersonShared c q) -> h !! q = Some (PositionObj p) ->
  get (FirstPersonObj (fp_set_position p c)) = Some v ->
  get_property get l h = (Return v, h).
Proof.
  intros Ho Hq Hv.
  unfold get_property, resolve, load_Position, load, mbind, M_bind.
  rewrite Ho. cbn. rewrite Hq. cbn. rewrite Hv. reflexivity.
Qed.

(** A copy of a camera that holds a Position object: the coordinates of
    that object are written into the Position of the receiver. *)
Lemma ArcBallCamera_copy_shared_run (h : gmap positive object)
    this camera c src q p :
  h !! this = Some (ArcBallObj c) ->
  h !! camera = Some (ArcBallShared src q) ->
  h !! q = Some (PositionObj p) ->
  ArcBallCamera_copy this (Some camera) h =
    (Return this,
     <[this := ArcBallObj
                 (ArcBallCamera_copy_fields p (ab_tilt src) (ab_heading src)
                    (ab_range src) (ab_roll src) c)]> h).
Proof.
  intros Hc Hs Hq.
  assert (Hne1 : camera <> this) by congruence.
  assert (Hne2 : q <> this) by congruence.
  unfold ArcBallCamera_copy.
  repeat first
    [ erewrite bind_Return
        by (eapply get_property_ArcBallShared_run;
              [lookup | lookup | reflexivity])
    | step ].
  unfold mret, M_ret. rewrite !insert_insert_eq. reflexivity.
Qed.

Lemma FirstPersonCamera_copy_shared_run (h : gmap positive object)
    this camera c src q p :
  h !! this = Some (FirstPersonObj c) ->
  h !! camera = Some (FirstPersonShared src q) ->
  h !! q = Some (PositionObj p) ->
  FirstPersonCamera_copy this (Some camera) h =
    (Return this,
     <[this := FirstPersonObj
                 (FirstPersonCamera_copy_fields p (fp_heading src)
                    (fp_tilt src) (fp_roll src) c)]> h).
Proof.
  intros Hc Hs Hq.
  assert (Hne1 : camera <> this) by congruence.
  assert (Hne2 : q <> this) by congruence.
  unfold FirstPersonCamera_copy.
  repeat first
    [ erewrite bind_Return
        by (eapply get_property_FirstPersonShared_run;
              [lookup | lookup | reflexivity])
    | step ].
  unfold mret, M_ret. rewrite !insert_insert_eq. reflexivity.
Qed.

(** A method that ends in [return x] returns [x], if it returns. *)
Lemma bind_inv {A B : Type} (m : M A) (k : A -> M B) h b h' :
  (m ≫= k) h = (Return b, h') ->
  exists a h1, m h = (Return a, h1) /\ k a h1 = (Return b, h').
Proof.
  unfold mbind, M_bind. destruct (m h) as [[a|e] h1]; intros H.
  - exists a, h1. split; [reflexivity | exact H].
  - discriminate H.
Qed.

Lemma bind_mret_same {A : Type} (m : M A) (x : A) h :
  (forall a h', m h = (Return a, h') -> a = x) ->
  (m ≫= (fun _ => mret x)) h = m h.
Proof.
  intros H. unfold mbind, M_bind. destruct (m h) as [[a|e] h1] eqn:E.
  - rewrite (H a h1 eq_refl). reflexivity.
  - reflexivity.
Qed.

Ltac returns_its_argument H :=
  repeat (apply bind_inv in H; destruct H as (? & ? & _ & H); cbv zeta in H);
  unfold mret, M_ret in H; congruence.

Lemma ArcBallCamera_copy_returns this camera (h : gmap positive object) a h' :
  ArcBallCamera_copy this (Some camera) h = (Return a, h') -> a = this.
Proof. unfold ArcBallCamera_copy. intros H. returns_its_argument H. Qed.

Lemma FirstPersonCamera_copy_returns this camera
    (h : gmap positive object) a h' :
  FirstPersonCamera_copy this (Some camera) h = (Return a, h') -> a = this.
Proof. unfold FirstPersonCamera_copy. intros H. returns_its_argument H. Qed.

Lemma ArcBallCamera_toFirstPerson_returns this camera
    (h : gmap positive object) a h' :
  ArcBallCamera_toFirstPerson this (Some camera) h = (Return a, h') ->
  a = camera.
Proof.
  unfold ArcBallCamera_toFirstPerson. intros H. returns_its_argument H.
Qed.

Lemma FirstPersonCamera_toArcBall_returns this camera
    (h : gmap positive object) a h' :
  FirstPersonCamera_toArcBall this (Some camera) h = (Return a, h') ->
  a = camera.
Proof.
  unfold FirstPersonCamera_toArcBall. intros H. returns_its_argument H.
Qed.

(** *** Navigator *)

Lemma load_run (h : gmap positive object) l o :
  h !! l = Some o -> load l h = (Return o, h).
Proof. intros E. unfold load. rewrite E. reflexivity. Qed.

Lemma read_camera_run {A : Type} (get : object -> option A)
    (h : gmap positive object) nav o v :
  h !! Navigator_camera nav = Some o -> get o = Some v ->
  is_camera o = true ->
  read_camera get nav h = (Return v, h).
Proof. apply get_property_run. Qed.

Lemma write_camera_ArcBall_run ab fp (h : gmap positive object) nav c :
  h !! Navigator_camera nav = Some (ArcBallObj c) ->
  write_camera ab fp nav h =
    (Return tt, <[Navigator_camera nav := ArcBallObj (ab c)]> h).
Proof.
  intros Ho. unfold write_camera.
  rewrite (bind_Return _ _ _ _ _ (load_run h _ _ Ho)).
  apply update_ArcBall_run, Ho.
Qed.

Lemma write_camera_FirstPerson_run ab fp (h : gmap positive object) nav c :
  h !! Navigator_camera nav = Some (FirstPersonObj c) ->
  write_camera ab fp nav h =
    (Return tt, <[Navigator_camera nav := FirstPersonObj (fp c)]> h).
Proof.
  intros Ho. unfold write_camera.
  rewrite (bind_Return _ _ _ _ _ (load_run h _ _ Ho)).
  apply update_FirstPerson_run, Ho.
Qed.

(** Reads and writes through the navigator of a camera that holds a
    Position object. *)
Lemma read_camera_ArcBallShared_run {A : Type} (get : object -> option A)
    (h : gmap positive object) nav c q p v :
  h !! Navigator_camera nav = Some (ArcBallShared c q) ->
  h !! q = Some (PositionObj p) ->
  get (ArcBallObj (ab_set_position p c)) = Some v ->
  read_camera get nav h = (Return v, h).
Proof. apply get_property_ArcBallShared_run. Qed.

Lemma read_camera_FirstPersonShared_run {A : Type}
    (get : object -> option A) (h : gmap positive object) nav c q p v :
  h !! Navigator_camera nav = Some (FirstPersonShared c q) ->
  h !! q = Some (PositionObj p) ->
  get (FirstPersonObj (fp_set_position p c)) = Some v ->
  read_camera get nav h = (Return v, h).
Proof. apply get_property_FirstPersonShared_run. Qed.

Lemma write_camera_ArcBallShared_run ab fp (h : gmap positive object)
    nav c q p :
  h !! Navigator_camera nav = Some (ArcBallShared c q) ->
  h !! q = Some (PositionObj p) ->
  write_camera ab fp nav h =
    (Return tt,
     <[Navigator_camera nav :=
         ArcBallShared
           (ab_set_position (ab_position c) (ab (ab_set_position p c))) q]>
       (<[q := PositionObj (ab_position (ab (ab_set_position p c)))]> h)).
Proof.
  intros Ho Hq. unfold write_camera.
  rewrite (bind_Return _ _ _ _ _ (load_run h _ _ Ho)).
  apply update_ArcBall_shared_run; assumption.
Qed.

Lemma write_camera_FirstPersonShared_run ab fp (h : gmap positive object)
    nav c q p :
  h !! Navigator_camera nav = Some (FirstPersonShared c q) ->
  h !! q = Some (PositionObj p) ->
  write_camera ab fp nav h =
    (Return tt,
     <[Navigator_camera nav :=
         FirstPersonShared
           (fp_set_position (fp_position c) (fp (fp_set_position p c))) q]>
       (<[q := PositionObj (fp_position (fp (fp_set_position p c)))]> h)).
Proof.
  intros Ho Hq. unfold write_camera.
  rewrite (bind_Return _ _ _ _ _ (load_run h _ _ Ho)).
  apply update_FirstPerson_shared_run; assumption.
Qed.

(** Writing a number into a camera that holds a Position object leaves
    that object as it is. *)
Lemma insert_Position_same (h : gmap positive object) l q o p :
  h !! q = Some (PositionObj p) ->
  <[l := o]> (<[q := PositionObj p]> h) = <[l := o]> h.
Proof. intros Hq. rewrite (insert_id h q _ Hq). reflexivity. Qed.

(** Writing a coordinate through a camera that holds a Position object
    writes that object and leaves the camera as it is. *)
Lemma insert_camera_same (h : gmap positive object) l q o o' :
  h !! l = Some o -> l <> q ->
  <[l := o]> (<[q := o']> h) = <[q := o']> h.
Proof.
  intros Hl Hne. apply insert_id. rewrite lookup_insert_ne by congruence.
  exact Hl.
Qed.

Lemma Navigator_set_lookAtLocation_ArcBall_run (h : gmap positive object)
    nav c position :
  h !! Navigator_camera nav = Some (ArcBallObj c) ->
  Navigator_set_lookAtLocation nav position h =
    (Return tt, <[Navigator_camera nav := ArcBallShared c position]> h).
Proof.
  intros Ho. unfold Navigator_set_lookAtLocation.
  rewrite (bind_Return _ _ _ _ _ (load_run h _ _ Ho)). reflexivity.
Qed.

Lemma Navigator_set_lookAtLocation_FirstPerson_run
    (h : gmap positive object) nav c position :
  h !! Navigator_camera nav = Some (FirstPersonObj c) ->
  Navigator_set_lookAtLocation nav position h =
    (Return tt, <[Navigator_camera nav := FirstPersonShared c position]> h).
Proof.
  intros Ho. unfold Navigator_set_lookAtLocation.
  rewrite (bind_Return _ _ _ _ _ (load_run h _ _ Ho)). reflexivity.
Qed.

Lemma Navigator_set_lookAtLocation_ArcBallShared_run
    (h : gmap positive object) nav c q position :
  h !! Navigator_camera nav = Some (ArcBallShared c q) ->
  Navigator_set_lookAtLocation nav position h =
    (Return tt, <[Navigator_camera nav := ArcBallShared c position]> h).
Proof.
  intros Ho. unfold Navigator_set_lookAtLocation.
  rewrite (bind_Return _ _ _ _ _ (load_run h _ _ Ho)). reflexivity.
Qed.

Lemma Navigator_set_lookAtLocation_FirstPersonShared_run
    (h : gmap positive object) nav c q position :
  h !! Navigator_camera nav = Some (FirstPersonShared c q) ->
  Navigator_set_lookAtLocation nav position h =
    (Return tt, <[Navigator_camera nav := FirstPersonShared c position]> h).
Proof.
  intros Ho. unfold Navigator_set_lookAtLocation.
  rewrite (bind_Return _ _ _ _ _ (load_run h _ _ Ho)). reflexivity.
Qed.

(** The five properties, read one after the other. *)
Lemma Navigator_readAll_ArcBall (h : gmap positive object) nav c :
  h !! Navigator_camera nav = Some (ArcBallObj c) ->
  Navigator_readAll nav h =
    (Return (ab_position c, ab_range c, ab_heading c, ab_tilt c, ab_roll c),
     h).
Proof.
  intros Hc. unfold Navigator_readAll, Navigator_lookAtLocation,
    Navigator_range, Navigator_heading, Navigator_tilt, Navigator_roll.
  repeat (erewrite bind_Return
            by (eapply read_camera_run; [exact Hc | reflexivity..])).
  reflexivity.
Qed.

Lemma Navigator_readAll_FirstPerson (h : gmap positive object) nav c :
  h !! Navigator_camera nav = Some (FirstPersonObj c) ->
  Navigator_readAll nav h =
    (Return (fp_position c, altitude (fp_position c), fp_heading c,
             fp_tilt c, fp_roll c), h).
Proof.
  intros Hc. unfold Navigator_readAll, Navigator_lookAtLocation,
    Navigator_range, Navigator_heading, Navigator_tilt, Navigator_roll.
  repeat (erewrite bind_Return
            by (eapply read_camera_run; [exact Hc | reflexivity..])).
  reflexivity.
Qed.

Lemma Navigator_readAll_ArcBallShared (h : gmap positive object)
    nav c q p :
  h !! Navigator_camera nav = Some (ArcBallShared c q) ->
  h !! q = Some (PositionObj p) ->
  Navigator_readAll nav h =
    (Return (p, ab_range c, ab_heading c, ab_tilt c, ab_roll c), h).
Proof.
  intros Hc Hq. unfold Navigator_readAll, Navigator_lookAtLocation,
    Navigator_range, Navigator_heading, Navigator_tilt, Navigator_roll.
  repeat (erewrite bind_Return
            by (eapply read_camera_ArcBallShared_run;
                  [exact Hc | exact Hq | reflexivity])).
  reflexivity.
Qed.

Lemma Navigator_readAll_FirstPersonShared (h : gmap positive object)
    nav c q p :
  h !! Navigator_camera nav = Some (FirstPersonShared c q) ->
  h !! q = Some (PositionObj p) ->
  Navigator_readAll nav h =
    (Return (p, altitude p, fp_heading c, fp_tilt c, fp_roll c), h).
Proof.
  intros Hc Hq. unfold Navigator_readAll, Navigator_lookAtLocation,
    Navigator_range, Navigator_heading, Navigator_tilt, Navigator_roll.
  repeat (erewrite bind_Return
            by (eapply read_camera_FirstPersonShared_run;
                  [exact Hc | exact Hq | reflexivity])).
  reflexivity.
Qed.

(** With an output camera given, the kind of the active camera decides
    between the copy and the conversion. *)
Lemma getAsFirstPersonCamera_dispatch (h : gmap positive object)
    nav camera o :
  h !! Navigator_camera nav = Some o ->
  Navigator_getAsFirstPersonCamera nav (Some camera) h =
    if instanceof_FirstPersonCamera o
    then FirstPersonCamera_copy camera (Some (Navigator_camera nav)) h
    else ArcBallCamera_toFirstPerson (Navigator_camera nav) (Some camera) h.
Proof.
  intros Ho. unfold Navigator_getAsFirstPersonCamera.
  erewrite bind_Return by reflexivity.
  erewrite bind_Return by (apply load_run; exact Ho).
  destruct (instanceof_FirstPersonCamera o); apply bind_mret_same;
    intros a h'.
  - apply FirstPersonCamera_copy_returns.
  - apply ArcBallCamera_toFirstPerson_returns.
Qed.

Lemma getAsArcBallCamera_dispatch (h : gmap positive object)
    nav camera o :
  h !! Navigator_camera nav = Some o ->
  Navigator_getAsArcBallCamera nav (Some camera) h =
    if instanceof_FirstPersonCamera o
    then FirstPersonCamera_toArcBall (Navigator_camera nav) (Some camera) h
    else ArcBallCamera_copy camera (Some (Navigator_camera nav)) h.
Proof.
  intros Ho. unfold Navigator_getAsArcBallCamera.
  erewrite bind_Return by reflexivity.
  erewrite bind_Return by (apply load_run; exact Ho).
  destruct (instanceof_FirstPersonCamera o); apply bind_mret_same;
    intros a h'.
  - apply FirstPersonCamera_toArcBall_returns.
  - apply ArcBallCamera_copy_returns.
Qed.

(** With an output camera given, [getAsFirstPersonCamera] is the copy or
    the conversion, according to the kind of the active camera. *)
Lemma getAsFirstPersonCamera_FirstPerson (h : gmap positive object)
    nav camera c o :
  h !! Navigator_camera nav = Some (FirstPersonObj c) ->
  h !! camera = Some (FirstPersonObj o) ->
  Navigator_getAsFirstPersonCamera nav (Some camera) h =
    FirstPersonCamera_copy camera (Some (Navigator_camera nav)) h /\
  Navigator_getAsFirstPersonCamera nav (Some camera) h =
    (Return camera,
     <[camera := FirstPersonObj
                   (FirstPersonCamera_copy_fields (fp_position c)
                      (fp_heading c) (fp_tilt c) (fp_roll c) o)]> h).
Proof.
  intros Hc Ho.
  pose proof (FirstPersonCamera_copy_run h camera (Navigator_camera nav)
                o (FirstPersonObj c) _ _ _ _ Ho Hc
                eq_refl eq_refl eq_refl eq_refl) as Hrun.
  rewrite Hrun. unfold Navigator_getAsFirstPersonCamera.
  erewrite bind_Return by reflexivity.
  erewrite bind_Return by (apply load_run; eassumption).
  cbn [instanceof_FirstPersonCamera].
  erewrite bind_Return by exact Hrun. split; reflexivity.
Qed.

Lemma getAsFirstPersonCamera_ArcBall (h : gmap positive object)
    nav camera c m0 o :
  h !! Navigator_camera nav = Some (ArcBallObj c) ->
  h !! ab_scratchMatrix c = Some (MatrixObj m0) ->
  h !! camera = Some (FirstPersonObj o) ->
  Navigator_getAsFirstPersonCamera nav (Some camera) h =
    ArcBallCamera_toFirstPerson (Navigator_camera nav) (Some camera) h /\
  fst (Navigator_getAsFirstPersonCamera nav (Some camera) h) = Return camera.
Proof.
  intros Hc Hm Ho.
  pose proof (ArcBallCamera_toFirstPerson_run h _ camera c m0 o Hc Hm Ho)
    as Hrun. cbv zeta in Hrun.
  rewrite Hrun. unfold Navigator_getAsFirstPersonCamera.
  erewrite bind_Return by reflexivity.
  erewrite bind_Return by (apply load_run; eassumption).
  cbn [instanceof_FirstPersonCamera].
  erewrite bind_Return by exact Hrun. split; reflexivity.
Qed.

Lemma getAsArcBallCamera_ArcBall (h : gmap positive object)
    nav camera c o :
  h !! Navigator_camera nav = Some (ArcBallObj c) ->
  h !! camera = Some (ArcBallObj o) ->
  Navigator_getAsArcBallCamera nav (Some camera) h =
    ArcBallCamera_copy camera (Some (Navigator_camera nav)) h /\
  Navigator_getAsArcBallCamera nav (Some camera) h =
    (Return camera,
     <[camera := ArcBallObj
                   (ArcBallCamera_copy_fields (ab_position c) (ab_tilt c)
                      (ab_heading c) (ab_range c) (ab_roll c) o)]> h).
Proof.
  intros Hc Ho.
  pose proof (ArcBallCamera_copy_run h camera (Navigator_camera nav)
                o (ArcBallObj c) _ _ _ _ _ Ho Hc
                eq_refl eq_refl eq_refl eq_refl eq_refl) as Hrun.
  rewrite Hrun. unfold Navigator_getAsArcBallCamera.
  erewrite bind_Return by reflexivity.
  erewrite bind_Return by (apply load_run; eassumption).
  cbn [instanceof_FirstPersonCamera].
  erewrite bind_Return by exact Hrun. split; reflexivity.
Qed.

Lemma getAsArcBallCamera_FirstPerson (h : gmap positive object)
    nav camera c m0 o :
  h !! Navigator_camera nav = Some (FirstPersonObj c) ->
  h !! fp_scratchMatrix c = Some (MatrixObj m0) ->
  h !! camera = Some (ArcBallObj o) ->
  Navigator_getAsArcBallCamera nav (Some camera) h =
    FirstPersonCamera_toArcBall (Navigator_camera nav) (Some camera) h /\
  fst (Navigator_getAsArcBallCamera nav (Some camera) h) = Return camera.
Proof.
  intros Hc Hm Ho.
  pose proof (FirstPersonCamera_toArcBall_run h _ camera c m0 o Hc Hm Ho)
    as Hrun. cbv zeta in Hrun.
  rewrite Hrun. unfold Navigator_getAsArcBallCamera.
  erewrite bind_Return by reflexivity.
  erewrite bind_Return by (apply load_run; eassumption).
  cbn [instanceof_FirstPersonCamera].
  erewrite bind_Return by exact Hrun. split; reflexivity.
Qed.

(** The constructors put the new camera at a location that was not in use. *)
Lemma alloc_fresh (h : gmap positive object) o :
  exists l, alloc o h = (Return l, <[l := o]> h) /\ h !! l = None.
Proof.
  exists (fresh (dom h)). split; [reflexivity|].
  apply not_elem_of_dom. apply is_fresh.
Qed.

Lemma FirstPersonCamera_new_run (h : gmap positive object) w :
  exists scratch l c,
    FirstPersonCamera_new (Some w) h =
      (Return l,
       <[l := FirstPersonObj c]> (<[scratch := MatrixObj Matrix_identity]> h)) /\
    h !! scratch = None /\ h !! l = None /\ l <> scratch /\
    fp_wwd c = w /\ fp_scratchMatrix c = scratch.
Proof.
  destruct (alloc_fresh h (MatrixObj Matrix_identity)) as (s & Hs & Hfs).
  set (c := {| fp_position := mkPosition 30 (-110) 1000;
               fp_heading := 0; fp_tilt := 0; fp_roll := 0; fp_wwd := w;
               fp_scratchMatrix := s;
               fp_scratchVector := mkVec3 0 0 0;
               fp_ray := mkLine (mkVec3 0 0 0) (mkVec3 0 0 0) |}).
  destruct (alloc_fresh (<[s := MatrixObj Matrix_identity]> h)
              (FirstPersonObj c)) as (l & Hl & Hfl).
  exists s, l, c. unfold FirstPersonCamera_new.
  erewrite bind_Return by exact Hs. fold c. rewrite Hl.
  assert (l <> s) by (intros ->; rewrite lookup_insert_eq in Hfl; congruence).
  rewrite lookup_insert_ne in Hfl by congruence. repeat split; auto.
Qed.

Lemma ArcBallCamera_new_run (h : gmap positive object) w :
  exists scratch l c,
    ArcBallCamera_new (Some w) h =
      (Return l,
       <[l := ArcBallObj c]> (<[scratch := MatrixObj Matrix_identity]> h)) /\
    h !! scratch = None /\ h !! l = None /\ l <> scratch /\
    ab_wwd c = w /\ ab_scratchMatrix c = scratch.
Proof.
  destruct (alloc_fresh h (MatrixObj Matrix_identity)) as (s & Hs & Hfs).
  set (c := {| ab_position := mkPosition 30 (-110) 0;
               ab_heading := 0; ab_tilt := 0; ab_range := 10000000;
               ab_roll := 0; ab_wwd := w;
               ab_scratchMatrix := s;
               ab_scratchVector := mkVec3 0 0 0 |}).
  destruct (alloc_fresh (<[s := MatrixObj Matrix_identity]> h)
              (ArcBallObj c)) as (l & Hl & Hfl).
  exists s, l, c. unfold ArcBallCamera_new.
  erewrite bind_Return by exact Hs. fold c. rewrite Hl.
  assert (l <> s) by (intros ->; rewrite lookup_insert_eq in Hfl; congruence).
  rewrite lookup_insert_ne in Hfl by congruence. repeat split; auto.
Qed.

(** *** applyLimits *)

Lemma normalized_normalizedDegrees (x : Q) :
  normalized (Angle.normalizedDegrees x).
Proof. exact (normalizedDegrees_range x). Qed.

Lemma normalized_normalizedDegreesLongitude (x : Q) :
  normalized (Angle.normalizedDegreesLongitude x).
Proof. exact (normalizedDegrees_range x). Qed.

Ltac conjuncts := repeat match goal with |- _ /\ _ => split end.

Lemma MAX_VALUE_ge_0 : 0 <= Number.MAX_VALUE.
Proof. pose proof MAX_VALUE_large. lra. Qed.

Lemma MAX_VALUE_ge_1 : 1 <= Number.MAX_VALUE.
Proof. pose proof MAX_VALUE_large. lra. Qed.

(** The two clamps of the range on a flat globe, taken together. *)
Lemma range2D_cases (r m : Q) :
  let r1 := WWMath.clamp r 1 Number.MAX_VALUE in
  1 <= r1 /\ r1 <= Number.MAX_VALUE /\
  ((m < r1 /\ WWMath.clamp r1 1 m = m) \/
   (r1 <= m /\ WWMath.clamp r1 1 m = r1)).
Proof.
  cbv zeta.
  destruct (clamp_bounds r 1 Number.MAX_VALUE MAX_VALUE_ge_1) as [H1 H2].
  split; [assumption|]. split; [assumption|].
  destruct (clamp_cases (WWMath.clamp r 1 Number.MAX_VALUE) 1 m)
    as [[H _]|[(_ & H & E)|(_ & H & E)]].
  - lra.
  - left. auto.
  - right. auto.
Qed.

Lemma range2D_idempotent (r m : Q) :
  let r2 := WWMath.clamp (WWMath.clamp r 1 Number.MAX_VALUE) 1 m in
  WWMath.clamp (WWMath.clamp r2 1 Number.MAX_VALUE) 1 m = r2.
Proof.
  cbv zeta.
  destruct (range2D_cases r m) as (H1 & H2 & [[Hm ->]|[Hm ->]]).
  - destruct (clamp_cases m 1 Number.MAX_VALUE)
      as [[H ->]|[(Ha & Hb & ->)|(Ha & Hb & ->)]].
    + unfold WWMath.clamp, Number.gt.
      assert (E1 : Number.lt 1 1 = false) by (apply Number_lt_false; lra).
      assert (E2 : Number.lt m 1 = true) by (apply Number_lt_true; lra).
      rewrite E1, E2. reflexivity.
    + lra.
    + unfold WWMath.clamp, Number.gt.
      assert (E1 : Number.lt m 1 = false) by (apply Number_lt_false; lra).
      assert (E2 : Number.lt m m = false) by (apply Number_lt_false; lra).
      rewrite E1, E2. reflexivity.
  - rewrite (clamp_id (WWMath.clamp r 1 Number.MAX_VALUE) 1 Number.MAX_VALUE)
      by assumption.
    apply clamp_id; assumption.
Qed.

(** C1, amended. After [applyLimits] the latitude lies in [-90,90], the
    longitude, heading and roll in (-180,180], the tilt of an ArcBallCamera
    in [0,90] and is exactly 0 on a flat globe, the tilt of a
    FirstPersonCamera in [-90,90], the altitude is at least 0; and, provided
    that the globe is round or that its 2*pi*equatorialRadius is at least 1,
    the range of an ArcBallCamera is at least 1 and, on a flat globe, at
    most 2*pi*equatorialRadius. *)
Theorem applyLimits_domain_closure :
  (forall c : ArcBallCamera,
      let c' := ArcBallCamera_applyLimits c in
      let g := globe (ab_wwd c') in
      -90 <= latitude (ab_position c') /\ latitude (ab_position c') <= 90 /\
      normalized (longitude (ab_position c')) /\
      0 <= altitude (ab_position c') /\
      normalized (ab_heading c') /\ normalized (ab_roll c') /\
      0 <= ab_tilt c' /\ ab_tilt c' <= 90 /\
      (is2D g = true -> ab_tilt c' = 0) /\
      ((is2D g = true -> 1 <= maxRange2D g) ->
       1 <= ab_range c' /\
       (is2D g = true -> ab_range c' <= maxRange2D g))) /\
  (forall c : FirstPersonCamera,
      let c' := FirstPersonCamera_applyLimits c in
      -90 <= latitude (fp_position c') /\ latitude (fp_position c') <= 90 /\
      normalized (longitude (fp_position c')) /\
      0 <= altitude (fp_position c') /\
      normalized (fp_heading c') /\ normalized (fp_roll c') /\
      -90 <= fp_tilt c' /\ fp_tilt c' <= 90).
Proof.
  split; intros c; cbv zeta.
  - unfold ArcBallCamera_applyLimits, maxRange2D.
    destruct (clamp_bounds (latitude (ab_position c)) (-90) 90) as [L1 L2];
      [lra|].
    pose proof (clamp_lower (altitude (ab_position c)) 0 Number.MAX_VALUE
                  MAX_VALUE_ge_0) as A.
    destruct (clamp_bounds (ab_tilt c) 0 90) as [T1 T2]; [lra|].
    pose proof (normalized_normalizedDegreesLongitude
                  (longitude (ab_position c))).
    pose proof (normalized_normalizedDegrees (ab_heading c)).
    pose proof (normalized_normalizedDegrees (ab_roll c)).
    pose proof (clamp_bounds (ab_range c) 1 Number.MAX_VALUE MAX_VALUE_ge_1)
      as [R1 R2].
    destruct (is2D (globe (ab_wwd c))) eqn:E;
      cbn [ab_position ab_heading ab_tilt ab_range ab_roll ab_wwd
           latitude longitude altitude]; rewrite ?E;
      conjuncts; try assumption; try lra; try congruence.
    + intros Hcap. specialize (Hcap eq_refl).
      destruct (clamp_bounds (WWMath.clamp (ab_range c) 1 Number.MAX_VALUE) 1
                  (2 * Math.PI * equatorialRadius (globe (ab_wwd c))) Hcap)
        as [C1 C2].
      split; [exact C1 | intros _; exact C2].
  - unfold FirstPersonCamera_applyLimits.
    cbn [fp_position fp_heading fp_tilt fp_roll latitude longitude altitude].
    destruct (clamp_bounds (latitude (fp_position c)) (-90) 90) as [L1 L2];
      [lra|].
    pose proof (clamp_lower (altitude (fp_position c)) 0 Number.MAX_VALUE
                  MAX_VALUE_ge_0) as A.
    destruct (clamp_bounds (fp_tilt c) (-90) 90) as [T1 T2]; [lra|].
    pose proof (normalized_normalizedDegreesLongitude
                  (longitude (fp_position c))).
    pose proof (normalized_normalizedDegrees (fp_heading c)).
    pose proof (normalized_normalizedDegrees (fp_roll c)).
    conjuncts; assumption.
Qed.

(** C1, as stated, fails on a flat globe whose circumference is below one
    meter: 2*pi*equatorialRadius is below 1 there, so no number is both at
    least 1 and at most 2*pi*equatorialRadius, and whatever range
    [applyLimits] leaves, it is not within the two bounds of the claim. *)
Lemma applyLimits_range_bounds_unsatisfiable_on_small_flat_globe :
  let c' := ArcBallCamera_applyLimits
              (out_of_range_ArcBallCamera small_flat_globe) in
  let g := globe (ab_wwd c') in
  is2D g = true /\
  maxRange2D g < 1 /\
  (forall r : Q, ~ (1 <= r /\ r <= maxRange2D g)) /\
  ~ (1 <= ab_range c' /\ ab_range c' <= maxRange2D g).
Proof.
  cbv zeta.
  assert (Hcap : maxRange2D
                   (globe (ab_wwd (ArcBallCamera_applyLimits
                      (out_of_range_ArcBallCamera small_flat_globe)))) < 1)
    by (vm_compute; reflexivity).
  split; [reflexivity|]. split; [exact Hcap|]. split.
  - intros r [H1 H2]. lra.
  - intros [H1 H2]. lra.
Qed.

(** C2. Calling [applyLimits] twice leaves either camera, on a flat or on
    a round globe, in exactly the state that one call leaves it in: as a
    function of the fields of the camera, and as a method on the store. *)
Theorem applyLimits_idempotent :
  (forall c : ArcBallCamera,
      ArcBallCamera_applyLimits (ArcBallCamera_applyLimits c) =
      ArcBallCamera_applyLimits c) /\
  (forall c : FirstPersonCamera,
      FirstPersonCamera_applyLimits (FirstPersonCamera_applyLimits c) =
      FirstPersonCamera_applyLimits c) /\
  (forall (h : gmap positive object) (this : positive),
      (update_ArcBall this ArcBallCamera_applyLimits;;
       update_ArcBall this ArcBallCamera_applyLimits) h =
      update_ArcBall this ArcBallCamera_applyLimits h) /\
  (forall (h : gmap positive object) (this : positive),
      (update_FirstPerson this FirstPersonCamera_applyLimits;;
       update_FirstPerson this FirstPersonCamera_applyLimits) h =
      update_FirstPerson this FirstPersonCamera_applyLimits h).
Proof.
  assert (B0 : 0 <= Number.MAX_VALUE) by exact MAX_VALUE_ge_0.
  assert (B1 : 1 <= Number.MAX_VALUE) by exact MAX_VALUE_ge_1.
  assert (B2 : -90 <= 90) by lra.
  assert (B3 : 0 <= 90) by lra.
  assert (HA : forall c : ArcBallCamera,
             ArcBallCamera_applyLimits (ArcBallCamera_applyLimits c) =
             ArcBallCamera_applyLimits c).
  { intros c. unfold ArcBallCamera_applyLimits.
    destruct (is2D (globe (ab_wwd c))) eqn:E;
      cbn [ab_position ab_heading ab_tilt ab_range ab_roll ab_wwd
           ab_scratchMatrix ab_scratchVector latitude longitude altitude];
      rewrite E.
    - pose proof (range2D_idempotent (ab_range c)
                    (2 * Math.PI * equatorialRadius (globe (ab_wwd c))))
        as R. cbv zeta in R. rewrite R.
      rewrite normalizedDegreesLongitude_idempotent.
      rewrite (normalizedDegrees_idempotent (ab_heading c)).
      rewrite (normalizedDegrees_idempotent (ab_roll c)).
      rewrite (clamp_idempotent _ _ _ B2), (clamp_idempotent _ _ _ B0).
      reflexivity.
    - rewrite normalizedDegreesLongitude_idempotent.
      rewrite (normalizedDegrees_idempotent (ab_heading c)).
      rewrite (normalizedDegrees_idempotent (ab_roll c)).
      rewrite (clamp_idempotent _ _ _ B2), (clamp_idempotent _ _ _ B0),
        (clamp_idempotent _ _ _ B1), (clamp_idempotent _ _ _ B3).
      reflexivity. }
  assert (HF : forall c : FirstPersonCamera,
             FirstPersonCamera_applyLimits (FirstPersonCamera_applyLimits c) =
             FirstPersonCamera_applyLimits c).
  { intros c. unfold FirstPersonCamera_applyLimits.
    cbn [fp_position fp_heading fp_tilt fp_roll fp_wwd fp_scratchMatrix
         fp_scratchVector fp_ray latitude longitude altitude].
    rewrite normalizedDegreesLongitude_idempotent.
    rewrite (normalizedDegrees_idempotent (fp_heading c)).
    rewrite (normalizedDegrees_idempotent (fp_roll c)).
    rewrite (clamp_idempotent _ _ _ B0).
    rewrite (clamp_idempotent (latitude (fp_position c)) _ _ B2).
    rewrite (clamp_idempotent (fp_tilt c) _ _ B2).
    reflexivity. }
  split; [exact HA|]. split; [exact HF|]. split; intros h this.
  - apply update_ArcBall_twice, HA.
  - apply update_FirstPerson_twice, HF.
Qed.

(** The remainder has the sign of the dividend, as [%] has. *)
Example rem360_examples :
  Number.rem360 370 = 10 /\ Number.rem360 (-270) = -270 /\
  Number.rem360 (-725 # 2) = -5 # 2 /\ Number.rem360 720 = 0.
Proof. repeat split. Qed.

(** The test "Applies limits" of the FirstPersonCamera test suite. *)
Example FirstPersonCamera_applyLimits_test :
  FirstPersonCamera_applyLimits
    {| fp_position := mkPosition 100 185 (-1000);
       fp_heading := 370; fp_tilt := 100; fp_roll := -270;
       fp_wwd := mkWorldWindow round_globe;
       fp_scratchMatrix := 3%positive;
       fp_scratchVector := mkVec3 0 0 0;
       fp_ray := mkLine (mkVec3 0 0 0) (mkVec3 0 0 0) |} =
    {| fp_position := mkPosition 90 (-175) 0;
       fp_heading := 10; fp_tilt := 90; fp_roll := 90;
       fp_wwd := mkWorldWindow round_globe;
       fp_scratchMatrix := 3%positive;
       fp_scratchVector := mkVec3 0 0 0;
       fp_ray := mkLine (mkVec3 0 0 0) (mkVec3 0 0 0) |}.
Proof. vm_compute. reflexivity. Qed.

(** C3. The ArcBallCamera with latitude 100, longitude 185, altitude
    -1000, heading 370, tilt 100, range -6000 and roll -270 on the round
    globe has, after one [applyLimits], latitude 90, longitude -175,
    altitude 0, heading 10, tilt 90, range 1 and roll 90. *)
Theorem applyLimits_clamping_example :
  ArcBallCamera_applyLimits (out_of_range_ArcBallCamera round_globe) =
  {| ab_position := mkPosition 90 (-175) 0;
     ab_heading := 10; ab_tilt := 90; ab_range := 1; ab_roll := 90;
     ab_wwd := mkWorldWindow round_globe;
     ab_scratchMatrix := 1%positive;
     ab_scratchVector := mkVec3 0 0 0 |}.
Proof. vm_compute. reflexivity. Qed.

(** C6. On a flat globe [ArcBallCamera.applyLimits] sets the tilt to
    exactly 0 and clamps the range a second time, to at most
    2*pi*equatorialRadius, neither of which it does on a round globe;
    [FirstPersonCamera.applyLimits] gives the same camera whatever its
    globe is. *)
Theorem flat_mode_asymmetry :
  (forall c : ArcBallCamera,
      is2D (globe (ab_wwd c)) = true ->
      ab_tilt (ArcBallCamera_applyLimits c) = 0 /\
      ab_range (ArcBallCamera_applyLimits c) =
        WWMath.clamp (WWMath.clamp (ab_range c) 1 Number.MAX_VALUE) 1
          (maxRange2D (globe (ab_wwd c))) /\
      ab_range (ArcBallCamera_applyLimits c) <=
        maxRange2D (globe (ab_wwd c))) /\
  (forall c : ArcBallCamera,
      is2D (globe (ab_wwd c)) = false ->
      ab_tilt (ArcBallCamera_applyLimits c) = WWMath.clamp (ab_tilt c) 0 90 /\
      ab_range (ArcBallCamera_applyLimits c) =
        WWMath.clamp (ab_range c) 1 Number.MAX_VALUE) /\
  (forall (c : FirstPersonCamera) (w w' : WorldWindow),
      FirstPersonCamera_applyLimits (fp_set_wwd w c) =
      fp_set_wwd w (FirstPersonCamera_applyLimits (fp_set_wwd w' c))).
Proof.
  split; [|split].
  - intros c E. unfold ArcBallCamera_applyLimits, maxRange2D. rewrite E.
    cbn [ab_tilt ab_range]. split; [reflexivity|]. split; [reflexivity|].
    apply clamp_upper.
    apply clamp_lower. exact MAX_VALUE_ge_1.
  - intros c E. unfold ArcBallCamera_applyLimits. rewrite E.
    split; reflexivity.
  - intros c w w'. reflexivity.
Qed.

(** *** Tilt conventions *)

(** C5. The 90 degree offset between the two tilt conventions is applied
    once on each path: [FirstPersonCamera.createViewMatrix] hands
    [tilt + 90] to the look-at primitive; [ArcBallCamera.toFirstPerson]
    extracts the parameters from a matrix built with the tilt as it is and
    writes the extracted tilt minus 90 into the output;
    [FirstPersonCamera.toArcBall] extracts them from a matrix built with
    [tilt + 90] and writes the extracted tilt as it is.  In both
    conversions [applyLimits] of the output follows the write. *)
Theorem tilt_offset_applied_once (h : gmap positive object)
    (this out : positive) (m0 : Matrix) :
  (forall c matrix,
      h !! this = Some (FirstPersonObj c) ->
      h !! matrix = Some (MatrixObj m0) ->
      let c' := FirstPersonCamera_applyLimits c in
      exists h',
        FirstPersonCamera_createViewMatrix this (Some matrix) h =
          (Return matrix, h') /\
        h' !! matrix =
          Some (MatrixObj
                  (multiplyByLookAtModelview Matrix_identity
                     (fp_position c') 0 (fp_heading c') (fp_tilt c' + 90)
                     (fp_roll c') (globe (fp_wwd c'))))) /\
  (forall c o,
      h !! this = Some (ArcBallObj c) ->
      h !! ab_scratchMatrix c = Some (MatrixObj m0) ->
      h !! out = Some (FirstPersonObj o) ->
      let c' := ArcBallCamera_applyLimits c in
      let vm := multiplyByLookAtModelview Matrix_identity
                  (ab_position c') (ab_range c') (ab_heading c')
                  (ab_tilt c') (ab_roll c') (globe (ab_wwd c')) in
      let params := extractViewingParameters vm (extractEyePoint vm)
                      (ab_roll c') (globe (ab_wwd c')) in
      exists written h',
        ArcBallCamera_toFirstPerson this (Some out) h = (Return out, h') /\
        h' !! out =
          Some (FirstPersonObj (FirstPersonCamera_applyLimits written)) /\
        fp_tilt written = vp_tilt params - 90 /\
        fp_tilt (FirstPersonCamera_applyLimits written) =
          WWMath.clamp (vp_tilt params - 90) (-90) 90) /\
  (forall c o,
      h !! this = Some (FirstPersonObj c) ->
      h !! fp_scratchMatrix c = Some (MatrixObj m0) ->
      h !! out = Some (ArcBallObj o) ->
      let c' := FirstPersonCamera_applyLimits c in
      let vm := multiplyByLookAtModelview Matrix_identity
                  (fp_position c') 0 (fp_heading c') (fp_tilt c' + 90)
                  (fp_roll c') (globe (fp_wwd c')) in
      let lookAtPoint :=
        Line_pointAt (mkLine (extractEyePoint vm) (extractForwardVector vm))
          (ab_range o) in
      let params := extractViewingParameters vm lookAtPoint
                      (fp_roll c') (globe (fp_wwd c')) in
      exists written h',
        FirstPersonCamera_toArcBall this (Some out) h = (Return out, h') /\
        h' !! out =
          Some (ArcBallObj (ArcBallCamera_applyLimits written)) /\
        ab_tilt written = vp_tilt params /\
        (is2D (globe (ab_wwd o)) = false ->
         ab_tilt (ArcBallCamera_applyLimits written) =
           WWMath.clamp (vp_tilt params) 0 90)).
Proof.
  split; [|split].
  - intros c matrix Hc Hm c'. eexists. split.
    + eapply FirstPersonCamera_createViewMatrix_run; eassumption.
    + rewrite lookup_insert_eq. reflexivity.
  - intros c o Hc Hm Ho c' vm params.
    exists (toFirstPerson_assign params o). eexists. split; [|split].
    + eapply ArcBallCamera_toFirstPerson_run; eassumption.
    + rewrite lookup_insert_eq. reflexivity.
    + split; reflexivity.
  - intros c o Hc Hm Ho c' vm lookAtPoint params.
    exists (toArcBall_assign params o). eexists. split; [|split].
    + eapply FirstPersonCamera_toArcBall_run; eassumption.
    + rewrite lookup_insert_eq. reflexivity.
    + split; [reflexivity|]. intros E.
      unfold ArcBallCamera_applyLimits.
      cbn [toArcBall_assign ab_set_roll ab_set_tilt ab_set_heading
           ab_set_position ab_wwd ab_tilt].
      rewrite E. reflexivity.
Qed.

(** *** Missing arguments *)

(** C7. Each constructor and method that requires a collaborator throws
    an [ArgumentError] when the collaborator is missing, and the store is
    then the store before the call: the camera constructors (WorldWindow),
    the Navigator constructor (camera), [createViewMatrix] (matrix),
    [copy] (camera), [toFirstPerson] (camera), [toArcBall]
    (arcBallCamera). *)
Theorem missing_argument_throws_before_mutation
    (h : gmap positive object) (this : positive) :
  ArcBallCamera_new None h =
    (Throw (ArgumentError "ArcBallCamera" "constructor"
              "missing WorldWindow instance."), h) /\
  FirstPersonCamera_new None h =
    (Throw (ArgumentError "FirstPersonCamera" "constructor"
              "missing WorldWindow instance."), h) /\
  Navigator_new None h =
    (Throw (ArgumentError "Navigator" "constructor" "Missing camera."), h) /\
  ArcBallCamera_createViewMatrix this None h =
    (Throw (ArgumentError "ArcBallCamera" "createViewMatrix"
              "missing matrix"), h) /\
  FirstPersonCamera_createViewMatrix this None h =
    (Throw (ArgumentError "FirstPersonCamera" "createViewMatrix"
              "missing matrix"), h) /\
  ArcBallCamera_copy this None h =
    (Throw (ArgumentError "ArcBallCamera" "copy" "missing camera"), h) /\
  FirstPersonCamera_copy this None h =
    (Throw (ArgumentError "FirstPersonCamera" "copy" "missing camera"), h) /\
  ArcBallCamera_toFirstPerson this None h =
    (Throw (ArgumentError "ArcBallCamera" "toFirstPerson"
              "missing camera"), h) /\
  FirstPersonCamera_toArcBall this None h =
    (Throw (ArgumentError "FirstPersonCamera" "toArcBall"
              "missing arcBallCamera"), h).
Proof. repeat split. Qed.

(** *** createViewMatrix *)

(** C8. With a matrix given, [createViewMatrix] applies the limits to the
    camera, which stays changed, sets the matrix to the identity and
    multiplies it by the look-at transform of the limited camera: the
    ArcBallCamera with its position, range, heading, tilt and roll, the
    FirstPersonCamera with its position, range 0, heading, tilt + 90 and
    roll.  It returns the matrix it was given, which holds the result;
    nothing else in the store changes. *)
Theorem createViewMatrix_contract (h : gmap positive object)
    (this matrix : positive) (m0 : Matrix) :
  h !! matrix = Some (MatrixObj m0) ->
  (forall c,
      h !! this = Some (ArcBallObj c) ->
      let c' := ArcBallCamera_applyLimits c in
      ArcBallCamera_createViewMatrix this (Some matrix) h =
        (Return matrix,
         <[matrix := MatrixObj
                       (multiplyByLookAtModelview Matrix_identity
                          (ab_position c') (ab_range c') (ab_heading c')
                          (ab_tilt c') (ab_roll c') (globe (ab_wwd c')))]>
           (<[this := ArcBallObj c']> h))) /\
  (forall c,
      h !! this = Some (FirstPersonObj c) ->
      let c' := FirstPersonCamera_applyLimits c in
      FirstPersonCamera_createViewMatrix this (Some matrix) h =
        (Return matrix,
         <[matrix := MatrixObj
                       (multiplyByLookAtModelview Matrix_identity
                          (fp_position c') 0 (fp_heading c')
                          (fp_tilt c' + 90) (fp_roll c')
                          (globe (fp_wwd c')))]>
           (<[this := FirstPersonObj c']> h))).
Proof.
  intros Hm. split; intros c Hc c'.
  - eapply ArcBallCamera_createViewMatrix_run; eassumption.
  - eapply FirstPersonCamera_createViewMatrix_run; eassumption.
Qed.

(** *** toArcBall and the range of its output *)

(** C10. [toArcBall] assigns the position, heading, tilt and roll of the
    output camera and no other field, and then applies the limits to it;
    the range that the output holds before the call is only read, for the
    look-at point.  When that range lies in [1, Number.MAX_VALUE] and the
    globe of the output is not flat, the output has the same range after
    the call. *)
Theorem toArcBall_leaves_range (h : gmap positive object)
    (this arcBallCamera : positive) (c : FirstPersonCamera) (m0 : Matrix)
    (o : ArcBallCamera) :
  h !! this = Some (FirstPersonObj c) ->
  h !! fp_scratchMatrix c = Some (MatrixObj m0) ->
  h !! arcBallCamera = Some (ArcBallObj o) ->
  exists written h',
    FirstPersonCamera_toArcBall this (Some arcBallCamera) h =
      (Return arcBallCamera, h') /\
    h' !! arcBallCamera =
      Some (ArcBallObj (ArcBallCamera_applyLimits written)) /\
    written =
      ab_set_roll (ab_roll written)
        (ab_set_tilt (ab_tilt written)
           (ab_set_heading (ab_heading written)
              (ab_set_position (ab_position written) o))) /\
    ab_range written = ab_range o /\
    (1 <= ab_range o -> ab_range o <= Number.MAX_VALUE ->
     is2D (globe (ab_wwd o)) = false ->
     ab_range (ArcBallCamera_applyLimits written) = ab_range o).
Proof.
  intros Hc Hm Ho.
  exists (toArcBall_assign
            (FirstPersonCamera_lookAtParameters
               (FirstPersonCamera_applyLimits c) (ab_range o)) o).
  eexists. split; [|split; [|split; [|split]]].
  - eapply FirstPersonCamera_toArcBall_run; eassumption.
  - rewrite lookup_insert_eq. reflexivity.
  - reflexivity.
  - reflexivity.
  - intros H1 H2 E. unfold ArcBallCamera_applyLimits.
    cbn [toArcBall_assign ab_set_roll ab_set_tilt ab_set_heading
         ab_set_position ab_wwd ab_range].
    rewrite E. cbn [ab_range]. apply clamp_id; assumption.
Qed.

(** *** The navigator as a facade of its camera *)

(** Without an output camera, the two conversions of the navigator
    construct one on the WorldWindow of the active camera and go on as if
    it had been given. *)
Lemma getAsFirstPersonCamera_omitted_read (h : gmap positive object) nav w :
  read_camera camera_wwd nav h = (Return w, h) ->
  exists camera h0,
    FirstPersonCamera_new (Some w) h = (Return camera, h0) /\
    h !! camera = None /\
    Navigator_getAsFirstPersonCamera nav None h =
      Navigator_getAsFirstPersonCamera nav (Some camera) h0.
Proof.
  intros Hw.
  destruct (FirstPersonCamera_new_run h w)
    as (s & l & c & Hnew & _ & Hl & _).
  exists l. eexists. split; [exact Hnew|]. split; [exact Hl|].
  unfold Navigator_getAsFirstPersonCamera.
  erewrite (bind_Return (read_camera camera_wwd nav ≫= _))
    by (erewrite bind_Return by exact Hw; exact Hnew).
  erewrite (bind_Return (mret l)) by reflexivity.
  reflexivity.
Qed.

Lemma getAsArcBallCamera_omitted_read (h : gmap positive object) nav w :
  read_camera camera_wwd nav h = (Return w, h) ->
  exists camera h0,
    ArcBallCamera_new (Some w) h = (Return camera, h0) /\
    h !! camera = None /\
    Navigator_getAsArcBallCamera nav None h =
      Navigator_getAsArcBallCamera nav (Some camera) h0.
Proof.
  intros Hw.
  destruct (ArcBallCamera_new_run h w)
    as (s & l & c & Hnew & _ & Hl & _).
  exists l. eexists. split; [exact Hnew|]. split; [exact Hl|].
  unfold Navigator_getAsArcBallCamera.
  erewrite (bind_Return (read_camera camera_wwd nav ≫= _))
    by (erewrite bind_Return by exact Hw; exact Hnew).
  erewrite (bind_Return (mret l)) by reflexivity.
  reflexivity.
Qed.

Lemma getAsFirstPersonCamera_omitted (h : gmap positive object) nav o w :
  h !! Navigator_camera nav = Some o -> camera_wwd o = Some w ->
  exists camera h0,
    FirstPersonCamera_new (Some w) h = (Return camera, h0) /\
    h !! camera = None /\
    Navigator_getAsFirstPersonCamera nav None h =
      Navigator_getAsFirstPersonCamera nav (Some camera) h0.
Proof.
  intros Ho Hw. apply getAsFirstPersonCamera_omitted_read.
  eapply read_camera_run; [eassumption | eassumption | is_a_camera].
Qed.

Lemma getAsArcBallCamera_omitted (h : gmap positive object) nav o w :
  h !! Navigator_camera nav = Some o -> camera_wwd o = Some w ->
  exists camera h0,
    ArcBallCamera_new (Some w) h = (Return camera, h0) /\
    h !! camera = None /\
    Navigator_getAsArcBallCamera nav None h =
      Navigator_getAsArcBallCamera nav (Some camera) h0.
Proof.
  intros Ho Hw. apply getAsArcBallCamera_omitted_read.
  eapply read_camera_run; [eassumption | eassumption | is_a_camera].
Qed.

(** C9. A navigator holds one camera, the one it was constructed with.
    Its [range], [heading], [tilt] and [roll] properties read the property
    of the same name of that camera and write it, the value as given, and
    nothing else (on a FirstPersonCamera, [range] is the altitude of its
    Position); [lookAtLocation] reads the coordinates of the Position that
    the camera holds and, written, makes the camera hold the Position
    object that was given, which is not copied.  This is so for a camera
    that holds the Position it was constructed with and for a camera that
    holds a Position object of the application, where the altitude is
    written into that object.  [getAsFirstPersonCamera] copies the active
    camera into the output when the active camera is a FirstPersonCamera
    and converts it with [toFirstPerson] otherwise; [getAsArcBallCamera]
    copies when the active camera is an ArcBallCamera and converts with
    [toArcBall] otherwise.  The copy writes the coordinates, heading, tilt,
    roll (and range) of the active camera into the output, which keeps its
    WorldWindow and scratch objects and a Position of its own; both return
    the output camera, which is constructed first when none is given. *)
Theorem Navigator_facade (h : gmap positive object) (active : positive) :
  let nav := mkNavigator active in
  Navigator_new (Some active) h = (Return nav, h) /\
  Navigator_camera nav = active /\
  (forall c : ArcBallCamera,
      h !! active = Some (ArcBallObj c) ->
      (Navigator_lookAtLocation nav h = (Return (ab_position c), h) /\
       Navigator_range nav h = (Return (ab_range c), h) /\
       Navigator_heading nav h = (Return (ab_heading c), h) /\
       Navigator_tilt nav h = (Return (ab_tilt c), h) /\
       Navigator_roll nav h = (Return (ab_roll c), h)) /\
      (forall v,
          Navigator_set_range nav v h =
            (Return tt,
             <[active := ArcBallObj
                 {| ab_position := ab_position c; ab_heading := ab_heading c;
                    ab_tilt := ab_tilt c; ab_range := v;
                    ab_roll := ab_roll c; ab_wwd := ab_wwd c;
                    ab_scratchMatrix := ab_scratchMatrix c;
                    ab_scratchVector := ab_scratchVector c |}]> h) /\
          Navigator_set_heading nav v h =
            (Return tt,
             <[active := ArcBallObj
                 {| ab_position := ab_position c; ab_heading := v;
                    ab_tilt := ab_tilt c; ab_range := ab_range c;
                    ab_roll := ab_roll c; ab_wwd := ab_wwd c;
                    ab_scratchMatrix := ab_scratchMatrix c;
                    ab_scratchVector := ab_scratchVector c |}]> h) /\
          Navigator_set_tilt nav v h =
            (Return tt,
             <[active := ArcBallObj
                 {| ab_position := ab_position c; ab_heading := ab_heading c;
                    ab_tilt := v; ab_range := ab_range c;
                    ab_roll := ab_roll c; ab_wwd := ab_wwd c;
                    ab_scratchMatrix := ab_scratchMatrix c;
                    ab_scratchVector := ab_scratchVector c |}]> h) /\
          Navigator_set_roll nav v h =
            (Return tt,
             <[active := ArcBallObj
                 {| ab_position := ab_position c; ab_heading := ab_heading c;
                    ab_tilt := ab_tilt c; ab_range := ab_range c;
                    ab_roll := v; ab_wwd := ab_wwd c;
                    ab_scratchMatrix := ab_scratchMatrix c;
                    ab_scratchVector := ab_scratchVector c |}]> h)) /\
      (forall position,
          Navigator_set_lookAtLocation nav position h =
            (Return tt, <[active := ArcBallShared c position]> h)) /\
      (forall out o,
          h !! out = Some (ArcBallObj o) ->
          Navigator_getAsArcBallCamera nav (Some out) h =
            ArcBallCamera_copy out (Some active) h /\
          Navigator_getAsArcBallCamera nav (Some out) h =
            (Return out,
             <[out := ArcBallObj
                 {| ab_position := ab_position c; ab_heading := ab_heading c;
                    ab_tilt := ab_tilt c; ab_range := ab_range c;
                    ab_roll := ab_roll c; ab_wwd := ab_wwd o;
                    ab_scratchMatrix := ab_scratchMatrix o;
                    ab_scratchVector := ab_scratchVector o |}]> h)) /\
      (forall out o m0,
          h !! out = Some (FirstPersonObj o) ->
          h !! ab_scratchMatrix c = Some (MatrixObj m0) ->
          Navigator_getAsFirstPersonCamera nav (Some out) h =
            ArcBallCamera_toFirstPerson active (Some out) h /\
          fst (Navigator_getAsFirstPersonCamera nav (Some out) h) =
            Return out) /\
      (exists out h0,
          ArcBallCamera_new (Some (ab_wwd c)) h = (Return out, h0) /\
          h !! out = None /\
          Navigator_getAsArcBallCamera nav None h =
            Navigator_getAsArcBallCamera nav (Some out) h0) /\
      (exists out h0,
          FirstPersonCamera_new (Some (ab_wwd c)) h = (Return out, h0) /\
          h !! out = None /\
          Navigator_getAsFirstPersonCamera nav None h =
            Navigator_getAsFirstPersonCamera nav (Some out) h0)) /\
  (forall c : FirstPersonCamera,
      h !! active = Some (FirstPersonObj c) ->
      (Navigator_lookAtLocation nav h = (Return (fp_position c), h) /\
       Navigator_range nav h = (Return (altitude (fp_position c)), h) /\
       Navigator_heading nav h = (Return (fp_heading c), h) /\
       Navigator_tilt nav h = (Return (fp_tilt c), h) /\
       Navigator_roll nav h = (Return (fp_roll c), h)) /\
      (forall v,
          Navigator_set_range nav v h =
            (Return tt,
             <[active := FirstPersonObj
                 {| fp_position :=
                      mkPosition (latitude (fp_position c))
                        (longitude (fp_position c)) v;
                    fp_heading := fp_heading c; fp_tilt := fp_tilt c;
                    fp_roll := fp_roll c; fp_wwd := fp_wwd c;
                    fp_scratchMatrix := fp_scratchMatrix c;
                    fp_scratchVector := fp_scratchVector c;
                    fp_ray := fp_ray c |}]> h) /\
          Navigator_set_heading nav v h =
            (Return tt,
             <[active := FirstPersonObj
                 {| fp_position := fp_position c;
                    fp_heading := v; fp_tilt := fp_tilt c;
                    fp_roll := fp_roll c; fp_wwd := fp_wwd c;
                    fp_scratchMatrix := fp_scratchMatrix c;
                    fp_scratchVector := fp_scratchVector c;
                    fp_ray := fp_ray c |}]> h) /\
          Navigator_set_tilt nav v h =
            (Return tt,
             <[active := FirstPersonObj
                 {| fp_position := fp_position c;
                    fp_heading := fp_heading c; fp_tilt := v;
                    fp_roll := fp_roll c; fp_wwd := fp_wwd c;
                    fp_scratchMatrix := fp_scratchMatrix c;
                    fp_scratchVector := fp_scratchVector c;
                    fp_ray := fp_ray c |}]> h) /\
          Navigator_set_roll nav v h =
            (Return tt,
             <[active := FirstPersonObj
                 {| fp_position := fp_position c;
                    fp_heading := fp_heading c; fp_tilt := fp_tilt c;
                    fp_roll := v; fp_wwd := fp_wwd c;
                    fp_scratchMatrix := fp_scratchMatrix c;
                    fp_scratchVector := fp_scratchVector c;
                    fp_ray := fp_ray c |}]> h)) /\
      (forall position,
          Navigator_set_lookAtLocation nav position h =
            (Return tt, <[active := FirstPersonShared c position]> h)) /\
      (forall out o,
          h !! out = Some (FirstPersonObj o) ->
          Navigator_getAsFirstPersonCamera nav (Some out) h =
            FirstPersonCamera_copy out (Some active) h /\
          Navigator_getAsFirstPersonCamera nav (Some out) h =
            (Return out,
             <[out := FirstPersonObj
                 {| fp_position := fp_position c;
                    fp_heading := fp_heading c; fp_tilt := fp_tilt c;
                    fp_roll := fp_roll c; fp_wwd := fp_wwd o;
                    fp_scratchMatrix := fp_scratchMatrix o;
                    fp_scratchVector := fp_scratchVector o;
                    fp_ray := fp_ray o |}]> h)) /\
      (forall out o m0,
          h !! out = Some (ArcBallObj o) ->
          h !! fp_scratchMatrix c = Some (MatrixObj m0) ->
          Navigator_getAsArcBallCamera nav (Some out) h =
            FirstPersonCamera_toArcBall active (Some out) h /\
          fst (Navigator_getAsArcBallCamera nav (Some out) h) =
            Return out) /\
      (exists out h0,
          FirstPersonCamera_new (Some (fp_wwd c)) h = (Return out, h0) /\
          h !! out = None /\
          Navigator_getAsFirstPersonCamera nav None h =
            Navigator_getAsFirstPersonCamera nav (Some out) h0) /\
      (exists out h0,
          ArcBallCamera_new (Some (fp_wwd c)) h = (Return out, h0) /\
          h !! out = None /\
          Navigator_getAsArcBallCamera nav None h =
            Navigator_getAsArcBallCamera nav (Some out) h0)) /\
  (forall (c : ArcBallCamera) (position : positive) (p : Position),
      h !! active = Some (ArcBallShared c position) ->
      h !! position = Some (PositionObj p) ->
      (Navigator_lookAtLocation nav h = (Return p, h) /\
       Navigator_range nav h = (Return (ab_range c), h) /\
       Navigator_heading nav h = (Return (ab_heading c), h) /\
       Navigator_tilt nav h = (Return (ab_tilt c), h) /\
       Navigator_roll nav h = (Return (ab_roll c), h)) /\
      (forall v,
          Navigator_set_range nav v h =
            (Return tt,
             <[active := ArcBallShared
                 {| ab_position := ab_position c; ab_heading := ab_heading c;
                    ab_tilt := ab_tilt c; ab_range := v;
                    ab_roll := ab_roll c; ab_wwd := ab_wwd c;
                    ab_scratchMatrix := ab_scratchMatrix c;
                    ab_scratchVector := ab_scratchVector c |} position]> h) /\
          Navigator_set_heading nav v h =
            (Return tt,
             <[active := ArcBallShared
                 {| ab_position := ab_position c; ab_heading := v;
                    ab_tilt := ab_tilt c; ab_range := ab_range c;
                    ab_roll := ab_roll c; ab_wwd := ab_wwd c;
                    ab_scratchMatrix := ab_scratchMatrix c;
                    ab_scratchVector := ab_scratchVector c |} position]> h) /\
          Navigator_set_tilt nav v h =
            (Return tt,
             <[active := ArcBallShared
                 {| ab_position := ab_position c; ab_heading := ab_heading c;
                    ab_tilt := v; ab_range := ab_range c;
                    ab_roll := ab_roll c; ab_wwd := ab_wwd c;
                    ab_scratchMatrix := ab_scratchMatrix c;
                    ab_scratchVector := ab_scratchVector c |} position]> h) /\
          Navigator_set_roll nav v h =
            (Return tt,
             <[active := ArcBallShared
                 {| ab_position := ab_position c; ab_heading := ab_heading c;
                    ab_tilt := ab_tilt c; ab_range := ab_range c;
                    ab_roll := v; ab_wwd := ab_wwd c;
                    ab_scratchMatrix := ab_scratchMatrix c;
                    ab_scratchVector := ab_scratchVector c |} position]> h)) /\
      (forall position',
          Navigator_set_lookAtLocation nav position' h =
            (Return tt, <[active := ArcBallShared c position']> h)) /\
      (forall out,
          Navigator_getAsArcBallCamera nav (Some out) h =
            ArcBallCamera_copy out (Some active) h /\
          Navigator_getAsFirstPersonCamera nav (Some out) h =
            ArcBallCamera_toFirstPerson active (Some out) h) /\
      (forall out o,
          h !! out = Some (ArcBallObj o) ->
          Navigator_getAsArcBallCamera nav (Some out) h =
            (Return out,
             <[out := ArcBallObj
                 {| ab_position := p; ab_heading := ab_heading c;
                    ab_tilt := ab_tilt c; ab_range := ab_range c;
                    ab_roll := ab_roll c; ab_wwd := ab_wwd o;
                    ab_scratchMatrix := ab_scratchMatrix o;
                    ab_scratchVector := ab_scratchVector o |}]> h)) /\
      (exists out h0,
          ArcBallCamera_new (Some (ab_wwd c)) h = (Return out, h0) /\
          h !! out = None /\
          Navigator_getAsArcBallCamera nav None h =
            Navigator_getAsArcBallCamera nav (Some out) h0) /\
      (exists out h0,
          FirstPersonCamera_new (Some (ab_wwd c)) h = (Return out, h0) /\
          h !! out = None /\
          Navigator_getAsFirstPersonCamera nav None h =
            Navigator_getAsFirstPersonCamera nav (Some out) h0)) /\
  (forall (c : FirstPersonCamera) (position : positive) (p : Position),
      h !! active = Some (FirstPersonShared c position) ->
      h !! position = Some (PositionObj p) ->
      (Navigator_lookAtLocation nav h = (Return p, h) /\
       Navigator_range nav h = (Return (altitude p), h) /\
       Navigator_heading nav h = (Return (fp_heading c), h) /\
       Navigator_tilt nav h = (Return (fp_tilt c), h) /\
       Navigator_roll nav h = (Return (fp_roll c), h)) /\
      (forall v,
          Navigator_set_range nav v h =
            (Return tt,
             <[position :=
                 PositionObj (mkPosition (latitude p) (longitude p) v)]> h) /\
          Navigator_set_heading nav v h =
            (Return tt,
             <[active := FirstPersonShared
                 {| fp_position := fp_position c;
                    fp_heading := v; fp_tilt := fp_tilt c;
                    fp_roll := fp_roll c; fp_wwd := fp_wwd c;
                    fp_scratchMatrix := fp_scratchMatrix c;
                    fp_scratchVector := fp_scratchVector c;
                    fp_ray := fp_ray c |} position]> h) /\
          Navigator_set_tilt nav v h =
            (Return tt,
             <[active := FirstPersonShared
                 {| fp_position := fp_position c;
                    fp_heading := fp_heading c; fp_tilt := v;
                    fp_roll := fp_roll c; fp_wwd := fp_wwd c;
                    fp_scratchMatrix := fp_scratchMatrix c;
                    fp_scratchVector := fp_scratchVector c;
                    fp_ray := fp_ray c |} position]> h) /\
          Navigator_set_roll nav v h =
            (Return tt,
             <[active := FirstPersonShared
                 {| fp_position := fp_position c;
                    fp_heading := fp_heading c; fp_tilt := fp_tilt c;
                    fp_roll := v; fp_wwd := fp_wwd c;
                    fp_scratchMatrix := fp_scratchMatrix c;
                    fp_scratchVector := fp_scratchVector c;
                    fp_ray := fp_ray c |} position]> h)) /\
      (forall position',
          Navigator_set_lookAtLocation nav position' h =
            (Return tt, <[active := FirstPersonShared c position']> h)) /\
      (forall out,
          Navigator_getAsFirstPersonCamera nav (Some out) h =
            FirstPersonCamera_copy out (Some active) h /\
          Navigator_getAsArcBallCamera nav (Some out) h =
            FirstPersonCamera_toArcBall active (Some out) h) /\
      (forall out o,
          h !! out = Some (FirstPersonObj o) ->
          Navigator_getAsFirstPersonCamera nav (Some out) h =
            (Return out,
             <[out := FirstPersonObj
                 {| fp_position := p;
                    fp_heading := fp_heading c; fp_tilt := fp_tilt c;
                    fp_roll := fp_roll c; fp_wwd := fp_wwd o;
                    fp_scratchMatrix := fp_scratchMatrix o;
                    fp_scratchVector := fp_scratchVector o;
                    fp_ray := fp_ray o |}]> h)) /\
      (exists out h0,
          FirstPersonCamera_new (Some (fp_wwd c)) h = (Return out, h0) /\
          h !! out = None /\
          Navigator_getAsFirstPersonCamera nav None h =
            Navigator_getAsFirstPersonCamera nav (Some out) h0) /\
      (exists out h0,
          ArcBallCamera_new (Some (fp_wwd c)) h = (Return out, h0) /\
          h !! out = None /\
          Navigator_getAsArcBallCamera nav None h =
            Navigator_getAsArcBallCamera nav (Some out) h0)).
Proof.
  cbv zeta. split; [reflexivity|]. split; [reflexivity|].
  split; [|split; [|split]].
  - intros c Hc.
    assert (Hnav : h !! Navigator_camera (mkNavigator active)
                   = Some (ArcBallObj c)) by exact Hc.
    split; [|split; [|split; [|split; [|split; [|split]]]]].
    + conjuncts; eapply read_camera_run; try exact Hnav; reflexivity.
    + intros v. conjuncts;
        exact (write_camera_ArcBall_run _ _ h (mkNavigator active) c Hnav).
    + intros position.
      exact (Navigator_set_lookAtLocation_ArcBall_run h (mkNavigator active)
               c position Hnav).
    + intros out o Ho.
      destruct (getAsArcBallCamera_ArcBall h (mkNavigator active) out c o
                  Hnav Ho) as [E1 E2].
      split; [exact E1|]. rewrite E2.
      unfold ArcBallCamera_copy_fields. rewrite Position_copy_eq.
      reflexivity.
    + intros out o m0 Ho Hm.
      exact (getAsFirstPersonCamera_ArcBall h (mkNavigator active) out c
               m0 o Hnav Hm Ho).
    + exact (getAsArcBallCamera_omitted h (mkNavigator active) _ _
               Hnav eq_refl).
    + exact (getAsFirstPersonCamera_omitted h (mkNavigator active) _ _
               Hnav eq_refl).
  - intros c Hc.
    assert (Hnav : h !! Navigator_camera (mkNavigator active)
                   = Some (FirstPersonObj c)) by exact Hc.
    split; [|split; [|split; [|split; [|split; [|split]]]]].
    + conjuncts; eapply read_camera_run; try exact Hnav; reflexivity.
    + intros v. conjuncts;
        exact (write_camera_FirstPerson_run _ _ h (mkNavigator active) c
                 Hnav).
    + intros position.
      exact (Navigator_set_lookAtLocation_FirstPerson_run h
               (mkNavigator active) c position Hnav).
    + intros out o Ho.
      destruct (getAsFirstPersonCamera_FirstPerson h (mkNavigator active)
                  out c o Hnav Ho) as [E1 E2].
      split; [exact E1|]. rewrite E2.
      unfold FirstPersonCamera_copy_fields. rewrite Position_copy_eq.
      reflexivity.
    + intros out o m0 Ho Hm.
      exact (getAsArcBallCamera_FirstPerson h (mkNavigator active) out c
               m0 o Hnav Hm Ho).
    + exact (getAsFirstPersonCamera_omitted h (mkNavigator active) _ _
               Hnav eq_refl).
    + exact (getAsArcBallCamera_omitted h (mkNavigator active) _ _
               Hnav eq_refl).
  - intros c position p Hc Hp.
    assert (Hnav : h !! Navigator_camera (mkNavigator active)
                   = Some (ArcBallShared c position)) by exact Hc.
    split; [|split; [|split; [|split; [|split; [|split]]]]].
    + conjuncts; eapply read_camera_ArcBallShared_run;
        first [exact Hnav | exact Hp | reflexivity].
    + intros v.
      unfold Navigator_set_range, Navigator_set_heading, Navigator_set_tilt,
        Navigator_set_roll.
      conjuncts;
        rewrite (write_camera_ArcBallShared_run _ _ h (mkNavigator active)
                   c position p Hnav Hp);
        cbn [ab_set_range ab_set_heading ab_set_tilt ab_set_roll
             ab_set_position ab_position ab_heading ab_tilt ab_range ab_roll
             ab_wwd ab_scratchMatrix ab_scratchVector Navigator_camera
             _camera];
        rewrite (insert_Position_same h _ _ _ _ Hp); reflexivity.
    + intros position'.
      exact (Navigator_set_lookAtLocation_ArcBallShared_run h
               (mkNavigator active) c position position' Hnav).
    + intros out. split.
      * exact (getAsArcBallCamera_dispatch h (mkNavigator active) out _
                 Hnav).
      * exact (getAsFirstPersonCamera_dispatch h (mkNavigator active) out _
                 Hnav).
    + intros out o Ho.
      rewrite (getAsArcBallCamera_dispatch h (mkNavigator active) out _
                 Hnav).
      cbn [instanceof_FirstPersonCamera Navigator_camera _camera].
      rewrite (ArcBallCamera_copy_shared_run h out active o c position p
                 Ho Hc Hp).
      unfold ArcBallCamera_copy_fields. rewrite Position_copy_eq.
      reflexivity.
    + apply getAsArcBallCamera_omitted_read.
      eapply read_camera_ArcBallShared_run;
        first [exact Hnav | exact Hp | reflexivity].
    + apply getAsFirstPersonCamera_omitted_read.
      eapply read_camera_ArcBallShared_run;
        first [exact Hnav | exact Hp | reflexivity].
  - intros c position p Hc Hp.
    assert (Hnav : h !! Navigator_camera (mkNavigator active)
                   = Some (FirstPersonShared c position)) by exact Hc.
    assert (Hne : active <> position) by congruence.
    split; [|split; [|split; [|split; [|split; [|split]]]]].
    + conjuncts; eapply read_camera_FirstPersonShared_run;
        first [exact Hnav | exact Hp | reflexivity].
    + intros v.
      unfold Navigator_set_range, Navigator_set_heading, Navigator_set_tilt,
        Navigator_set_roll.
      conjuncts;
        rewrite (write_camera_FirstPersonShared_run _ _ h
                   (mkNavigator active) c position p Hnav Hp);
        cbn [fp_set_range fp_set_heading fp_set_tilt fp_set_roll
             fp_set_position fp_position fp_heading fp_tilt fp_roll
             fp_wwd fp_scratchMatrix fp_scratchVector fp_ray
             latitude longitude altitude Navigator_camera _camera].
      * match goal with
        | |- context [FirstPersonShared ?r position] =>
            replace r with c by (destruct c; reflexivity)
        end.
        rewrite (insert_camera_same h active position _ _ Hc Hne).
        reflexivity.
      * rewrite (insert_Position_same h _ _ _ _ Hp). reflexivity.
      * rewrite (insert_Position_same h _ _ _ _ Hp). reflexivity.
      * rewrite (insert_Position_same h _ _ _ _ Hp). reflexivity.
    + intros position'.
      exact (Navigator_set_lookAtLocation_FirstPersonShared_run h
               (mkNavigator active) c position position' Hnav).
    + intros out. split.
      * exact (getAsFirstPersonCamera_dispatch h (mkNavigator active) out _
                 Hnav).
      * exact (getAsArcBallCamera_dispatch h (mkNavigator active) out _
                 Hnav).
    + intros out o Ho.
      rewrite (getAsFirstPersonCamera_dispatch h (mkNavigator active) out _
                 Hnav).
      cbn [instanceof_FirstPersonCamera Navigator_camera _camera].
      rewrite (FirstPersonCamera_copy_shared_run h out active o c position p
                 Ho Hc Hp).
      unfold FirstPersonCamera_copy_fields. rewrite Position_copy_eq.
      reflexivity.
    + apply getAsFirstPersonCamera_omitted_read.
      eapply read_camera_FirstPersonShared_run;
        first [exact Hnav | exact Hp | reflexivity].
    + apply getAsArcBallCamera_omitted_read.
      eapply read_camera_FirstPersonShared_run;
        first [exact Hnav | exact Hp | reflexivity].
Qed.

(** ** Further properties of the methods *)

(** *** copy *)

Lemma ArcBallCamera_copy_fields_self (c : ArcBallCamera) :
  ArcBallCamera_copy_fields (ab_position c) (ab_tilt c) (ab_heading c)
    (ab_range c) (ab_roll c) c = c.
Proof.
  unfold ArcBallCamera_copy_fields. destruct c as [[la lo al] hd t rg rl w sm sv].
  reflexivity.
Qed.

Lemma FirstPersonCamera_copy_fields_self (c : FirstPersonCamera) :
  FirstPersonCamera_copy_fields (fp_position c) (fp_heading c) (fp_tilt c)
    (fp_roll c) c = c.
Proof.
  unfold FirstPersonCamera_copy_fields.
  destruct c as [[la lo al] hd t rl w sm sv r]. reflexivity.
Qed.

(** A camera has all five properties that [copy] reads. *)
Lemma camera_properties (o : object) :
  is_camera o = true ->
  exists p t hd rg rl,
    camera_position o = Some p /\ camera_tilt o = Some t /\
    camera_heading o = Some hd /\ camera_range o = Some rg /\
    camera_roll o = Some rl.
Proof.
  destruct o as [c|c|m|p|c q|c q]; intros H; try discriminate H.
  - exists (ab_position c), (ab_tilt c), (ab_heading c), (ab_range c),
      (ab_roll c). repeat split.
  - exists (fp_position c), (fp_tilt c), (fp_heading c),
      (altitude (fp_position c)), (fp_roll c). repeat split.
Qed.

(** X1. Copying a camera onto itself changes nothing: [c.copy(c)] returns
    [c] and the store is the store before the call. *)
Theorem copy_onto_itself (h : gmap positive object) (this : positive) :
  (forall c, h !! this = Some (ArcBallObj c) ->
             ArcBallCamera_copy this (Some this) h = (Return this, h)) /\
  (forall c, h !! this = Some (FirstPersonObj c) ->
             FirstPersonCamera_copy this (Some this) h = (Return this, h)).
Proof.
  split; intros c Hc.
  - rewrite (ArcBallCamera_copy_run h this this c (ArcBallObj c)
               (ab_position c) (ab_tilt c) (ab_heading c) (ab_range c)
               (ab_roll c) Hc Hc eq_refl eq_refl eq_refl eq_refl eq_refl).
    rewrite ArcBallCamera_copy_fields_self, insert_id by exact Hc.
    reflexivity.
  - rewrite (FirstPersonCamera_copy_run h this this c (FirstPersonObj c)
               (fp_position c) (fp_heading c) (fp_tilt c) (fp_roll c)
               Hc Hc eq_refl eq_refl eq_refl eq_refl).
    rewrite FirstPersonCamera_copy_fields_self, insert_id by exact Hc.
    reflexivity.
Qed.

(** X2. The last copy wins: copying from [a] and then from [b], a camera
    other than the receiver, leaves the store that copying from [b] alone
    leaves.  The sources may be cameras of either kind. *)
Theorem copy_last_wins (h : gmap positive object)
    (this a b : positive) (oa ob : object) :
  h !! a = Some oa -> is_camera oa = true ->
  h !! b = Some ob -> is_camera ob = true ->
  b <> this ->
  (forall c, h !! this = Some (ArcBallObj c) ->
     (ArcBallCamera_copy this (Some a);;
      ArcBallCamera_copy this (Some b)) h =
     ArcBallCamera_copy this (Some b) h) /\
  (forall c, h !! this = Some (FirstPersonObj c) ->
     (FirstPersonCamera_copy this (Some a);;
      FirstPersonCamera_copy this (Some b)) h =
     FirstPersonCamera_copy this (Some b) h).
Proof.
  intros Ha Hca Hb Hcb Hne.
  destruct (camera_properties oa Hca)
    as (pa & ta & hda & rga & rla & Pa & Ta & HDa & RGa & RLa).
  destruct (camera_properties ob Hcb)
    as (pb & tb & hdb & rgb & rlb & Pb & Tb & HDb & RGb & RLb).
  split; intros c Hc.
  - erewrite bind_Return
      by (eapply (ArcBallCamera_copy_run h this a c oa); eassumption).
    erewrite (ArcBallCamera_copy_run _ this b _ ob)
      by first [ apply lookup_insert_eq
               | rewrite lookup_insert_ne by congruence; eassumption
               | eassumption ].
    erewrite (ArcBallCamera_copy_run h this b c ob) by eassumption.
    rewrite insert_insert_eq. reflexivity.
  - erewrite bind_Return
      by (eapply (FirstPersonCamera_copy_run h this a c oa); eassumption).
    erewrite (FirstPersonCamera_copy_run _ this b _ ob)
      by first [ apply lookup_insert_eq
               | rewrite lookup_insert_ne by congruence; eassumption
               | eassumption ].
    erewrite (FirstPersonCamera_copy_run h this b c ob) by eassumption.
    rewrite insert_insert_eq. reflexivity.
Qed.

(** X3. After [b.copy(a)], for two cameras of the same kind on the same
    WorldWindow, [createViewMatrix] of [b] gives the matrix that
    [createViewMatrix] of [a] gives. *)
Theorem copy_gives_the_same_view_matrix (h : gmap positive object)
    (a b matrix : positive) (m0 : Matrix) :
  h !! matrix = Some (MatrixObj m0) ->
  (forall ca cb,
      h !! a = Some (ArcBallObj ca) -> h !! b = Some (ArcBallObj cb) ->
      ab_wwd ca = ab_wwd cb ->
      exists h1 h2 h3 vm,
        ArcBallCamera_copy b (Some a) h = (Return b, h1) /\
        ArcBallCamera_createViewMatrix b (Some matrix) h1 = (Return matrix, h2) /\
        ArcBallCamera_createViewMatrix a (Some matrix) h = (Return matrix, h3) /\
        h2 !! matrix = Some (MatrixObj vm) /\
        h3 !! matrix = Some (MatrixObj vm)) /\
  (forall ca cb,
      h !! a = Some (FirstPersonObj ca) -> h !! b = Some (FirstPersonObj cb) ->
      fp_wwd ca = fp_wwd cb ->
      exists h1 h2 h3 vm,
        FirstPersonCamera_copy b (Some a) h = (Return b, h1) /\
        FirstPersonCamera_createViewMatrix b (Some matrix) h1 =
          (Return matrix, h2) /\
        FirstPersonCamera_createViewMatrix a (Some matrix) h =
          (Return matrix, h3) /\
        h2 !! matrix = Some (MatrixObj vm) /\
        h3 !! matrix = Some (MatrixObj vm)).
Proof.
  intros Hm. split; intros ca cb Ha Hb Hw.
  - pose proof (ArcBall_Matrix_distinct h b matrix cb m0 Hb Hm) as Hne.
    do 3 eexists. exists (ArcBallCamera_viewMatrix (ArcBallCamera_applyLimits ca)).
    split; [|split; [|split; [|split]]].
    + eapply (ArcBallCamera_copy_run h b a cb (ArcBallObj ca));
        first [eassumption | reflexivity].
    + eapply ArcBallCamera_createViewMatrix_run.
      * apply lookup_insert_eq.
      * rewrite lookup_insert_ne by congruence. exact Hm.
    + eapply ArcBallCamera_createViewMatrix_run; eassumption.
    + rewrite lookup_insert_eq. do 2 f_equal.
      unfold ArcBallCamera_viewMatrix, ArcBallCamera_applyLimits,
        ArcBallCamera_copy_fields.
      cbn [ab_set_roll ab_set_range ab_set_heading ab_set_tilt
           ab_set_position ab_position ab_heading ab_tilt ab_range ab_roll
           ab_wwd Position_copy latitude longitude altitude].
      rewrite <- Hw. destruct (is2D (globe (ab_wwd ca))); reflexivity.
    + rewrite lookup_insert_eq. reflexivity.
  - pose proof (FirstPerson_Matrix_distinct h b matrix cb m0 Hb Hm) as Hne.
    do 3 eexists.
    exists (FirstPersonCamera_viewMatrix (FirstPersonCamera_applyLimits ca)).
    split; [|split; [|split; [|split]]].
    + eapply (FirstPersonCamera_copy_run h b a cb (FirstPersonObj ca));
        first [eassumption | reflexivity].
    + eapply FirstPersonCamera_createViewMatrix_run.
      * apply lookup_insert_eq.
      * rewrite lookup_insert_ne by congruence. exact Hm.
    + eapply FirstPersonCamera_createViewMatrix_run; eassumption.
    + rewrite lookup_insert_eq. do 2 f_equal.
      unfold FirstPersonCamera_viewMatrix, FirstPersonCamera_applyLimits,
        FirstPersonCamera_copy_fields.
      cbn [fp_set_roll fp_set_heading fp_set_tilt fp_set_position
           fp_position fp_heading fp_tilt fp_roll fp_wwd Position_copy
           latitude longitude altitude].
      rewrite <- Hw. reflexivity.
    + rewrite lookup_insert_eq. reflexivity.
Qed.

(** *** Limits and view matrices *)

Lemma ArcBallCamera_applyLimits_twice (c : ArcBallCamera) :
  ArcBallCamera_applyLimits (ArcBallCamera_applyLimits c) =
  ArcBallCamera_applyLimits c.
Proof.
  assert (B0 : 0 <= Number.MAX_VALUE) by exact MAX_VALUE_ge_0.
  assert (B1 : 1 <= Number.MAX_VALUE) by exact MAX_VALUE_ge_1.
  assert (B2 : -90 <= 90) by lra.
  assert (B3 : 0 <= 90) by lra.
  unfold ArcBallCamera_applyLimits.
  destruct (is2D (globe (ab_wwd c))) eqn:E;
    cbn [ab_position ab_heading ab_tilt ab_range ab_roll ab_wwd
         ab_scratchMatrix ab_scratchVector latitude longitude altitude];
    rewrite E.
  - pose proof (range2D_idempotent (ab_range c)
                  (2 * Math.PI * equatorialRadius (globe (ab_wwd c))))
      as R. cbv zeta in R. rewrite R.
    rewrite normalizedDegreesLongitude_idempotent.
    rewrite (normalizedDegrees_idempotent (ab_heading c)).
    rewrite (normalizedDegrees_idempotent (ab_roll c)).
    rewrite (clamp_idempotent _ _ _ B2), (clamp_idempotent _ _ _ B0).
    reflexivity.
  - rewrite normalizedDegreesLongitude_idempotent.
    rewrite (normalizedDegrees_idempotent (ab_heading c)).
    rewrite (normalizedDegrees_idempotent (ab_roll c)).
    rewrite (clamp_idempotent _ _ _ B2), (clamp_idempotent _ _ _ B0),
      (clamp_idempotent _ _ _ B1), (clamp_idempotent _ _ _ B3).
    reflexivity.
Qed.

Lemma FirstPersonCamera_applyLimits_twice (c : FirstPersonCamera) :
  FirstPersonCamera_applyLimits (FirstPersonCamera_applyLimits c) =
  FirstPersonCamera_applyLimits c.
Proof.
  assert (B0 : 0 <= Number.MAX_VALUE) by exact MAX_VALUE_ge_0.
  assert (B2 : -90 <= 90) by lra.
  unfold FirstPersonCamera_applyLimits.
  cbn [fp_position fp_heading fp_tilt fp_roll fp_wwd fp_scratchMatrix
       fp_scratchVector fp_ray latitude longitude altitude].
  rewrite normalizedDegreesLongitude_idempotent.
  rewrite (normalizedDegrees_idempotent (fp_heading c)).
  rewrite (normalizedDegrees_idempotent (fp_roll c)).
  rewrite (clamp_idempotent _ _ _ B0).
  rewrite (clamp_idempotent (latitude (fp_position c)) _ _ B2).
  rewrite (clamp_idempotent (fp_tilt c) _ _ B2).
  reflexivity.
Qed.

(** A store is determined by what it holds at each location. *)
Lemma insert_twice_over (h : gmap positive object) l1 l2 o1 o2 :
  <[l2 := o2]> (<[l1 := o1]> (<[l2 := o2]> (<[l1 := o1]> h))) =
  <[l2 := o2]> (<[l1 := o1]> h).
Proof.
  apply map_eq. intros i.
  destruct (decide (i = l2)) as [->|N2];
    [rewrite !lookup_insert_eq; reflexivity|].
  destruct (decide (i = l1)) as [->|N1];
    repeat first [ rewrite lookup_insert_eq
                 | rewrite lookup_insert_ne by congruence ];
    reflexivity.
Qed.

(** X6. [createViewMatrix] twice in a row is [createViewMatrix] once: the
    second call returns the same matrix object, holding the same matrix,
    and leaves the camera as the first call left it. *)
Theorem createViewMatrix_twice (h : gmap positive object)
    (this matrix : positive) (m0 : Matrix) :
  h !! matrix = Some (MatrixObj m0) ->
  (forall c, h !! this = Some (ArcBallObj c) ->
     (ArcBallCamera_createViewMatrix this (Some matrix);;
      ArcBallCamera_createViewMatrix this (Some matrix)) h =
     ArcBallCamera_createViewMatrix this (Some matrix) h) /\
  (forall c, h !! this = Some (FirstPersonObj c) ->
     (FirstPersonCamera_createViewMatrix this (Some matrix);;
      FirstPersonCamera_createViewMatrix this (Some matrix)) h =
     FirstPersonCamera_createViewMatrix this (Some matrix) h).
Proof.
  intros Hm. split; intros c Hc.
  - pose proof (ArcBall_Matrix_distinct h this matrix c m0 Hc Hm) as Hne.
    erewrite bind_Return
      by (eapply ArcBallCamera_createViewMatrix_run; eassumption).
    erewrite (ArcBallCamera_createViewMatrix_run _ this matrix)
      by first [ apply lookup_insert_eq
               | rewrite lookup_insert_ne by congruence;
                 apply lookup_insert_eq ].
    erewrite (ArcBallCamera_createViewMatrix_run h this matrix)
      by eassumption.
    rewrite ArcBallCamera_applyLimits_twice, insert_twice_over.
    reflexivity.
  - pose proof (FirstPerson_Matrix_distinct h this matrix c m0 Hc Hm) as Hne.
    erewrite bind_Return
      by (eapply FirstPersonCamera_createViewMatrix_run; eassumption).
    erewrite (FirstPersonCamera_createViewMatrix_run _ this matrix)
      by first [ apply lookup_insert_eq
               | rewrite lookup_insert_ne by congruence;
                 apply lookup_insert_eq ].
    erewrite (FirstPersonCamera_createViewMatrix_run h this matrix)
      by eassumption.
    rewrite FirstPersonCamera_applyLimits_twice, insert_twice_over.
    reflexivity.
Qed.

(** *** Construction *)

(** X5. Construction touches nothing that exists and shares nothing: an
    ArcBallCamera and a FirstPersonCamera constructed one after the other
    are at locations that were not in use, each on the WorldWindow it was
    given, each with an identity scratch matrix of its own at a location
    that was not in use, and every object of the store before is still
    there, unchanged. *)
Theorem constructors_allocate_private_objects
    (h : gmap positive object) (w1 w2 : WorldWindow) :
  exists l1 l2 c1 c2 h',
    (l1 ← ArcBallCamera_new (Some w1);
     l2 ← FirstPersonCamera_new (Some w2);
     mret (l1, l2)) h = (Return (l1, l2), h') /\
    h' !! l1 = Some (ArcBallObj c1) /\
    h' !! l2 = Some (FirstPersonObj c2) /\
    ab_wwd c1 = w1 /\ fp_wwd c2 = w2 /\
    h' !! ab_scratchMatrix c1 = Some (MatrixObj Matrix_identity) /\
    h' !! fp_scratchMatrix c2 = Some (MatrixObj Matrix_identity) /\
    ab_scratchMatrix c1 <> fp_scratchMatrix c2 /\
    h !! l1 = None /\ h !! l2 = None /\
    h !! ab_scratchMatrix c1 = None /\ h !! fp_scratchMatrix c2 = None /\
    (forall l o, h !! l = Some o -> h' !! l = Some o).
Proof.
  destruct (ArcBallCamera_new_run h w1)
    as (s1 & l1 & c1 & Hnew1 & Hs1 & Hl1 & Hne1 & Hw1 & Hsm1).
  set (h1 := <[l1 := ArcBallObj c1]> (<[s1 := MatrixObj Matrix_identity]> h))
    in *.
  destruct (FirstPersonCamera_new_run h1 w2)
    as (s2 & l2 & c2 & Hnew2 & Hs2 & Hl2 & Hne2 & Hw2 & Hsm2).
  assert (Hs2l1 : s2 <> l1)
    by (intros ->; unfold h1 in Hs2; rewrite lookup_insert_eq in Hs2;
        discriminate Hs2).
  assert (Hl2l1 : l2 <> l1)
    by (intros ->; unfold h1 in Hl2; rewrite lookup_insert_eq in Hl2;
        discriminate Hl2).
  unfold h1 in Hs2, Hl2.
  rewrite lookup_insert_ne in Hs2 by congruence.
  rewrite lookup_insert_ne in Hl2 by congruence.
  assert (Hs2s1 : s2 <> s1)
    by (intros ->; rewrite lookup_insert_eq in Hs2; discriminate Hs2).
  assert (Hl2s1 : l2 <> s1)
    by (intros ->; rewrite lookup_insert_eq in Hl2; discriminate Hl2).
  rewrite lookup_insert_ne in Hs2 by congruence.
  rewrite lookup_insert_ne in Hl2 by congruence.
  exists l1, l2, c1, c2. eexists.
  split; [|conjuncts].
  - erewrite bind_Return by exact Hnew1.
    erewrite bind_Return by exact Hnew2. reflexivity.
  - unfold h1.
    repeat first [ rewrite lookup_insert_eq
                 | rewrite lookup_insert_ne by congruence ]; reflexivity.
  - rewrite lookup_insert_eq. reflexivity.
  - exact Hw1.
  - exact Hw2.
  - rewrite Hsm1. unfold h1.
    repeat first [ rewrite lookup_insert_eq
                 | rewrite lookup_insert_ne by congruence ]; reflexivity.
  - rewrite Hsm2.
    repeat first [ rewrite lookup_insert_eq
                 | rewrite lookup_insert_ne by congruence ]; reflexivity.
  - rewrite Hsm1, Hsm2. congruence.
  - exact Hl1.
  - exact Hl2.
  - rewrite Hsm1. exact Hs1.
  - rewrite Hsm2. exact Hs2.
  - intros l o Hlo. unfold h1.
    rewrite !lookup_insert_ne by congruence. exact Hlo.
Qed.

(** X4. [clone] without an output camera makes a new camera, at a location
    that was not in use, on the WorldWindow of the original and with the
    position, heading, tilt, range and roll of the original, with a scratch
    matrix of its own; the original and every other object of the store
    stay as they were.  With an output camera it is [copy] onto it. *)
Theorem clone_makes_an_independent_copy
    (h : gmap positive object) (this : positive) :
  (forall c,
      h !! this = Some (ArcBallObj c) ->
      (exists out c' h',
          ArcBallCamera_clone this None h = (Return out, h') /\
          h !! out = None /\ h' !! out = Some (ArcBallObj c') /\
          ab_position c' = ab_position c /\ ab_heading c' = ab_heading c /\
          ab_tilt c' = ab_tilt c /\ ab_range c' = ab_range c /\
          ab_roll c' = ab_roll c /\ ab_wwd c' = ab_wwd c /\
          h !! ab_scratchMatrix c' = None /\
          (forall l o, h !! l = Some o -> h' !! l = Some o)) /\
      (forall out o,
          h !! out = Some (ArcBallObj o) ->
          ArcBallCamera_clone this (Some out) h =
          ArcBallCamera_copy out (Some this) h)) /\
  (forall c,
      h !! this = Some (FirstPersonObj c) ->
      (exists out c' h',
          FirstPersonCamera_clone this None h = (Return out, h') /\
          h !! out = None /\ h' !! out = Some (FirstPersonObj c') /\
          fp_position c' = fp_position c /\ fp_heading c' = fp_heading c /\
          fp_tilt c' = fp_tilt c /\ fp_roll c' = fp_roll c /\
          fp_wwd c' = fp_wwd c /\
          h !! fp_scratchMatrix c' = None /\
          (forall l o, h !! l = Some o -> h' !! l = Some o)) /\
      (forall out o,
          h !! out = Some (FirstPersonObj o) ->
          FirstPersonCamera_clone this (Some out) h =
          FirstPersonCamera_copy out (Some this) h)).
Proof.
  split; intros c Hc; split.
  - destruct (ArcBallCamera_new_run h (ab_wwd c))
      as (s & l & c0 & Hnew & Hs & Hl & Hne & Hw & Hsm).
    assert (Hlt : l <> this) by (intros ->; congruence).
    assert (Hst : s <> this) by (intros ->; congruence).
    set (h1 := <[l := ArcBallObj c0]> (<[s := MatrixObj Matrix_identity]> h))
      in *.
    assert (Hc1 : h1 !! this = Some (ArcBallObj c))
      by (unfold h1; rewrite !lookup_insert_ne by congruence; exact Hc).
    assert (Hl1 : h1 !! l = Some (ArcBallObj c0))
      by (unfold h1; apply lookup_insert_eq).
    exists l. eexists. eexists. split; [|conjuncts].
    + unfold ArcBallCamera_clone.
      erewrite (bind_Return (load_ArcBall this ≫= _))
        by (erewrite bind_Return by (apply load_ArcBall_run; exact Hc);
            exact Hnew).
      erewrite bind_Return
        by (eapply (ArcBallCamera_copy_run h1 l this c0 (ArcBallObj c));
            first [eassumption | reflexivity]).
      reflexivity.
    + exact Hl.
    + apply lookup_insert_eq.
    + apply Position_copy_eq.
    + reflexivity.
    + reflexivity.
    + reflexivity.
    + reflexivity.
    + exact Hw.
    + cbn [ArcBallCamera_copy_fields ab_set_roll ab_set_range ab_set_heading
           ab_set_tilt ab_set_position ab_scratchMatrix].
      rewrite Hsm. exact Hs.
    + intros l' o Hlo. unfold h1.
      rewrite !lookup_insert_ne by congruence. exact Hlo.
  - intros out o Ho. unfold ArcBallCamera_clone.
    erewrite (bind_Return (mret out)) by reflexivity.
    destruct (camera_properties (ArcBallObj c) eq_refl)
      as (p & t & hd & rg & rl & P & T & HD & RG & RL).
    erewrite bind_Return
      by (eapply (ArcBallCamera_copy_run h out this o (ArcBallObj c));
          eassumption).
    erewrite (ArcBallCamera_copy_run h out this o (ArcBallObj c))
      by eassumption.
    reflexivity.
  - destruct (FirstPersonCamera_new_run h (fp_wwd c))
      as (s & l & c0 & Hnew & Hs & Hl & Hne & Hw & Hsm).
    assert (Hlt : l <> this) by (intros ->; congruence).
    assert (Hst : s <> this) by (intros ->; congruence).
    set (h1 := <[l := FirstPersonObj c0]>
                 (<[s := MatrixObj Matrix_identity]> h)) in *.
    assert (Hc1 : h1 !! this = Some (FirstPersonObj c))
      by (unfold h1; rewrite !lookup_insert_ne by congruence; exact Hc).
    assert (Hl1 : h1 !! l = Some (FirstPersonObj c0))
      by (unfold h1; apply lookup_insert_eq).
    exists l. eexists. eexists. split; [|conjuncts].
    + unfold FirstPersonCamera_clone.
      erewrite (bind_Return (load_FirstPerson this ≫= _))
        by (erewrite bind_Return by (apply load_FirstPerson_run; exact Hc);
            exact Hnew).
      erewrite bind_Return
        by (eapply (FirstPersonCamera_copy_run h1 l this c0
                      (FirstPersonObj c));
            first [eassumption | reflexivity]).
      reflexivity.
    + exact Hl.
    + apply lookup_insert_eq.
    + apply Position_copy_eq.
    + reflexivity.
    + reflexivity.
    + reflexivity.
    + exact Hw.
    + cbn [FirstPersonCamera_copy_fields fp_set_roll fp_set_heading
           fp_set_tilt fp_set_position fp_scratchMatrix].
      rewrite Hsm. exact Hs.
    + intros l' o Hlo. unfold h1.
      rewrite !lookup_insert_ne by congruence. exact Hlo.
  - intros out o Ho. unfold FirstPersonCamera_clone.
    erewrite (bind_Return (mret out)) by reflexivity.
    destruct (camera_properties (FirstPersonObj c) eq_refl)
      as (p & t & hd & rg & rl & P & T & HD & RG & RL).
    erewrite bind_Return
      by (eapply (FirstPersonCamera_copy_run h out this o (FirstPersonObj c));
          eassumption).
    erewrite (FirstPersonCamera_copy_run h out this o (FirstPersonObj c))
      by eassumption.
    reflexivity.
Qed.

(** *** What the methods leave behind *)

Lemma ArcBallCamera_applyLimits_scratchVector (v : Vec3) (c : ArcBallCamera) :
  ArcBallCamera_applyLimits (ab_set_scratchVector v c) =
  ab_set_scratchVector v (ArcBallCamera_applyLimits c).
Proof.
  unfold ArcBallCamera_applyLimits, ab_set_scratchVector.
  cbn [ab_position ab_heading ab_tilt ab_range ab_roll ab_wwd
       ab_scratchMatrix ab_scratchVector].
  destruct (is2D (globe (ab_wwd c))); reflexivity.
Qed.

Lemma FirstPersonCamera_applyLimits_toArcBall_this
    (c : FirstPersonCamera) (range : Q) :
  FirstPersonCamera_applyLimits
    (toArcBall_this (FirstPersonCamera_applyLimits c) range) =
  toArcBall_this (FirstPersonCamera_applyLimits c) range.
Proof.
  pose proof (FirstPersonCamera_applyLimits_twice c) as T.
  unfold toArcBall_this, toArcBall_lookAtPoint, toArcBall_ray,
    FirstPersonCamera_viewMatrix, fp_set_scratchVector, fp_set_ray in *.
  unfold FirstPersonCamera_applyLimits in *.
  cbn [fp_position fp_heading fp_tilt fp_roll fp_wwd fp_scratchMatrix
       fp_scratchVector fp_ray latitude longitude altitude] in *.
  injection T as T1 T2 T3 T4 T5 T6.
  rewrite T1, T2, T3, T4, T5, T6. reflexivity.
Qed.

(** X8. The methods leave the cameras they write within the limits: after
    [createViewMatrix] a further [applyLimits] of the camera changes
    nothing, and after [toFirstPerson] or [toArcBall] a further
    [applyLimits] changes neither the converted camera nor the output. *)
Theorem methods_leave_cameras_limited (h : gmap positive object)
    (this : positive) (m0 : Matrix) :
  (forall c matrix,
      h !! this = Some (ArcBallObj c) ->
      h !! matrix = Some (MatrixObj m0) ->
      exists c' h',
        ArcBallCamera_createViewMatrix this (Some matrix) h =
          (Return matrix, h') /\
        h' !! this = Some (ArcBallObj c') /\
        ArcBallCamera_applyLimits c' = c') /\
  (forall c matrix,
      h !! this = Some (FirstPersonObj c) ->
      h !! matrix = Some (MatrixObj m0) ->
      exists c' h',
        FirstPersonCamera_createViewMatrix this (Some matrix) h =
          (Return matrix, h') /\
        h' !! this = Some (FirstPersonObj c') /\
        FirstPersonCamera_applyLimits c' = c') /\
  (forall c out o,
      h !! this = Some (ArcBallObj c) ->
      h !! ab_scratchMatrix c = Some (MatrixObj m0) ->
      h !! out = Some (FirstPersonObj o) ->
      exists c' o' h',
        ArcBallCamera_toFirstPerson this (Some out) h = (Return out, h') /\
        h' !! this = Some (ArcBallObj c') /\
        ArcBallCamera_applyLimits c' = c' /\
        h' !! out = Some (FirstPersonObj o') /\
        FirstPersonCamera_applyLimits o' = o') /\
  (forall c out o,
      h !! this = Some (FirstPersonObj c) ->
      h !! fp_scratchMatrix c = Some (MatrixObj m0) ->
      h !! out = Some (ArcBallObj o) ->
      exists c' o' h',
        FirstPersonCamera_toArcBall this (Some out) h = (Return out, h') /\
        h' !! this = Some (FirstPersonObj c') /\
        FirstPersonCamera_applyLimits c' = c' /\
        h' !! out = Some (ArcBallObj o') /\
        ArcBallCamera_applyLimits o' = o').
Proof.
  split; [|split; [|split]].
  - intros c matrix Hc Hm.
    pose proof (ArcBall_Matrix_distinct h _ _ _ _ Hc Hm) as Hne.
    do 2 eexists. split; [|split].
    + eapply ArcBallCamera_createViewMatrix_run; eassumption.
    + rewrite lookup_insert_ne by congruence. apply lookup_insert_eq.
    + apply ArcBallCamera_applyLimits_twice.
  - intros c matrix Hc Hm.
    pose proof (FirstPerson_Matrix_distinct h _ _ _ _ Hc Hm) as Hne.
    do 2 eexists. split; [|split].
    + eapply FirstPersonCamera_createViewMatrix_run; eassumption.
    + rewrite lookup_insert_ne by congruence. apply lookup_insert_eq.
    + apply FirstPersonCamera_applyLimits_twice.
  - intros c out o Hc Hm Ho.
    pose proof (ArcBall_FirstPerson_distinct h _ _ _ _ Hc Ho) as Hne.
    do 3 eexists. split; [|split; [|split; [|split]]].
    + eapply ArcBallCamera_toFirstPerson_run; eassumption.
    + rewrite lookup_insert_ne by congruence. apply lookup_insert_eq.
    + rewrite ArcBallCamera_applyLimits_scratchVector,
        ArcBallCamera_applyLimits_twice. reflexivity.
    + apply lookup_insert_eq.
    + apply FirstPersonCamera_applyLimits_twice.
  - intros c out o Hc Hm Ho.
    pose proof (ArcBall_FirstPerson_distinct h _ _ _ _ Ho Hc) as Hne.
    do 3 eexists. split; [|split; [|split; [|split]]].
    + eapply FirstPersonCamera_toArcBall_run; eassumption.
    + rewrite lookup_insert_ne by congruence. apply lookup_insert_eq.
    + apply FirstPersonCamera_applyLimits_toArcBall_this.
    + apply lookup_insert_eq.
    + apply ArcBallCamera_applyLimits_twice.
Qed.

(** *** What the conversions touch *)

Lemma dom_insert_present (h : gmap positive object) l o o' :
  h !! l = Some o -> dom (<[l := o']> h) = dom h.
Proof. intros H. apply dom_insert_lookup_L. rewrite H. eauto. Qed.

(** X9. [toFirstPerson] writes three objects and no other: the converted
    camera, which gets its limits applied and a new scratch vector, its
    scratch matrix, and the output.  Nothing is allocated.  The output
    keeps its WorldWindow and its scratch objects, and its position,
    heading, tilt and roll after the call do not depend on what they were
    before. *)
Theorem toFirstPerson_touches_three_objects (h : gmap positive object)
    (this out : positive) (c : ArcBallCamera) (m0 : Matrix)
    (o : FirstPersonCamera) :
  h !! this = Some (ArcBallObj c) ->
  h !! ab_scratchMatrix c = Some (MatrixObj m0) ->
  h !! out = Some (FirstPersonObj o) ->
  exists c' o' h',
    ArcBallCamera_toFirstPerson this (Some out) h = (Return out, h') /\
    h' !! this = Some (ArcBallObj c') /\
    h' !! out = Some (FirstPersonObj o') /\
    (ab_position c' = ab_position (ArcBallCamera_applyLimits c) /\
     ab_heading c' = ab_heading (ArcBallCamera_applyLimits c) /\
     ab_tilt c' = ab_tilt (ArcBallCamera_applyLimits c) /\
     ab_range c' = ab_range (ArcBallCamera_applyLimits c) /\
     ab_roll c' = ab_roll (ArcBallCamera_applyLimits c) /\
     ab_wwd c' = ab_wwd c /\ ab_scratchMatrix c' = ab_scratchMatrix c) /\
    (fp_wwd o' = fp_wwd o /\ fp_scratchMatrix o' = fp_scratchMatrix o /\
     fp_scratchVector o' = fp_scratchVector o /\ fp_ray o' = fp_ray o) /\
    dom h' = dom h /\
    (forall l, l <> this -> l <> ab_scratchMatrix c -> l <> out ->
               h' !! l = h !! l) /\
    (forall o2, exists o2' h2',
        ArcBallCamera_toFirstPerson this (Some out)
          (<[out := FirstPersonObj o2]> h) = (Return out, h2') /\
        h2' !! out = Some (FirstPersonObj o2') /\
        fp_position o2' = fp_position o' /\ fp_heading o2' = fp_heading o' /\
        fp_tilt o2' = fp_tilt o' /\ fp_roll o2' = fp_roll o').
Proof.
  intros Hc Hm Ho.
  pose proof (ArcBall_Matrix_distinct h _ _ _ _ Hc Hm) as Hne1.
  pose proof (ArcBall_FirstPerson_distinct h _ _ _ _ Hc Ho) as Hne2.
  assert (Hne3 : out <> ab_scratchMatrix c)
    by (eapply FirstPerson_Matrix_distinct; eassumption).
  do 3 eexists. split; [|split; [|split; [|split; [|split; [|split; [|split]]]]]].
  - eapply ArcBallCamera_toFirstPerson_run; eassumption.
  - rewrite lookup_insert_ne by congruence. apply lookup_insert_eq.
  - apply lookup_insert_eq.
  - unfold ArcBallCamera_applyLimits, ab_set_scratchVector.
    destruct (is2D (globe (ab_wwd c))); repeat split.
  - repeat split.
  - erewrite !dom_insert_present; [reflexivity | | | | ];
      repeat first [ rewrite lookup_insert_eq
                   | rewrite lookup_insert_ne by congruence ];
      eassumption || reflexivity.
  - intros l N1 N2 N3. rewrite !lookup_insert_ne by congruence. reflexivity.
  - intros o2. do 2 eexists. split; [|split].
    + eapply ArcBallCamera_toFirstPerson_run.
      * rewrite lookup_insert_ne by congruence. exact Hc.
      * rewrite lookup_insert_ne by congruence. exact Hm.
      * apply lookup_insert_eq.
    + apply lookup_insert_eq.
    + repeat split.
Qed.

(** X10. [toArcBall] writes three objects and no other: the converted
    camera, which gets its limits applied, its ray and its scratch vector
    set, its scratch matrix, and the output.  Nothing is allocated.  The
    output keeps its WorldWindow and its scratch objects, and what it holds
    after the call depends on what it held before only through its range
    and its WorldWindow. *)
Theorem toArcBall_touches_three_objects (h : gmap positive object)
    (this out : positive) (c : FirstPersonCamera) (m0 : Matrix)
    (o : ArcBallCamera) :
  h !! this = Some (FirstPersonObj c) ->
  h !! fp_scratchMatrix c = Some (MatrixObj m0) ->
  h !! out = Some (ArcBallObj o) ->
  exists c' o' h',
    FirstPersonCamera_toArcBall this (Some out) h = (Return out, h') /\
    h' !! this = Some (FirstPersonObj c') /\
    h' !! out = Some (ArcBallObj o') /\
    (fp_position c' = fp_position (FirstPersonCamera_applyLimits c) /\
     fp_heading c' = fp_heading (FirstPersonCamera_applyLimits c) /\
     fp_tilt c' = fp_tilt (FirstPersonCamera_applyLimits c) /\
     fp_roll c' = fp_roll (FirstPersonCamera_applyLimits c) /\
     fp_wwd c' = fp_wwd c /\ fp_scratchMatrix c' = fp_scratchMatrix c) /\
    (ab_wwd o' = ab_wwd o /\ ab_scratchMatrix o' = ab_scratchMatrix o /\
     ab_scratchVector o' = ab_scratchVector o) /\
    dom h' = dom h /\
    (forall l, l <> this -> l <> fp_scratchMatrix c -> l <> out ->
               h' !! l = h !! l) /\
    (forall o2,
        ab_range o2 = ab_range o -> ab_wwd o2 = ab_wwd o ->
        exists o2' h2',
          FirstPersonCamera_toArcBall this (Some out)
            (<[out := ArcBallObj o2]> h) = (Return out, h2') /\
          h2' !! out = Some (ArcBallObj o2') /\
          ab_position o2' = ab_position o' /\ ab_heading o2' = ab_heading o' /\
          ab_tilt o2' = ab_tilt o' /\ ab_range o2' = ab_range o' /\
          ab_roll o2' = ab_roll o').
Proof.
  intros Hc Hm Ho.
  pose proof (FirstPerson_Matrix_distinct h _ _ _ _ Hc Hm) as Hne1.
  pose proof (ArcBall_FirstPerson_distinct h _ _ _ _ Ho Hc) as Hne2.
  pose proof (ArcBall_Matrix_distinct h _ _ _ _ Ho Hm) as Hne3.
  do 3 eexists. split; [|split; [|split; [|split; [|split; [|split; [|split]]]]]].
  - eapply FirstPersonCamera_toArcBall_run; eassumption.
  - rewrite lookup_insert_ne by congruence. apply lookup_insert_eq.
  - apply lookup_insert_eq.
  - repeat split.
  - unfold ArcBallCamera_applyLimits, toArcBall_assign.
    cbn [ab_set_roll ab_set_tilt ab_set_heading ab_set_position ab_wwd].
    destruct (is2D (globe (ab_wwd o))); repeat split.
  - erewrite !dom_insert_present; [reflexivity | | | | ];
      repeat first [ rewrite lookup_insert_eq
                   | rewrite lookup_insert_ne by congruence ];
      eassumption || reflexivity.
  - intros l N1 N2 N3. rewrite !lookup_insert_ne by congruence. reflexivity.
  - intros o2 Hr Hw. do 2 eexists. split; [|split].
    + eapply FirstPersonCamera_toArcBall_run.
      * rewrite lookup_insert_ne by congruence. exact Hc.
      * rewrite lookup_insert_ne by congruence. exact Hm.
      * apply lookup_insert_eq.
    + apply lookup_insert_eq.
    + rewrite Hr. unfold ArcBallCamera_applyLimits, toArcBall_assign.
      cbn [ab_set_roll ab_set_tilt ab_set_heading ab_set_position ab_wwd
           ab_range ab_position ab_heading ab_tilt ab_roll].
      rewrite Hw, Hr. destruct (is2D (globe (ab_wwd o))); repeat split.
Qed.

(** X11. [toArcBall] reads the range of the output before it limits the
    output: the look-at point is placed at the range as it was given, and
    on a round globe the range that the output holds afterwards is that
    range clamped to [1, Number.MAX_VALUE].  For a range below 1 the output
    ends with range 1 and with the position, heading and tilt extracted for
    the look-at point at the smaller distance. *)
Theorem toArcBall_reads_the_range_before_limiting
    (h : gmap positive object) (this out : positive)
    (c : FirstPersonCamera) (m0 : Matrix) (o : ArcBallCamera) :
  h !! this = Some (FirstPersonObj c) ->
  h !! fp_scratchMatrix c = Some (MatrixObj m0) ->
  h !! out = Some (ArcBallObj o) ->
  is2D (globe (ab_wwd o)) = false ->
  let c' := FirstPersonCamera_applyLimits c in
  let vm := multiplyByLookAtModelview Matrix_identity
              (fp_position c') 0 (fp_heading c') (fp_tilt c' + 90)
              (fp_roll c') (globe (fp_wwd c')) in
  let lookAtPoint :=
    Line_pointAt (mkLine (extractEyePoint vm) (extractForwardVector vm))
      (ab_range o) in
  let params := extractViewingParameters vm lookAtPoint
                  (fp_roll c') (globe (fp_wwd c')) in
  exists o' h',
    FirstPersonCamera_toArcBall this (Some out) h = (Return out, h') /\
    h' !! out = Some (ArcBallObj o') /\
    ab_range o' = WWMath.clamp (ab_range o) 1 Number.MAX_VALUE /\
    (ab_range o < 1 -> ab_range o' = 1) /\
    latitude (ab_position o') =
      WWMath.clamp (latitude (vp_origin params)) (-90) 90 /\
    longitude (ab_position o') =
      Angle.normalizedDegreesLongitude (longitude (vp_origin params)) /\
    altitude (ab_position o') =
      WWMath.clamp (altitude (vp_origin params)) 0 Number.MAX_VALUE /\
    ab_heading o' = Angle.normalizedDegrees (vp_heading params) /\
    ab_tilt o' = WWMath.clamp (vp_tilt params) 0 90 /\
    ab_roll o' = Angle.normalizedDegrees (vp_roll params).
Proof.
  intros Hc Hm Ho E c' vm lookAtPoint params.
  do 2 eexists. split; [|split].
  - eapply FirstPersonCamera_toArcBall_run; eassumption.
  - apply lookup_insert_eq.
  - unfold ArcBallCamera_applyLimits, toArcBall_assign.
    cbn [ab_set_roll ab_set_tilt ab_set_heading ab_set_position ab_wwd
         ab_range ab_position ab_heading ab_tilt ab_roll Position_copy
         latitude longitude altitude].
    rewrite E.
    cbn [ab_range ab_position ab_heading ab_tilt ab_roll
         latitude longitude altitude].
    conjuncts; try reflexivity.
    intros Hlt. unfold WWMath.clamp.
    apply Number_lt_true in Hlt. rewrite Hlt. reflexivity.
Qed.

(** X7. What the look-at primitive is given lies in its domain: from a
    FirstPersonCamera range 0 and a tilt in [0,180]; from an ArcBallCamera a
    tilt in [0,90], which is 0 on a flat globe, and on a round globe a range
    of at least 1; from either a heading and a roll in (-180,180] and a
    position with latitude in [-90,90], longitude in (-180,180] and
    altitude at least 0. *)
Theorem lookAt_arguments_within_domain (h : gmap positive object)
    (this matrix : positive) (m0 : Matrix) :
  h !! matrix = Some (MatrixObj m0) ->
  (forall c,
      h !! this = Some (FirstPersonObj c) ->
      let c' := FirstPersonCamera_applyLimits c in
      let p := fp_position c' in
      let hd := fp_heading c' in
      let t := fp_tilt c' + 90 in
      let rl := fp_roll c' in
      exists h',
        FirstPersonCamera_createViewMatrix this (Some matrix) h =
          (Return matrix, h') /\
        h' !! matrix =
          Some (MatrixObj
                  (multiplyByLookAtModelview Matrix_identity p 0 hd t rl
                     (globe (fp_wwd c)))) /\
        0 <= t /\ t <= 180 /\ normalized hd /\ normalized rl /\
        -90 <= latitude p /\ latitude p <= 90 /\ normalized (longitude p) /\
        0 <= altitude p) /\
  (forall c,
      h !! this = Some (ArcBallObj c) ->
      let c' := ArcBallCamera_applyLimits c in
      let p := ab_position c' in
      let rg := ab_range c' in
      let hd := ab_heading c' in
      let t := ab_tilt c' in
      let rl := ab_roll c' in
      let g := globe (ab_wwd c) in
      exists h',
        ArcBallCamera_createViewMatrix this (Some matrix) h =
          (Return matrix, h') /\
        h' !! matrix =
          Some (MatrixObj
                  (multiplyByLookAtModelview Matrix_identity p rg hd t rl g)) /\
        0 <= t /\ t <= 90 /\ (is2D g = true -> t = 0) /\
        (is2D g = false -> 1 <= rg) /\
        normalized hd /\ normalized rl /\
        -90 <= latitude p /\ latitude p <= 90 /\ normalized (longitude p) /\
        0 <= altitude p).
Proof.
  intros Hm. split; intros c Hc; cbv zeta.
  - eexists. split; [|split].
    + eapply FirstPersonCamera_createViewMatrix_run; eassumption.
    + rewrite lookup_insert_eq. reflexivity.
    + unfold FirstPersonCamera_applyLimits.
      cbn [fp_position fp_heading fp_tilt fp_roll fp_wwd
           latitude longitude altitude].
      destruct (clamp_bounds (latitude (fp_position c)) (-90) 90) as [L1 L2];
        [lra|].
      pose proof (clamp_lower (altitude (fp_position c)) 0 Number.MAX_VALUE
                    MAX_VALUE_ge_0) as A.
      destruct (clamp_bounds (fp_tilt c) (-90) 90) as [T1 T2]; [lra|].
      pose proof (normalized_normalizedDegreesLongitude
                    (longitude (fp_position c))).
      pose proof (normalized_normalizedDegrees (fp_heading c)).
      pose proof (normalized_normalizedDegrees (fp_roll c)).
      conjuncts; try assumption; lra.
  - eexists. split; [|split].
    + eapply ArcBallCamera_createViewMatrix_run; eassumption.
    + rewrite lookup_insert_eq. unfold ArcBallCamera_viewMatrix.
      do 3 f_equal. unfold ArcBallCamera_applyLimits.
      destruct (is2D (globe (ab_wwd c))); reflexivity.
    + destruct (clamp_bounds (latitude (ab_position c)) (-90) 90) as [L1 L2];
        [lra|].
      pose proof (clamp_lower (altitude (ab_position c)) 0 Number.MAX_VALUE
                    MAX_VALUE_ge_0) as A.
      destruct (clamp_bounds (ab_tilt c) 0 90) as [T1 T2]; [lra|].
      pose proof (clamp_lower (ab_range c) 1 Number.MAX_VALUE MAX_VALUE_ge_1)
        as R.
      pose proof (normalized_normalizedDegreesLongitude
                    (longitude (ab_position c))).
      pose proof (normalized_normalizedDegrees (ab_heading c)).
      pose proof (normalized_normalizedDegrees (ab_roll c)).
      unfold ArcBallCamera_applyLimits.
      destruct (is2D (globe (ab_wwd c))) eqn:E;
        cbn [ab_position ab_heading ab_tilt ab_range ab_roll ab_wwd
             latitude longitude altitude];
        conjuncts; try assumption; try reflexivity; try lra; try congruence.
Qed.

(** *** Reading and writing through the navigator *)

(** X12. A value written through the navigator is the value read back, as
    it was written, also when it lies outside the limits, and the other
    properties read as before; [lookAtLocation] reads the coordinates of
    the Position object that was assigned.  On a FirstPersonCamera [range]
    and the altitude of [lookAtLocation] are one and the same: writing
    either changes what the other reads.  On an ArcBallCamera the two are
    independent. *)
Theorem Navigator_write_then_read (h : gmap positive object)
    (active : positive) :
  let nav := mkNavigator active in
  (forall c v,
      h !! active = Some (ArcBallObj c) ->
      (forall position p,
          h !! position = Some (PositionObj p) ->
          fst ((Navigator_set_lookAtLocation nav position;;
                Navigator_readAll nav) h) =
            Return (p, ab_range c, ab_heading c, ab_tilt c, ab_roll c)) /\
      fst ((Navigator_set_range nav v;; Navigator_readAll nav) h) =
        Return (ab_position c, v, ab_heading c, ab_tilt c, ab_roll c) /\
      fst ((Navigator_set_heading nav v;; Navigator_readAll nav) h) =
        Return (ab_position c, ab_range c, v, ab_tilt c, ab_roll c) /\
      fst ((Navigator_set_tilt nav v;; Navigator_readAll nav) h) =
        Return (ab_position c, ab_range c, ab_heading c, v, ab_roll c) /\
      fst ((Navigator_set_roll nav v;; Navigator_readAll nav) h) =
        Return (ab_position c, ab_range c, ab_heading c, ab_tilt c, v)) /\
  (forall c v,
      h !! active = Some (FirstPersonObj c) ->
      (forall position p,
          h !! position = Some (PositionObj p) ->
          fst ((Navigator_set_lookAtLocation nav position;;
                Navigator_readAll nav) h) =
            Return (p, altitude p, fp_heading c, fp_tilt c, fp_roll c)) /\
      fst ((Navigator_set_range nav v;; Navigator_readAll nav) h) =
        Return (mkPosition (latitude (fp_position c))
                  (longitude (fp_position c)) v,
                v, fp_heading c, fp_tilt c, fp_roll c) /\
      fst ((Navigator_set_heading nav v;; Navigator_readAll nav) h) =
        Return (fp_position c, altitude (fp_position c), v, fp_tilt c,
                fp_roll c) /\
      fst ((Navigator_set_tilt nav v;; Navigator_readAll nav) h) =
        Return (fp_position c, altitude (fp_position c), fp_heading c, v,
                fp_roll c) /\
      fst ((Navigator_set_roll nav v;; Navigator_readAll nav) h) =
        Return (fp_position c, altitude (fp_position c), fp_heading c,
                fp_tilt c, v)).
Proof.
  cbv zeta. split; intros c v Hc.
  - assert (Hnav : h !! Navigator_camera (mkNavigator active)
                   = Some (ArcBallObj c)) by exact Hc.
    split.
    { intros position p Hp.
      assert (Hne : active <> position) by congruence.
      erewrite bind_Return
        by (apply Navigator_set_lookAtLocation_ArcBall_run; exact Hnav).
      erewrite Navigator_readAll_ArcBallShared
        by first
             [ apply lookup_insert_eq
             | rewrite lookup_insert_ne by exact Hne; exact Hp ].
      reflexivity. }
    unfold Navigator_set_range, Navigator_set_heading, Navigator_set_tilt,
      Navigator_set_roll.
    conjuncts;
      (erewrite bind_Return
         by (apply write_camera_ArcBall_run; exact Hnav));
      (erewrite Navigator_readAll_ArcBall by apply lookup_insert_eq);
      reflexivity.
  - assert (Hnav : h !! Navigator_camera (mkNavigator active)
                   = Some (FirstPersonObj c)) by exact Hc.
    split.
    { intros position p Hp.
      assert (Hne : active <> position) by congruence.
      erewrite bind_Return
        by (apply Navigator_set_lookAtLocation_FirstPerson_run; exact Hnav).
      erewrite Navigator_readAll_FirstPersonShared
        by first
             [ apply lookup_insert_eq
             | rewrite lookup_insert_ne by exact Hne; exact Hp ].
      reflexivity. }
    unfold Navigator_set_range, Navigator_set_heading, Navigator_set_tilt,
      Navigator_set_roll.
    conjuncts;
      (erewrite bind_Return
         by (apply write_camera_FirstPerson_run; exact Hnav));
      (erewrite Navigator_readAll_FirstPerson by apply lookup_insert_eq);
      reflexivity.
Qed.

(** X13. Asked for the model that the active camera already has, the
    navigator leaves the active camera alone.  With the active camera
    itself as the output nothing changes at all; without an output the
    result is a new camera, at a location that was not in use, on the
    WorldWindow of the active camera and with its position, heading, tilt,
    roll (and range), and every object of the store before is unchanged. *)
Theorem Navigator_same_model_leaves_the_camera
    (h : gmap positive object) (active : positive) :
  let nav := mkNavigator active in
  (forall c,
      h !! active = Some (ArcBallObj c) ->
      Navigator_getAsArcBallCamera nav (Some active) h = (Return active, h) /\
      exists out c' h',
        Navigator_getAsArcBallCamera nav None h = (Return out, h') /\
        h !! out = None /\ h' !! out = Some (ArcBallObj c') /\
        ab_position c' = ab_position c /\ ab_heading c' = ab_heading c /\
        ab_tilt c' = ab_tilt c /\ ab_range c' = ab_range c /\
        ab_roll c' = ab_roll c /\ ab_wwd c' = ab_wwd c /\
        (forall l o, h !! l = Some o -> h' !! l = Some o)) /\
  (forall c,
      h !! active = Some (FirstPersonObj c) ->
      Navigator_getAsFirstPersonCamera nav (Some active) h =
        (Return active, h) /\
      exists out c' h',
        Navigator_getAsFirstPersonCamera nav None h = (Return out, h') /\
        h !! out = None /\ h' !! out = Some (FirstPersonObj c') /\
        fp_position c' = fp_position c /\ fp_heading c' = fp_heading c /\
        fp_tilt c' = fp_tilt c /\ fp_roll c' = fp_roll c /\
        fp_wwd c' = fp_wwd c /\
        (forall l o, h !! l = Some o -> h' !! l = Some o)).
Proof.
  cbv zeta. split; intros c Hc.
  - assert (Hnav : h !! Navigator_camera (mkNavigator active)
                   = Some (ArcBallObj c)) by exact Hc.
    split.
    + destruct (getAsArcBallCamera_ArcBall h (mkNavigator active) active c c
                  Hnav Hc) as [_ ->].
      rewrite ArcBallCamera_copy_fields_self, insert_id by exact Hc.
      reflexivity.
    + destruct (ArcBallCamera_new_run h (ab_wwd c))
        as (s & l & c0 & Hnew & Hs & Hl & Hne & Hw & Hsm).
      destruct (getAsArcBallCamera_omitted h (mkNavigator active)
                  (ArcBallObj c) (ab_wwd c) Hnav eq_refl)
        as (out & h0 & Hnew' & Hout & Heq).
      rewrite Hnew in Hnew'. injection Hnew' as <- <-.
      assert (Hlt : l <> active) by (intros ->; congruence).
      assert (Hst : s <> active) by (intros ->; congruence).
      set (h1 := <[l := ArcBallObj c0]>
                   (<[s := MatrixObj Matrix_identity]> h)) in *.
      assert (Hc1 : h1 !! Navigator_camera (mkNavigator active)
                    = Some (ArcBallObj c))
        by (unfold h1; cbn [Navigator_camera _camera];
            rewrite !lookup_insert_ne by congruence; exact Hc).
      assert (Hl1 : h1 !! l = Some (ArcBallObj c0))
        by (unfold h1; apply lookup_insert_eq).
      destruct (getAsArcBallCamera_ArcBall h1 (mkNavigator active) l c c0
                  Hc1 Hl1) as [_ Hrun].
      exists l. do 2 eexists. split; [|conjuncts].
      * rewrite Heq. exact Hrun.
      * exact Hl.
      * apply lookup_insert_eq.
      * apply Position_copy_eq.
      * reflexivity.
      * reflexivity.
      * reflexivity.
      * reflexivity.
      * exact Hw.
      * intros l' o Hlo. unfold h1.
        rewrite !lookup_insert_ne by congruence. exact Hlo.
  - assert (Hnav : h !! Navigator_camera (mkNavigator active)
                   = Some (FirstPersonObj c)) by exact Hc.
    split.
    + destruct (getAsFirstPersonCamera_FirstPerson h (mkNavigator active)
                  active c c Hnav Hc) as [_ ->].
      rewrite FirstPersonCamera_copy_fields_self, insert_id by exact Hc.
      reflexivity.
    + destruct (FirstPersonCamera_new_run h (fp_wwd c))
        as (s & l & c0 & Hnew & Hs & Hl & Hne & Hw & Hsm).
      destruct (getAsFirstPersonCamera_omitted h (mkNavigator active)
                  (FirstPersonObj c) (fp_wwd c) Hnav eq_refl)
        as (out & h0 & Hnew' & Hout & Heq).
      rewrite Hnew in Hnew'. injection Hnew' as <- <-.
      assert (Hlt : l <> active) by (intros ->; congruence).
      assert (Hst : s <> active) by (intros ->; congruence).
      set (h1 := <[l := FirstPersonObj c0]>
                   (<[s := MatrixObj Matrix_identity]> h)) in *.
      assert (Hc1 : h1 !! Navigator_camera (mkNavigator active)
                    = Some (FirstPersonObj c))
        by (unfold h1; cbn [Navigator_camera _camera];
            rewrite !lookup_insert_ne by congruence; exact Hc).
      assert (Hl1 : h1 !! l = Some (FirstPersonObj c0))
        by (unfold h1; apply lookup_insert_eq).
      destruct (getAsFirstPersonCamera_FirstPerson h1 (mkNavigator active)
                  l c c0 Hc1 Hl1) as [_ Hrun].
      exists l. do 2 eexists. split; [|conjuncts].
      * rewrite Heq. exact Hrun.
      * exact Hl.
      * apply lookup_insert_eq.
      * apply Position_copy_eq.
      * reflexivity.
      * reflexivity.
      * reflexivity.
      * exact Hw.
      * intros l' o Hlo. unfold h1.
        rewrite !lookup_insert_ne by congruence. exact Hlo.
Qed.

(** X14. Asked for the other model, the navigator changes its own camera:
    the conversion applies the limits to the active camera, so the
    properties of the navigator read afterwards as the limited values.
    Asked for the model it has, with another camera as the output, they
    read as before. *)
Theorem Navigator_conversion_limits_the_active_camera
    (h : gmap positive object) (active out : positive) (m0 : Matrix) :
  let nav := mkNavigator active in
  (forall c o,
      h !! active = Some (ArcBallObj c) ->
      h !! ab_scratchMatrix c = Some (MatrixObj m0) ->
      h !! out = Some (FirstPersonObj o) ->
      let c' := ArcBallCamera_applyLimits c in
      fst ((Navigator_getAsFirstPersonCamera nav (Some out);;
            Navigator_readAll nav) h) =
        Return (ab_position c', ab_range c', ab_heading c', ab_tilt c',
                ab_roll c')) /\
  (forall c o,
      h !! active = Some (FirstPersonObj c) ->
      h !! fp_scratchMatrix c = Some (MatrixObj m0) ->
      h !! out = Some (ArcBallObj o) ->
      let c' := FirstPersonCamera_applyLimits c in
      fst ((Navigator_getAsArcBallCamera nav (Some out);;
            Navigator_readAll nav) h) =
        Return (fp_position c', altitude (fp_position c'), fp_heading c',
                fp_tilt c', fp_roll c')) /\
  (forall c o,
      h !! active = Some (ArcBallObj c) ->
      h !! out = Some (ArcBallObj o) -> out <> active ->
      fst ((Navigator_getAsArcBallCamera nav (Some out);;
            Navigator_readAll nav) h) =
        Return (ab_position c, ab_range c, ab_heading c, ab_tilt c,
                ab_roll c)) /\
  (forall c o,
      h !! active = Some (FirstPersonObj c) ->
      h !! out = Some (FirstPersonObj o) -> out <> active ->
      fst ((Navigator_getAsFirstPersonCamera nav (Some out);;
            Navigator_readAll nav) h) =
        Return (fp_position c, altitude (fp_position c), fp_heading c,
                fp_tilt c, fp_roll c)).
Proof.
  cbv zeta. split; [|split; [|split]].
  - intros c o Hc Hm Ho.
    assert (Hnav : h !! Navigator_camera (mkNavigator active)
                   = Some (ArcBallObj c)) by exact Hc.
    pose proof (ArcBall_FirstPerson_distinct h _ _ _ _ Hc Ho) as Hne.
    destruct (getAsFirstPersonCamera_ArcBall h (mkNavigator active) out c m0
                o Hnav Hm Ho) as [Heq _].
    pose proof (ArcBallCamera_toFirstPerson_run h active out c m0 o Hc Hm Ho)
      as Hrun. cbv zeta in Hrun.
    cbn [Navigator_camera _camera] in Heq. rewrite Hrun in Heq.
    erewrite bind_Return by exact Heq.
    erewrite Navigator_readAll_ArcBall
      by (cbn [Navigator_camera _camera];
          rewrite lookup_insert_ne by congruence; apply lookup_insert_eq).
    reflexivity.
  - intros c o Hc Hm Ho.
    assert (Hnav : h !! Navigator_camera (mkNavigator active)
                   = Some (FirstPersonObj c)) by exact Hc.
    pose proof (ArcBall_FirstPerson_distinct h _ _ _ _ Ho Hc) as Hne.
    destruct (getAsArcBallCamera_FirstPerson h (mkNavigator active) out c m0
                o Hnav Hm Ho) as [Heq _].
    pose proof (FirstPersonCamera_toArcBall_run h active out c m0 o Hc Hm Ho)
      as Hrun. cbv zeta in Hrun.
    cbn [Navigator_camera _camera] in Heq. rewrite Hrun in Heq.
    erewrite bind_Return by exact Heq.
    erewrite Navigator_readAll_FirstPerson
      by (cbn [Navigator_camera _camera];
          rewrite lookup_insert_ne by congruence; apply lookup_insert_eq).
    reflexivity.
  - intros c o Hc Ho Hne.
    assert (Hnav : h !! Navigator_camera (mkNavigator active)
                   = Some (ArcBallObj c)) by exact Hc.
    destruct (getAsArcBallCamera_ArcBall h (mkNavigator active) out c o
                Hnav Ho) as [_ Hrun].
    erewrite bind_Return by exact Hrun.
    erewrite Navigator_readAll_ArcBall
      by (cbn [Navigator_camera _camera];
          rewrite lookup_insert_ne by congruence; exact Hc).
    reflexivity.
  - intros c o Hc Ho Hne.
    assert (Hnav : h !! Navigator_camera (mkNavigator active)
                   = Some (FirstPersonObj c)) by exact Hc.
    destruct (getAsFirstPersonCamera_FirstPerson h (mkNavigator active) out
                c o Hnav Ho) as [_ Hrun].
    erewrite bind_Return by exact Hrun.
    erewrite Navigator_readAll_FirstPerson
      by (cbn [Navigator_camera _camera];
          rewrite lookup_insert_ne by congruence; exact Hc).
    reflexivity.
Qed.

(** *** Cameras that are within the limits *)

(** X15. [applyLimits] changes nothing in a camera that is within the
    limits: latitude in [-90,90], longitude, heading and roll in
    (-180,180], altitude in [0, Number.MAX_VALUE], for an ArcBallCamera tilt
    in [0,90] and range in [1, Number.MAX_VALUE], on a flat globe tilt 0 and
    range at most 2*pi*equatorialRadius, for a FirstPersonCamera tilt in
    [-90,90]. *)
Theorem applyLimits_keeps_a_camera_within_limits :
  (forall c : ArcBallCamera,
      -90 <= latitude (ab_position c) -> latitude (ab_position c) <= 90 ->
      normalized (longitude (ab_position c)) ->
      0 <= altitude (ab_position c) ->
      altitude (ab_position c) <= Number.MAX_VALUE ->
      1 <= ab_range c -> ab_range c <= Number.MAX_VALUE ->
      normalized (ab_heading c) ->
      0 <= ab_tilt c -> ab_tilt c <= 90 ->
      normalized (ab_roll c) ->
      (is2D (globe (ab_wwd c)) = true ->
       ab_tilt c = 0 /\ ab_range c <= maxRange2D (globe (ab_wwd c))) ->
      ArcBallCamera_applyLimits c = c) /\
  (forall c : FirstPersonCamera,
      -90 <= latitude (fp_position c) -> latitude (fp_position c) <= 90 ->
      normalized (longitude (fp_position c)) ->
      0 <= altitude (fp_position c) ->
      altitude (fp_position c) <= Number.MAX_VALUE ->
      normalized (fp_heading c) ->
      -90 <= fp_tilt c -> fp_tilt c <= 90 ->
      normalized (fp_roll c) ->
      FirstPersonCamera_applyLimits c = c).
Proof.
  split.
  - intros [[la lo al] hd t rg rl w sm sv].
    cbn [ab_position ab_heading ab_tilt ab_range ab_roll ab_wwd
         latitude longitude altitude].
    intros L1 L2 [O1 O2] A1 A2 R1 R2 [H1 H2] T1 T2 [P1 P2] Hflat.
    unfold ArcBallCamera_applyLimits.
    cbn [ab_position ab_heading ab_tilt ab_range ab_roll ab_wwd
         ab_scratchMatrix ab_scratchVector latitude longitude altitude].
    rewrite (clamp_id la), (clamp_id al), (clamp_id rg 1), (clamp_id t)
      by assumption.
    rewrite (normalizedDegrees_id hd), (normalizedDegrees_id rl) by assumption.
    unfold Angle.normalizedDegreesLongitude.
    pose proof (normalizedDegrees_id lo O1 O2) as Hlo.
    unfold Angle.normalizedDegrees in Hlo. rewrite Hlo.
    destruct (is2D (globe w)) eqn:E; [|reflexivity].
    destruct (Hflat eq_refl) as [-> Hcap].
    rewrite (clamp_id rg 1) by assumption. reflexivity.
  - intros [[la lo al] hd t rl w sm sv r].
    cbn [fp_position fp_heading fp_tilt fp_roll latitude longitude altitude].
    intros L1 L2 [O1 O2] A1 A2 [H1 H2] T1 T2 [P1 P2].
    unfold FirstPersonCamera_applyLimits.
    cbn [fp_position fp_heading fp_tilt fp_roll fp_wwd fp_scratchMatrix
         fp_scratchVector fp_ray latitude longitude altitude].
    rewrite (clamp_id la), (clamp_id al), (clamp_id t) by assumption.
    rewrite (normalizedDegrees_id hd), (normalizedDegrees_id rl) by assumption.
    unfold Angle.normalizedDegreesLongitude.
    pose proof (normalizedDegrees_id lo O1 O2) as Hlo.
    unfold Angle.normalizedDegrees in Hlo. rewrite Hlo.
    reflexivity.
Qed.

(** *** Calling a method again *)

(** Two stores built by the same writes, some of them repeated. *)
Ltac same_store :=
  apply map_eq; intros ?;
  repeat match goal with
         | |- context [ <[?l := _]> _ !! ?i ] =>
             destruct (decide (l = i));
             [ subst; rewrite ?lookup_insert_eq
             | rewrite ?(lookup_insert_ne _ l i) by assumption ]
         end;
  first [ reflexivity | congruence ].

(** X16. [createViewMatrix] overwrites the matrix it is given: the result
    does not depend on what the matrix held before. *)
Theorem createViewMatrix_overwrites_the_matrix (h : gmap positive object)
    (this matrix : positive) (m0 m1 : Matrix) :
  h !! matrix = Some (MatrixObj m0) ->
  (forall c, h !! this = Some (ArcBallObj c) ->
     ArcBallCamera_createViewMatrix this (Some matrix)
       (<[matrix := MatrixObj m1]> h) =
     ArcBallCamera_createViewMatrix this (Some matrix) h) /\
  (forall c, h !! this = Some (FirstPersonObj c) ->
     FirstPersonCamera_createViewMatrix this (Some matrix)
       (<[matrix := MatrixObj m1]> h) =
     FirstPersonCamera_createViewMatrix this (Some matrix) h).
Proof.
  intros Hm. split; intros c Hc.
  - pose proof (ArcBall_Matrix_distinct h _ _ _ _ Hc Hm) as Hne.
    erewrite (ArcBallCamera_createViewMatrix_run _ this matrix c m1)
      by first [ apply lookup_insert_eq
               | rewrite lookup_insert_ne by congruence; exact Hc ].
    erewrite (ArcBallCamera_createViewMatrix_run h this matrix c m0)
      by eassumption.
    f_equal. same_store.
  - pose proof (FirstPerson_Matrix_distinct h _ _ _ _ Hc Hm) as Hne.
    erewrite (FirstPersonCamera_createViewMatrix_run _ this matrix c m1)
      by first [ apply lookup_insert_eq
               | rewrite lookup_insert_ne by congruence; exact Hc ].
    erewrite (FirstPersonCamera_createViewMatrix_run h this matrix c m0)
      by eassumption.
    f_equal. same_store.
Qed.

Lemma toFirstPerson_assign_again (p : ViewingParameters)
    (o : FirstPersonCamera) :
  toFirstPerson_assign p
    (FirstPersonCamera_applyLimits (toFirstPerson_assign p o)) =
  toFirstPerson_assign p o.
Proof. reflexivity. Qed.

Lemma ArcBallCamera_applyLimits_range (c1 c2 : ArcBallCamera) :
  ab_range c1 = ab_range c2 -> ab_wwd c1 = ab_wwd c2 ->
  ab_range (ArcBallCamera_applyLimits c1) =
  ab_range (ArcBallCamera_applyLimits c2).
Proof.
  intros Hr Hw. unfold ArcBallCamera_applyLimits. rewrite Hr, Hw.
  destruct (is2D (globe (ab_wwd c2))); reflexivity.
Qed.

(** X17. Converting again changes nothing more.  [toFirstPerson] twice in
    a row into the same output leaves the store that one call leaves.  So
    does [toArcBall], provided the range that the output holds is a range
    that [applyLimits] keeps; the second call reads the range the first
    call has left. *)
Theorem conversion_twice (h : gmap positive object)
    (this out : positive) (m0 : Matrix) :
  (forall c o,
      h !! this = Some (ArcBallObj c) ->
      h !! ab_scratchMatrix c = Some (MatrixObj m0) ->
      h !! out = Some (FirstPersonObj o) ->
      (ArcBallCamera_toFirstPerson this (Some out);;
       ArcBallCamera_toFirstPerson this (Some out)) h =
      ArcBallCamera_toFirstPerson this (Some out) h) /\
  (forall c o,
      h !! this = Some (FirstPersonObj c) ->
      h !! fp_scratchMatrix c = Some (MatrixObj m0) ->
      h !! out = Some (ArcBallObj o) ->
      ab_range (ArcBallCamera_applyLimits o) = ab_range o ->
      (FirstPersonCamera_toArcBall this (Some out);;
       FirstPersonCamera_toArcBall this (Some out)) h =
      FirstPersonCamera_toArcBall this (Some out) h).
Proof.
  split.
  - intros c o Hc Hm Ho.
    pose proof (ArcBall_Matrix_distinct h _ _ _ _ Hc Hm) as Hne1.
    pose proof (ArcBall_FirstPerson_distinct h _ _ _ _ Hc Ho) as Hne2.
    assert (Hne3 : out <> ab_scratchMatrix c)
      by (eapply FirstPerson_Matrix_distinct; eassumption).
    pose proof (ArcBallCamera_toFirstPerson_run h this out c m0 o Hc Hm Ho)
      as Hrun. cbv zeta in Hrun.
    erewrite bind_Return by exact Hrun. rewrite Hrun.
    set (c' := ArcBallCamera_applyLimits c) in *.
    set (vm := ArcBallCamera_viewMatrix c') in *.
    set (c1 := ab_set_scratchVector (extractEyePoint vm) c') in *.
    set (o1 := FirstPersonCamera_applyLimits
                 (toFirstPerson_assign (ArcBallCamera_eyeParameters c') o))
      in *.
    assert (Hs : ab_scratchMatrix c1 = ab_scratchMatrix c).
    { unfold c1, c', ab_set_scratchVector, ArcBallCamera_applyLimits.
      destruct (is2D (globe (ab_wwd c))); reflexivity. }
    assert (Hl : ArcBallCamera_applyLimits c1 = c1).
    { unfold c1. rewrite ArcBallCamera_applyLimits_scratchVector.
      unfold c'. rewrite ArcBallCamera_applyLimits_twice. reflexivity. }
    erewrite (ArcBallCamera_toFirstPerson_run _ this out c1 vm o1).
    + rewrite Hl, Hs.
      change (ArcBallCamera_viewMatrix c1) with vm.
      change (ArcBallCamera_eyeParameters c1)
        with (ArcBallCamera_eyeParameters c').
      unfold o1 at 1. rewrite toFirstPerson_assign_again. fold o1.
      change (ab_set_scratchVector (extractEyePoint vm) c1) with c1.
      f_equal. same_store.
    + rewrite lookup_insert_ne by congruence. apply lookup_insert_eq.
    + rewrite Hs. rewrite lookup_insert_ne by congruence.
      rewrite lookup_insert_ne by congruence. apply lookup_insert_eq.
    + apply lookup_insert_eq.
  - intros c o Hc Hm Ho Hr.
    pose proof (FirstPerson_Matrix_distinct h _ _ _ _ Hc Hm) as Hne1.
    pose proof (ArcBall_FirstPerson_distinct h _ _ _ _ Ho Hc) as Hne2.
    pose proof (ArcBall_Matrix_distinct h _ _ _ _ Ho Hm) as Hne3.
    pose proof (FirstPersonCamera_toArcBall_run h this out c m0 o Hc Hm Ho)
      as Hrun. cbv zeta in Hrun.
    erewrite bind_Return by exact Hrun. rewrite Hrun.
    set (c' := FirstPersonCamera_applyLimits c) in *.
    set (vm := FirstPersonCamera_viewMatrix c') in *.
    set (p := FirstPersonCamera_lookAtParameters c' (ab_range o)) in *.
    set (c1 := toArcBall_this c' (ab_range o)) in *.
    set (o1 := ArcBallCamera_applyLimits (toArcBall_assign p o)) in *.
    assert (Hl : FirstPersonCamera_applyLimits c1 = c1)
      by apply FirstPersonCamera_applyLimits_toArcBall_this.
    assert (Hr1 : ab_range o1 = ab_range o).
    { unfold o1. transitivity (ab_range (ArcBallCamera_applyLimits o));
        [apply ArcBallCamera_applyLimits_range; reflexivity | exact Hr]. }
    assert (Ho1 : toArcBall_assign p o1 = toArcBall_assign p o).
    { unfold toArcBall_assign, ab_set_roll, ab_set_tilt, ab_set_heading,
        ab_set_position.
      cbn [ab_position ab_heading ab_tilt ab_range ab_roll ab_wwd
           ab_scratchMatrix ab_scratchVector].
      rewrite Hr1. unfold o1, ArcBallCamera_applyLimits, toArcBall_assign.
      cbn [ab_set_roll ab_set_tilt ab_set_heading ab_set_position ab_wwd].
      destruct (is2D (globe (ab_wwd o))); reflexivity. }
    erewrite (FirstPersonCamera_toArcBall_run _ this out c1 vm o1).
    + rewrite Hl, Hr1.
      change (fp_scratchMatrix c1) with (fp_scratchMatrix c).
      change (FirstPersonCamera_viewMatrix c1) with vm.
      change (FirstPersonCamera_lookAtParameters c1 (ab_range o)) with p.
      change (toArcBall_this c1 (ab_range o)) with c1.
      rewrite Ho1. fold o1.
      f_equal. same_store.
    + rewrite lookup_insert_ne by congruence. apply lookup_insert_eq.
    + change (fp_scratchMatrix c1) with (fp_scratchMatrix c).
      rewrite lookup_insert_ne by congruence.
      rewrite lookup_insert_ne by congruence. apply lookup_insert_eq.
    + apply lookup_insert_eq.
Qed.

(** *** A Position that is assigned stays shared *)

Lemma FirstPersonCamera_createViewMatrix_shared_run
    (h : gmap positive object) this matrix c q p m0 :
  h !! this = Some (FirstPersonShared c q) ->
  h !! q = Some (PositionObj p) ->
  h !! matrix = Some (MatrixObj m0) ->
  let c' := FirstPersonCamera_applyLimits (fp_set_position p c) in
  FirstPersonCamera_createViewMatrix this (Some matrix) h =
    (Return matrix,
     <[matrix := MatrixObj (FirstPersonCamera_viewMatrix c')]>
       (<[this := FirstPersonShared (fp_set_position (fp_position c) c') q]>
          (<[q := PositionObj (fp_position c')]> h))).
Proof.
  intros Hc Hq Hm c'.
  assert (Hne1 : this <> q) by congruence.
  assert (Hne2 : this <> matrix) by congruence.
  assert (Hne3 : q <> matrix) by congruence.
  unfold FirstPersonCamera_createViewMatrix.
  erewrite bind_Return
    by (eapply update_FirstPerson_shared_run; eassumption).
  erewrite bind_Return by (apply load_Matrix_run; lookup).
  erewrite bind_Return by reflexivity.
  erewrite bind_Return by (apply load_Matrix_run; lookup).
  erewrite bind_Return
    by (eapply load_FirstPerson_shared_run; [lookup | lookup]).
  erewrite bind_Return by reflexivity.
  unfold mret, M_ret. rewrite insert_insert_eq. reflexivity.
Qed.

(** X18. The Position object that is assigned to [lookAtLocation] is not
    copied: the camera holds the object itself.  Given to the navigators of
    two cameras, it is shared by the two: a range written through the
    first, a FirstPersonCamera, is the altitude that the second reads, as
    its range if it is a FirstPersonCamera and as the altitude of its
    [lookAtLocation] if it is an ArcBallCamera, whose range stays as it
    was.  It is shared with the application as well: the altitude that is
    written, and the limits that [createViewMatrix] applies, are written
    into the object that the application gave, and what the application
    writes into it afterwards is what the navigator reads. *)
Theorem Navigator_shares_the_assigned_position (h : gmap positive object)
    (position : positive) (p : Position) :
  h !! position = Some (PositionObj p) ->
  (forall a b ca cb v,
      a <> b ->
      h !! a = Some (FirstPersonObj ca) ->
      h !! b = Some (FirstPersonObj cb) ->
      fst ((Navigator_set_lookAtLocation (mkNavigator a) position;;
            Navigator_set_lookAtLocation (mkNavigator b) position;;
            Navigator_set_range (mkNavigator a) v;;
            Navigator_readAll (mkNavigator b)) h) =
        Return (mkPosition (latitude p) (longitude p) v, v,
                fp_heading cb, fp_tilt cb, fp_roll cb) /\
      fst ((Navigator_set_lookAtLocation (mkNavigator a) position;;
            Navigator_set_lookAtLocation (mkNavigator b) position;;
            Navigator_set_range (mkNavigator a) v;;
            load_Position position) h) =
        Return (mkPosition (latitude p) (longitude p) v)) /\
  (forall a b ca cb v,
      h !! a = Some (FirstPersonObj ca) ->
      h !! b = Some (ArcBallObj cb) ->
      fst ((Navigator_set_lookAtLocation (mkNavigator a) position;;
            Navigator_set_lookAtLocation (mkNavigator b) position;;
            Navigator_set_range (mkNavigator a) v;;
            Navigator_readAll (mkNavigator b)) h) =
        Return (mkPosition (latitude p) (longitude p) v, ab_range cb,
                ab_heading cb, ab_tilt cb, ab_roll cb)) /\
  (forall a c matrix m0,
      h !! a = Some (FirstPersonObj c) ->
      h !! matrix = Some (MatrixObj m0) ->
      fst ((Navigator_set_lookAtLocation (mkNavigator a) position;;
            FirstPersonCamera_createViewMatrix a (Some matrix);;
            load_Position position) h) =
        Return (mkPosition (WWMath.clamp (latitude p) (-90) 90)
                  (Angle.normalizedDegreesLongitude (longitude p))
                  (WWMath.clamp (altitude p) 0 Number.MAX_VALUE))) /\
  (forall a c p',
      h !! a = Some (FirstPersonObj c) ->
      fst ((Navigator_set_lookAtLocation (mkNavigator a) position;;
            store position (PositionObj p');;
            Navigator_readAll (mkNavigator a)) h) =
        Return (p', altitude p', fp_heading c, fp_tilt c, fp_roll c)).
Proof.
  intros Hp. split; [|split; [|split]].
  - intros a b ca cb v Hab Ha Hb.
    assert (Hne1 : a <> position) by congruence.
    assert (Hne2 : b <> position) by congruence.
    split.
    + erewrite bind_Return
        by (apply Navigator_set_lookAtLocation_FirstPerson_run; exact Ha).
      erewrite bind_Return
        by (apply Navigator_set_lookAtLocation_FirstPerson_run;
            cbn [Navigator_camera _camera]; lookup).
      erewrite bind_Return
        by (eapply write_camera_FirstPersonShared_run;
            [ cbn [Navigator_camera _camera]; lookup
            | cbn [Navigator_camera _camera]; lookup ]).
      erewrite Navigator_readAll_FirstPersonShared;
        [ | cbn [Navigator_camera _camera]; lookup
          | cbn [Navigator_camera _camera]; lookup ].
      reflexivity.
    + erewrite bind_Return
        by (apply Navigator_set_lookAtLocation_FirstPerson_run; exact Ha).
      erewrite bind_Return
        by (apply Navigator_set_lookAtLocation_FirstPerson_run;
            cbn [Navigator_camera _camera]; lookup).
      erewrite bind_Return
        by (eapply write_camera_FirstPersonShared_run;
            [ cbn [Navigator_camera _camera]; lookup
            | cbn [Navigator_camera _camera]; lookup ]).
      erewrite load_Position_run by (cbn [Navigator_camera _camera]; lookup).
      reflexivity.
  - intros a b ca cb v Ha Hb.
    assert (Hab : a <> b) by congruence.
    assert (Hne1 : a <> position) by congruence.
    assert (Hne2 : b <> position) by congruence.
    erewrite bind_Return
      by (apply Navigator_set_lookAtLocation_FirstPerson_run; exact Ha).
    erewrite bind_Return
      by (apply Navigator_set_lookAtLocation_ArcBall_run;
          cbn [Navigator_camera _camera]; lookup).
    erewrite bind_Return
      by (eapply write_camera_FirstPersonShared_run;
          [ cbn [Navigator_camera _camera]; lookup
          | cbn [Navigator_camera _camera]; lookup ]).
    erewrite Navigator_readAll_ArcBallShared;
      [ | cbn [Navigator_camera _camera]; lookup
        | cbn [Navigator_camera _camera]; lookup ].
    reflexivity.
  - intros a c matrix m0 Ha Hm.
    assert (Hne1 : a <> position) by congruence.
    assert (Hne2 : a <> matrix) by congruence.
    assert (Hne3 : position <> matrix) by congruence.
    erewrite bind_Return
      by (apply Navigator_set_lookAtLocation_FirstPerson_run; exact Ha).
    erewrite bind_Return
      by (eapply FirstPersonCamera_createViewMatrix_shared_run;
          [ cbn [Navigator_camera _camera]; lookup
          | cbn [Navigator_camera _camera]; lookup
          | cbn [Navigator_camera _camera]; lookup ]).
    erewrite load_Position_run by lookup.
    reflexivity.
  - intros a c p' Ha.
    assert (Hne1 : a <> position) by congruence.
    erewrite bind_Return
      by (apply Navigator_set_lookAtLocation_FirstPerson_run; exact Ha).
    erewrite bind_Return by reflexivity.
    erewrite Navigator_readAll_FirstPersonShared;
      [ | cbn [Navigator_camera _camera]; lookup
        | cbn [Navigator_camera _camera]; lookup ].
    reflexivity.
Qed.

End Cameras.

(** ** The theorems at concrete cameras and stores *)

(** The closure theorem on the flat globe of the tests: the cap is above 1,
    so the range of the limited camera lies between 1 and the cap. *)
Lemma applyLimits_domain_closure_witness :
  is2D flat_globe = true /\ 1 <= maxRange2D flat_globe /\
  1 <= ab_range (ArcBallCamera_applyLimits
                   (out_of_range_ArcBallCamera flat_globe)) /\
  ab_range (ArcBallCamera_applyLimits
              (out_of_range_ArcBallCamera flat_globe)) <=
    maxRange2D flat_globe.
Proof.
  assert (E : is2D flat_globe = true) by reflexivity.
  assert (Hcap : 1 <= maxRange2D flat_globe)
    by (vm_compute; intros H; discriminate H).
  split; [exact E|]. split; [exact Hcap|].
  destruct applyLimits_domain_closure as [HA _].
  specialize (HA (out_of_range_ArcBallCamera flat_globe)). cbv zeta in HA.
  destruct HA as (_ & _ & _ & _ & _ & _ & _ & _ & _ & Hrange).
  destruct (Hrange (fun _ => Hcap)) as [Hlow Hup].
  split; [exact Hlow | exact (Hup E)].
Defined.

(** The out-of-range camera on the flat globe ends with tilt 0. *)
Lemma flat_mode_asymmetry_witness :
  is2D (globe (ab_wwd (out_of_range_ArcBallCamera flat_globe))) = true /\
  ab_tilt (ArcBallCamera_applyLimits (out_of_range_ArcBallCamera flat_globe))
    = 0.
Proof.
  assert (E : is2D (globe (ab_wwd (out_of_range_ArcBallCamera flat_globe)))
              = true) by reflexivity.
  split; [exact E|].
  destruct flat_mode_asymmetry as [Hflat _].
  destruct (Hflat (out_of_range_ArcBallCamera flat_globe) E) as [Ht _].
  exact Ht.
Defined.

(** [createViewMatrix] of the sample FirstPersonCamera into the matrix at 5:
    the look-at primitive receives range 0 and tilt -25 + 90. *)
Lemma createViewMatrix_contract_witness :
  sample_store !! 5%positive = Some (MatrixObj Matrix_identity) /\
  sample_store !! 4%positive = Some (FirstPersonObj sample_FirstPersonCamera) /\
  FirstPersonCamera_createViewMatrix sample_multiplyByLookAtModelview
    4%positive (Some 5%positive) sample_store =
    (Return 5%positive,
     <[5%positive :=
         MatrixObj
           (sample_multiplyByLookAtModelview Matrix_identity
              (mkPosition 30 (-110) 75000) 0 60 (-25 + 90) 45 round_globe)]>
       (<[4%positive :=
            FirstPersonObj
              (FirstPersonCamera_applyLimits sample_FirstPersonCamera)]>
          sample_store)).
Proof.
  assert (Hm : sample_store !! 5%positive = Some (MatrixObj Matrix_identity))
    by reflexivity.
  assert (Hc : sample_store !! 4%positive
               = Some (FirstPersonObj sample_FirstPersonCamera))
    by reflexivity.
  split; [exact Hm|]. split; [exact Hc|].
  destruct (createViewMatrix_contract sample_multiplyByLookAtModelview
              sample_store 4%positive 5%positive Matrix_identity Hm)
    as [_ Hfp].
  exact (Hfp sample_FirstPersonCamera Hc).
Defined.

(** [toFirstPerson] of the sample ArcBallCamera (tilt 70) into the camera at
    4: with the sample primitives the extracted tilt is 70, and 70 - 90 is
    written. *)
Lemma tilt_offset_applied_once_witness :
  exists written h',
    ArcBallCamera_toFirstPerson sample_multiplyByLookAtModelview
      sample_extractEyePoint sample_extractViewingParameters
      2%positive (Some 4%positive) sample_store = (Return 4%positive, h') /\
    h' !! 4%positive =
      Some (FirstPersonObj (FirstPersonCamera_applyLimits written)) /\
    fp_tilt written = 70 - 90.
Proof.
  destruct (tilt_offset_applied_once sample_multiplyByLookAtModelview
              sample_extractEyePoint sample_extractForwardVector
              sample_extractViewingParameters
              sample_store 2%positive 4%positive Matrix_identity)
    as (_ & Hab & _).
  destruct (Hab sample_ArcBallCamera sample_FirstPersonCamera
              eq_refl eq_refl eq_refl)
    as (written & h' & Hrun & Hout & Ht & _).
  exists written, h'. split; [exact Hrun|]. split; [exact Hout|]. exact Ht.
Defined.

(** [toArcBall] of the sample FirstPersonCamera into the ArcBallCamera at 2,
    whose range is 6000000 before and after. *)
Lemma toArcBall_leaves_range_witness :
  1 <= ab_range sample_ArcBallCamera /\
  ab_range sample_ArcBallCamera <= Number.MAX_VALUE /\
  is2D (globe (ab_wwd sample_ArcBallCamera)) = false /\
  exists written h',
    FirstPersonCamera_toArcBall sample_multiplyByLookAtModelview
      sample_extractEyePoint sample_extractForwardVector
      sample_extractViewingParameters
      4%positive (Some 2%positive) sample_store = (Return 2%positive, h') /\
    h' !! 2%positive =
      Some (ArcBallObj (ArcBallCamera_applyLimits written)) /\
    ab_range (ArcBallCamera_applyLimits written) = 6000000.
Proof.
  assert (H1 : 1 <= ab_range sample_ArcBallCamera)
    by (vm_compute; intros H; discriminate H).
  assert (H2 : ab_range sample_ArcBallCamera <= Number.MAX_VALUE)
    by (vm_compute; intros H; discriminate H).
  assert (E : is2D (globe (ab_wwd sample_ArcBallCamera)) = false)
    by reflexivity.
  split; [exact H1|]. split; [exact H2|]. split; [exact E|].
  destruct (toArcBall_leaves_range sample_multiplyByLookAtModelview
              sample_extractEyePoint sample_extractForwardVector
              sample_extractViewingParameters
              sample_store 4%positive 2%positive sample_FirstPersonCamera
              Matrix_identity sample_ArcBallCamera eq_refl eq_refl eq_refl)
    as (written & h' & Hrun & Hout & _ & _ & Hrange).
  exists written, h'. split; [exact Hrun|]. split; [exact Hout|].
  exact (Hrange H1 H2 E).
Defined.

(** Navigators on the two sample cameras.  [range] reads the range of the
    ArcBallCamera and the altitude of the FirstPersonCamera; writing range
    5 writes the range of the one and the altitude of the other; writing
    [lookAtLocation] makes the camera hold the Position at 10; and each
    conversion returns the output camera it was given. *)
Lemma Navigator_facade_witness :
  Navigator_range (mkNavigator 2%positive) sample_store =
    (Return 6000000, sample_store) /\
  Navigator_range (mkNavigator 4%positive) sample_store =
    (Return 75000, sample_store) /\
  Navigator_set_range (mkNavigator 2%positive) 5 sample_store =
    (Return tt,
     <[2%positive := ArcBallObj
         {| ab_position := mkPosition 45 (-100) 1000000;
            ab_heading := 50; ab_tilt := 70; ab_range := 5; ab_roll := 45;
            ab_wwd := mkWorldWindow round_globe;
            ab_scratchMatrix := 1%positive;
            ab_scratchVector := mkVec3 0 0 0 |}]> sample_store) /\
  Navigator_set_range (mkNavigator 4%positive) 5 sample_store =
    (Return tt,
     <[4%positive := FirstPersonObj
         {| fp_position := mkPosition 30 (-110) 5;
            fp_heading := 60; fp_tilt := -25; fp_roll := 45;
            fp_wwd := mkWorldWindow round_globe;
            fp_scratchMatrix := 3%positive;
            fp_scratchVector := mkVec3 0 0 0;
            fp_ray := mkLine (mkVec3 0 0 0) (mkVec3 0 0 0) |}]>
       sample_store) /\
  Navigator_set_lookAtLocation (mkNavigator 4%positive) 10%positive
    sample_store_position =
    (Return tt,
     <[4%positive := FirstPersonShared sample_FirstPersonCamera 10%positive]>
       sample_store_position) /\
  fst (Navigator_getAsFirstPersonCamera sample_multiplyByLookAtModelview
         sample_extractEyePoint sample_extractViewingParameters
         (mkNavigator 2%positive) (Some 4%positive) sample_store) =
    Return 4%positive /\
  fst (Navigator_getAsArcBallCamera sample_multiplyByLookAtModelview
         sample_extractEyePoint sample_extractForwardVector
         sample_extractViewingParameters
         (mkNavigator 4%positive) (Some 2%positive) sample_store) =
    Return 2%positive.
Proof.
  destruct (Navigator_facade sample_multiplyByLookAtModelview
              sample_extractEyePoint sample_extractForwardVector
              sample_extractViewingParameters sample_store 2%positive)
    as (_ & _ & Hab & _).
  destruct (Hab sample_ArcBallCamera eq_refl)
    as ((_ & Hrange2 & _) & Hset2 & _ & _ & Hconv2 & _).
  destruct (Navigator_facade sample_multiplyByLookAtModelview
              sample_extractEyePoint sample_extractForwardVector
              sample_extractViewingParameters sample_store 4%positive)
    as (_ & _ & _ & Hfp & _).
  destruct (Hfp sample_FirstPersonCamera eq_refl)
    as ((_ & Hrange4 & _) & Hset4 & _ & _ & Hconv4 & _).
  destruct (Navigator_facade sample_multiplyByLookAtModelview
              sample_extractEyePoint sample_extractForwardVector
              sample_extractViewingParameters sample_store_position
              4%positive)
    as (_ & _ & _ & Hfp' & _).
  destruct (Hfp' sample_FirstPersonCamera eq_refl)
    as (_ & _ & Hlook & _).
  split; [exact Hrange2|]. split; [exact Hrange4|].
  split; [exact (proj1 (Hset2 5))|].
  split; [exact (proj1 (Hset4 5))|].
  split; [exact (Hlook 10%positive)|].
  split.
  - exact (proj2 (Hconv2 4%positive sample_FirstPersonCamera Matrix_identity
                    eq_refl eq_refl)).
  - exact (proj2 (Hconv4 2%positive sample_ArcBallCamera Matrix_identity
                    eq_refl eq_refl)).
Defined.

(** [copy] of the sample ArcBallCamera onto itself. *)
Lemma copy_onto_itself_witness :
  ArcBallCamera_copy 2%positive (Some 2%positive) sample_store =
    (Return 2%positive, sample_store).
Proof.
  destruct (copy_onto_itself sample_store 2%positive) as [Hab _].
  exact (Hab sample_ArcBallCamera eq_refl).
Defined.

(** Copying the FirstPersonCamera at 4 into the ArcBallCamera at 2 after a
    copy of the ArcBallCamera itself. *)
Lemma copy_last_wins_witness :
  (ArcBallCamera_copy 2%positive (Some 2%positive);;
   ArcBallCamera_copy 2%positive (Some 4%positive)) sample_store =
  ArcBallCamera_copy 2%positive (Some 4%positive) sample_store.
Proof.
  destruct (copy_last_wins sample_store 2%positive 2%positive 4%positive
              (ArcBallObj sample_ArcBallCamera)
              (FirstPersonObj sample_FirstPersonCamera)
              eq_refl eq_refl eq_refl eq_refl) as [Hab _].
  - intros H. discriminate H.
  - exact (Hab sample_ArcBallCamera eq_refl).
Defined.

(** The second ArcBallCamera copied onto the sample one: both then give the
    same view matrix. *)
Lemma copy_gives_the_same_view_matrix_witness :
  exists h1 h2 h3 vm,
    ArcBallCamera_copy 2%positive (Some 6%positive) sample_store_two =
      (Return 2%positive, h1) /\
    ArcBallCamera_createViewMatrix sample_multiplyByLookAtModelview
      2%positive (Some 5%positive) h1 = (Return 5%positive, h2) /\
    ArcBallCamera_createViewMatrix sample_multiplyByLookAtModelview
      6%positive (Some 5%positive) sample_store_two = (Return 5%positive, h3) /\
    h2 !! 5%positive = Some (MatrixObj vm) /\
    h3 !! 5%positive = Some (MatrixObj vm).
Proof.
  destruct (copy_gives_the_same_view_matrix sample_multiplyByLookAtModelview
              sample_store_two 6%positive 2%positive 5%positive
              Matrix_identity eq_refl) as [Hab _].
  exact (Hab second_ArcBallCamera sample_ArcBallCamera
           eq_refl eq_refl eq_refl).
Defined.

(** [clone] of the sample ArcBallCamera without an output. *)
Lemma clone_makes_an_independent_copy_witness :
  exists out c' h',
    ArcBallCamera_clone 2%positive None sample_store = (Return out, h') /\
    sample_store !! out = None /\ h' !! out = Some (ArcBallObj c') /\
    ab_range c' = 6000000 /\
    h' !! 2%positive = Some (ArcBallObj sample_ArcBallCamera).
Proof.
  destruct (clone_makes_an_independent_copy sample_store 2%positive)
    as [Hab _].
  destruct (Hab sample_ArcBallCamera eq_refl) as [Hnew _].
  destruct Hnew as (out & c' & h' & Hrun & Hfresh & Hout & _ & _ & _ & Hr
                    & _ & _ & _ & Hframe).
  exists out, c', h'.
  split; [exact Hrun|]. split; [exact Hfresh|]. split; [exact Hout|].
  split; [exact Hr|].
  exact (Hframe 2%positive (ArcBallObj sample_ArcBallCamera) eq_refl).
Defined.

(** [createViewMatrix] of the second ArcBallCamera, twice. *)
Lemma createViewMatrix_twice_witness :
  (ArcBallCamera_createViewMatrix sample_multiplyByLookAtModelview
     6%positive (Some 5%positive);;
   ArcBallCamera_createViewMatrix sample_multiplyByLookAtModelview
     6%positive (Some 5%positive)) sample_store_two =
  ArcBallCamera_createViewMatrix sample_multiplyByLookAtModelview
    6%positive (Some 5%positive) sample_store_two.
Proof.
  destruct (createViewMatrix_twice sample_multiplyByLookAtModelview
              sample_store_two 6%positive 5%positive Matrix_identity eq_refl)
    as [Hab _].
  exact (Hab second_ArcBallCamera eq_refl).
Defined.

(** The look-at arguments of the sample FirstPersonCamera: tilt -25 + 90. *)
Lemma lookAt_arguments_within_domain_witness :
  exists h',
    FirstPersonCamera_createViewMatrix sample_multiplyByLookAtModelview
      4%positive (Some 5%positive) sample_store = (Return 5%positive, h') /\
    0 <= fp_tilt (FirstPersonCamera_applyLimits sample_FirstPersonCamera) + 90
    /\
    fp_tilt (FirstPersonCamera_applyLimits sample_FirstPersonCamera) + 90
      <= 180.
Proof.
  destruct (lookAt_arguments_within_domain sample_multiplyByLookAtModelview
              sample_store 4%positive 5%positive Matrix_identity eq_refl)
    as [Hfp _].
  destruct (Hfp sample_FirstPersonCamera eq_refl)
    as (h' & Hrun & _ & T1 & T2 & _).
  exists h'. split; [exact Hrun|]. split; [exact T1|exact T2].
Defined.

(** After [toFirstPerson] of the second ArcBallCamera, which was outside
    the limits, both cameras are within them. *)
Lemma methods_leave_cameras_limited_witness :
  exists c' o' h',
    ArcBallCamera_toFirstPerson sample_multiplyByLookAtModelview
      sample_extractEyePoint sample_extractViewingParameters
      6%positive (Some 4%positive) sample_store_two = (Return 4%positive, h') /\
    h' !! 6%positive = Some (ArcBallObj c') /\
    ArcBallCamera_applyLimits c' = c' /\
    h' !! 4%positive = Some (FirstPersonObj o') /\
    FirstPersonCamera_applyLimits o' = o'.
Proof.
  destruct (methods_leave_cameras_limited sample_multiplyByLookAtModelview
              sample_extractEyePoint sample_extractForwardVector
              sample_extractViewingParameters
              sample_store_two 6%positive Matrix_identity)
    as (_ & _ & Hconv & _).
  exact (Hconv second_ArcBallCamera 4%positive sample_FirstPersonCamera
           eq_refl eq_refl eq_refl).
Defined.

(** [toFirstPerson] in the second sample store: the ArcBallCamera at 2 is
    not touched by the conversion of the one at 6. *)
Lemma toFirstPerson_touches_three_objects_witness :
  exists h',
    ArcBallCamera_toFirstPerson sample_multiplyByLookAtModelview
      sample_extractEyePoint sample_extractViewingParameters
      6%positive (Some 4%positive) sample_store_two = (Return 4%positive, h') /\
    dom h' = dom sample_store_two /\
    h' !! 2%positive = Some (ArcBallObj sample_ArcBallCamera).
Proof.
  destruct (toFirstPerson_touches_three_objects
              sample_multiplyByLookAtModelview
              sample_extractEyePoint sample_extractViewingParameters
              sample_store_two 6%positive 4%positive second_ArcBallCamera
              Matrix_identity sample_FirstPersonCamera
              eq_refl eq_refl eq_refl)
    as (c' & o' & h' & Hrun & _ & _ & _ & _ & Hdom & Hframe & _).
  exists h'. split; [exact Hrun|]. split; [exact Hdom|].
  rewrite (Hframe 2%positive) by (intros H; discriminate H).
  reflexivity.
Defined.

(** [toArcBall] in the second sample store, into the ArcBallCamera at 2:
    the one at 6 is not touched. *)
Lemma toArcBall_touches_three_objects_witness :
  exists h',
    FirstPersonCamera_toArcBall sample_multiplyByLookAtModelview
      sample_extractEyePoint sample_extractForwardVector
      sample_extractViewingParameters
      4%positive (Some 2%positive) sample_store_two = (Return 2%positive, h') /\
    dom h' = dom sample_store_two /\
    h' !! 6%positive = Some (ArcBallObj second_ArcBallCamera).
Proof.
  destruct (toArcBall_touches_three_objects
              sample_multiplyByLookAtModelview
              sample_extractEyePoint sample_extractForwardVector
              sample_extractViewingParameters
              sample_store_two 4%positive 2%positive sample_FirstPersonCamera
              Matrix_identity sample_ArcBallCamera
              eq_refl eq_refl eq_refl)
    as (c' & o' & h' & Hrun & _ & _ & _ & _ & Hdom & Hframe & _).
  exists h'. split; [exact Hrun|]. split; [exact Hdom|].
  rewrite (Hframe 6%positive) by (intros H; discriminate H).
  reflexivity.
Defined.

(** [toArcBall] into an ArcBallCamera whose range is 1/2: the output ends
    with range 1. *)
Lemma toArcBall_reads_the_range_before_limiting_witness :
  exists o' h',
    FirstPersonCamera_toArcBall sample_multiplyByLookAtModelview
      sample_extractEyePoint sample_extractForwardVector
      sample_extractViewingParameters
      4%positive (Some 2%positive) sample_store_near = (Return 2%positive, h') /\
    h' !! 2%positive = Some (ArcBallObj o') /\
    ab_range o' = 1.
Proof.
  destruct (toArcBall_reads_the_range_before_limiting
              sample_multiplyByLookAtModelview
              sample_extractEyePoint sample_extractForwardVector
              sample_extractViewingParameters
              sample_store_near 4%positive 2%positive sample_FirstPersonCamera
              Matrix_identity (ab_set_range (1 # 2) sample_ArcBallCamera)
              eq_refl eq_refl eq_refl eq_refl)
    as (o' & h' & Hrun & Hout & _ & Hbelow & _).
  exists o', h'. split; [exact Hrun|]. split; [exact Hout|].
  apply Hbelow. reflexivity.
Defined.

(** Writing tilt 100 through a navigator on the sample FirstPersonCamera,
    writing range 5 through it, and assigning it the Position at 10. *)
Lemma Navigator_write_then_read_witness :
  fst ((Navigator_set_tilt (mkNavigator 4%positive) 100;;
        Navigator_readAll (mkNavigator 4%positive)) sample_store) =
    Return (mkPosition 30 (-110) 75000, 75000, 60, 100, 45) /\
  fst ((Navigator_set_range (mkNavigator 4%positive) 5;;
        Navigator_readAll (mkNavigator 4%positive)) sample_store) =
    Return (mkPosition 30 (-110) 5, 5, 60, -25, 45) /\
  fst ((Navigator_set_lookAtLocation (mkNavigator 4%positive) 10%positive;;
        Navigator_readAll (mkNavigator 4%positive)) sample_store_position) =
    Return (mkPosition 10 20 30, 30, 60, -25, 45).
Proof.
  destruct (Navigator_write_then_read sample_store 4%positive) as [_ Hfp].
  destruct (Hfp sample_FirstPersonCamera 100 eq_refl)
    as (_ & _ & _ & Ht & _).
  destruct (Hfp sample_FirstPersonCamera 5 eq_refl)
    as (_ & Hr & _).
  destruct (Navigator_write_then_read sample_store_position 4%positive)
    as [_ Hfp'].
  destruct (Hfp' sample_FirstPersonCamera 5 eq_refl) as (Hl & _).
  split; [exact Ht|]. split; [exact Hr|].
  exact (Hl 10%positive sample_Position eq_refl).
Defined.

(** A navigator on the sample ArcBallCamera, asked for an ArcBallCamera
    with that camera as the output. *)
Lemma Navigator_same_model_leaves_the_camera_witness :
  Navigator_getAsArcBallCamera sample_multiplyByLookAtModelview
    sample_extractEyePoint sample_extractForwardVector
    sample_extractViewingParameters
    (mkNavigator 2%positive) (Some 2%positive) sample_store =
    (Return 2%positive, sample_store).
Proof.
  destruct (Navigator_same_model_leaves_the_camera
              sample_multiplyByLookAtModelview
              sample_extractEyePoint sample_extractForwardVector
              sample_extractViewingParameters sample_store 2%positive)
    as [Hab _].
  exact (proj1 (Hab sample_ArcBallCamera eq_refl)).
Defined.

(** A navigator on the second ArcBallCamera (heading 370, tilt 100), asked
    for a FirstPersonCamera: it reads heading 10 and tilt 90 afterwards. *)
Lemma Navigator_conversion_limits_the_active_camera_witness :
  fst ((Navigator_getAsFirstPersonCamera sample_multiplyByLookAtModelview
          sample_extractEyePoint sample_extractViewingParameters
          (mkNavigator 6%positive) (Some 4%positive);;
        Navigator_readAll (mkNavigator 6%positive)) sample_store_two) =
    Return (mkPosition 0 0 0, 10000000, 10, 90, 0).
Proof.
  destruct (Navigator_conversion_limits_the_active_camera
              sample_multiplyByLookAtModelview
              sample_extractEyePoint sample_extractForwardVector
              sample_extractViewingParameters
              sample_store_two 6%positive 4%positive Matrix_identity)
    as [Hab _].
  exact (Hab second_ArcBallCamera sample_FirstPersonCamera
           eq_refl eq_refl eq_refl).
Defined.

(** The sample ArcBallCamera is within the limits. *)
Lemma applyLimits_keeps_a_camera_within_limits_witness :
  ArcBallCamera_applyLimits sample_ArcBallCamera = sample_ArcBallCamera.
Proof.
  destruct applyLimits_keeps_a_camera_within_limits as [Hab _].
  apply Hab; unfold normalized;
    repeat match goal with
           | |- _ /\ _ => split
           | |- _ <= _ => vm_compute; intros X; discriminate X
           | |- _ < _ => vm_compute; reflexivity
           | |- _ = true -> _ => intros X; discriminate X
           end.
Defined.

(** [createViewMatrix] into the matrix at 5, whatever it holds. *)
Lemma createViewMatrix_overwrites_the_matrix_witness :
  ArcBallCamera_createViewMatrix sample_multiplyByLookAtModelview
    2%positive (Some 5%positive)
    (<[5%positive := MatrixObj (mkMatrix 2 0 0 0 0 2 0 0 0 0 2 0 0 0 0 2)]>
       sample_store) =
  ArcBallCamera_createViewMatrix sample_multiplyByLookAtModelview
    2%positive (Some 5%positive) sample_store.
Proof.
  destruct (createViewMatrix_overwrites_the_matrix
              sample_multiplyByLookAtModelview
              sample_store 2%positive 5%positive Matrix_identity
              (mkMatrix 2 0 0 0 0 2 0 0 0 0 2 0 0 0 0 2) eq_refl)
    as [Hab _].
  exact (Hab sample_ArcBallCamera eq_refl).
Defined.

(** [toArcBall] twice into the sample ArcBallCamera, whose range the limits
    keep. *)
Lemma conversion_twice_witness :
  ab_range (ArcBallCamera_applyLimits sample_ArcBallCamera) =
    ab_range sample_ArcBallCamera /\
  (FirstPersonCamera_toArcBall sample_multiplyByLookAtModelview
     sample_extractEyePoint sample_extractForwardVector
     sample_extractViewingParameters 4%positive (Some 2%positive);;
   FirstPersonCamera_toArcBall sample_multiplyByLookAtModelview
     sample_extractEyePoint sample_extractForwardVector
     sample_extractViewingParameters 4%positive (Some 2%positive))
    sample_store =
  FirstPersonCamera_toArcBall sample_multiplyByLookAtModelview
    sample_extractEyePoint sample_extractForwardVector
    sample_extractViewingParameters 4%positive (Some 2%positive)
    sample_store.
Proof.
  assert (Hr : ab_range (ArcBallCamera_applyLimits sample_ArcBallCamera) =
               ab_range sample_ArcBallCamera) by reflexivity.
  split; [exact Hr|].
  destruct (conversion_twice sample_multiplyByLookAtModelview
              sample_extractEyePoint sample_extractForwardVector
              sample_extractViewingParameters
              sample_store 4%positive 2%positive Matrix_identity)
    as [_ Hfp].
  exact (Hfp sample_FirstPersonCamera sample_ArcBallCamera
           eq_refl eq_refl eq_refl Hr).
Defined.

(** The Position at 10 (altitude 30), assigned to the navigators of the two
    FirstPersonCameras at 4 and 9: range 5 written through the first is
    the range that the second reads. *)
Lemma Navigator_shares_the_assigned_position_witness :
  sample_store_position !! 10%positive = Some (PositionObj sample_Position) /\
  fst ((Navigator_set_lookAtLocation (mkNavigator 4%positive) 10%positive;;
        Navigator_set_lookAtLocation (mkNavigator 9%positive) 10%positive;;
        Navigator_set_range (mkNavigator 4%positive) 5;;
        Navigator_readAll (mkNavigator 9%positive)) sample_store_position) =
    Return (mkPosition 10 20 5, 5, 0, 0, 0).
Proof.
  assert (Hp : sample_store_position !! 10%positive =
               Some (PositionObj sample_Position)) by reflexivity.
  split; [exact Hp|].
  destruct (Navigator_shares_the_assigned_position
              sample_multiplyByLookAtModelview
              sample_store_position 10%positive sample_Position Hp)
    as [Hfp _].
  assert (Hne : 4%positive <> 9%positive) by discriminate.
  exact (proj1 (Hfp 4%positive 9%positive sample_FirstPersonCamera
                  second_FirstPersonCamera 5 Hne eq_refl eq_refl)).
Defined.
